(** * fls-ap-offboard-controller: the Vicon acquisition loop and the latency analyser

    A shallow embedding of [vicon.py] (the two thread classes
    [ViconWrapper] and [VirtualViconWrapper]) and of [latency_analyse.py]
    (the regular expression scan and the min / max / mean summary).

    Conventions.
    - The motion-tracking client, the callback, the clock and the file
      system are outside the program.  What they answer is given by an
      environment record: one field per call, holding either the value the
      call returns or the exception it raises.
    - Everything the program does to the outside is recorded, in order, in
      a trace of events.
    - [run] is a function of the session: the environment lists the
      iterations of the loop that begin while [self.running] is set.  The
      two threads, with the flag shared between them, are modelled apart
      (an interleaving of atomic steps), and a worker that is over there
      is shown to have done what [run] does.
    - Python floats are kept abstract (class [PyFloat]); only the operations
      the program applies to them are named.  The callback is taken to
      return a float.
    - The analyser reads its text as a sequence of Unicode code points;
      which of them are decimal digits is given by a table (class
      [Unicode]).  The doubles of its data frame are abstract as well
      (class [Double]), with the laws of IEEE 754 arithmetic that the
      statements rely on.

    The file has three parts: the embedding, the vocabulary of the
    statements with some concrete sessions, and the lemmas and theorems. *)

From Stdlib Require Import ZArith QArith Qminmax Qcanon List String Ascii Bool
  Arith Lia Lqa Sorted Permutation.
Import ListNotations.

Local Open Scope string_scope.
Local Open Scope list_scope.

(** ** Exceptions and results *)

(** The part of Python's exception hierarchy that [run] distinguishes:
    the exceptions that derive from [Exception], and those that derive from
    [BaseException] only, which are [KeyboardInterrupt], [SystemExit] and
    the others ([GeneratorExit], a class of the caller's own). *)
Inductive exn : Type :=
| KeyboardInterrupt
| SystemExit
| BaseException (what : string)
| Exception (what : string).

Inductive res (A : Type) : Type :=
| Ok (a : A)
| Raise (e : exn).

Arguments Ok {A} a.
Arguments Raise {A} e.

(** ** Floats *)

Class PyFloat (F : Type) : Type := {
  of_int : Z -> F;              (* float(n), also the literal 0.0 *)
  fadd : F -> F -> F;           (* x + y *)
  fmul : F -> F -> F;           (* x * y *)
  fgt : F -> F -> bool;         (* x > y *)
  fgt_irrefl : forall x, fgt x x = false
}.

(** Rationals are one model of the interface; the concrete runs below use it. *)
#[export] Instance PyFloat_Q : PyFloat Q := {
  of_int := inject_Z;
  fadd := Qplus;
  fmul := Qmult;
  fgt := fun x y => negb (Qle_bool x y);
  fgt_irrefl := fun x =>
    f_equal negb (proj2 (Qle_bool_iff x x) (Qle_refl x))
}.

(** ** Values, events and the wrapper object *)

Section Runtime.
Context {F : Type}.

(** The values that end up in the JSON log. *)
Inductive num : Type :=
| Int (n : Z)
| Float (x : F).

Inductive pyval : Type :=
| Num (v : num)
| PList (l : list num).

(** A dict literal, in insertion order. *)
Definition record : Type := list (string * pyval).

Fixpoint lookup (k : string) (r : record) : option pyval :=
  match r with
  | [] => None
  | (k', v) :: r' => if String.eqb k k' then Some v else lookup k r'
  end.

Definition keys (r : record) : list string := map fst r.

Inductive level : Type := DEBUG | INFO | WARNING | ERROR.

(** One constructor per f-string passed to the logger. *)
Inductive message : Type :=
| MsgClientCreated                       (* "Client object created." *)
| MsgConnecting                          (* "Attempting to connect to Vicon server at ..." *)
| MsgConnected                           (* "Connection successful!" *)
| MsgMarkerSegmentEnabled                (* "Marker and Segment data enabled." *)
| MsgSubject (name : string)             (* "\tSubject: {subject_name}" *)
| MsgUnlabeledEnabled                    (* "Unlabeled marker data enabled." *)
| MsgStreamMode                          (* "Stream mode set to ClientPull." *)
| MsgUnlabeledCount (c : option Z)       (* "\tUnlabeled marker count: {object_count}" *)
| MsgSystemLatency (total fc vicon : F)  (* "System Latency: {} ms. FC Latency: {}, Vicon Latency: {}" *)
| MsgPosition (x y z : num)              (* "\tPosition (mm): X=.., Y=.., Z=.." *)
| MsgOccluded                            (* "\tPosition (mm): Occluded or no data" *)
| MsgInterrupted                         (* "\nScript interrupted by user." *)
| MsgUnexpected (e : exn)                (* "An unexpected error occurred: {e}" *)
| MsgSaved                               (* "Vicon log saved in {file_path}" *)
| MsgDisconnected                        (* "Disconnected from Vicon server." *)
| MsgGenerating.                         (* "Generating Synthetic Vicon data" *)

(** The methods of [PyViconDatastream] that [run] calls. *)
Inductive client_call : Type :=
| Cconnect
| Cenable_marker_data
| Cenable_segment_data
| Cenable_unlabeled_marker_data
| Cset_stream_mode
| Cset_axis_mapping
| Cget_frame
| Cget_frame_number
| Cget_subject_count
| Cget_unlabeled_marker_count
| Cget_subject_name
| Cget_subject_root_segment_name
| Cget_segment_global_translation
| Cget_segment_global_rotation_euler_xyz
| Cget_unlabeled_marker_global_translation
| Cget_time_code
| Cget_latency_total
| Cis_connected
| Cdisconnect.

Inductive event : Type :=
| Call (c : client_call)                          (* a client method is called *)
| Log (l : level) (m : message)                   (* self.logger.<l>(m) *)
| Sleep                                           (* time.sleep(1/50) *)
| Callback (args : list pyval) (timestamp : option F)  (* self.callback(args.., timestamp=..) *)
| Written (frames : list record).                 (* json.dump({"frames": frames}, f) done *)

(** The fields of the thread object that [run] and [stop] touch, and the
    trace of what has been done so far. *)
Record state : Type := {
  running : bool;
  position_log : list record;
  trace : list event
}.

(** [__init__]: [running = False], [position_log = []]. *)
Definition init_state : state :=
  {| running := false; position_log := []; trace := [] |}.

(** ** A state and exception monad *)

Definition M (A : Type) : Type := state -> res A * state.

Definition ret {A} (a : A) : M A := fun s => (Ok a, s).

Definition bind {A B} (m : M A) (k : A -> M B) : M B :=
  fun s =>
    match m s with
    | (Ok a, s') => k a s'
    | (Raise e, s') => (Raise e, s')
    end.

Definition raise {A} (e : exn) : M A := fun s => (Raise e, s).

Definition emit (ev : event) : M unit :=
  fun s => (Ok tt, {| running := running s;
                      position_log := position_log s;
                      trace := trace s ++ [ev] |}).

Definition set_running (b : bool) : M unit :=
  fun s => (Ok tt, {| running := b;
                      position_log := position_log s;
                      trace := trace s |}).

(** [self.position_log.append(r)] *)
Definition append (r : record) : M unit :=
  fun s => (Ok tt, {| running := running s;
                      position_log := position_log s ++ [r];
                      trace := trace s |}).

(** A value or an exception coming from outside. *)
Definition lift {A} (r : res A) : M A := fun s => (r, s).

(** A client method is called, and answers [r]. *)
Definition call {A} (c : client_call) (r : res A) : M A :=
  bind (emit (Call c)) (fun _ => lift r).

Definition log (l : level) (m : message) : M unit := emit (Log l m).

(** [try: body / except ...: handler / finally: fin].  [handler e] is the
    except clause that catches [e], if there is one.  The finally block runs
    on every path; an exception it raises replaces the pending outcome. *)
Definition except_ {A} (handler : exn -> option (M A)) (r : res A) : M A :=
  match r with
  | Ok a => ret a
  | Raise e =>
      match handler e with
      | Some h => h
      | None => raise e
      end
  end.

Definition finally_ {A} (fin : M unit) (r : res A) : M A :=
  fun s =>
    match fin s with
    | (Ok _, s') => (r, s')
    | (Raise e, s') => (Raise e, s')
    end.

Definition try_except_finally {A} (body : M A)
    (handler : exn -> option (M A)) (fin : M unit) : M A :=
  fun s =>
    let '(r, s1) := body s in
    let '(r', s2) := except_ handler r s1 in
    finally_ fin r' s2.

End Runtime.

Arguments num F : clear implicits.
Arguments pyval F : clear implicits.
Arguments record F : clear implicits.
Arguments message F : clear implicits.
Arguments event F : clear implicits.
Arguments state F : clear implicits.
Arguments M F A : clear implicits.

Declare Scope py_scope.
Delimit Scope py_scope with py.
Notation "x <- c ;; k" := (bind c (fun x => k))
  (at level 61, c at next level, right associativity) : py_scope.
Notation "c ;;; k" := (bind c (fun _ => k))
  (at level 61, right associativity) : py_scope.

(** * vicon.py, class ViconWrapper *)

Module ViconWrapper.
Section WithFloat.
Context {F : Type} {FO : PyFloat F}.

Local Open Scope py_scope.

(** The constructor arguments that [run] reads.  [callback] is
    [callable(self.callback)]; what the callback returns is part of the
    environment.  (The log level only configures the logger.) *)
Record config : Type := {
  callback : bool;
  labeled_object : bool
}.

Definition vec3 : Type := (F * F * F)%type.

(** What the client answers while connecting and configuring. *)
Record connect_env : Type := {
  connect : res unit;
  enable_marker_data : res unit;
  enable_segment_data : res unit;
  first_subject_name : res (option string);      (* get_subject_name(0) *)
  enable_unlabeled_marker_data : res unit;
  set_stream_mode : res unit;
  set_axis_mapping : res unit
}.

(** What the client, the clock and the callback answer during one
    iteration of the loop. *)
Record frame_env : Type := {
  get_frame : res bool;
  get_frame_number : res Z;
  get_subject_count : res (option Z);
  get_unlabeled_marker_count : res (option Z);
  get_subject_name : res (option string);
  get_subject_root_segment_name : res string;
  get_segment_global_translation : res (option vec3);
  get_segment_global_rotation_euler_xyz : res (option vec3);
  get_unlabeled_marker_global_translation : res (option vec3);
  time_time : F;
  callback_result : res F;
  get_time_code : res unit;
  get_latency_total : res F
}.

(** What the file system and the client answer in the finally block. *)
Record stop_env : Type := {
  write_log : res unit;      (* with open(file_path, "w") as f: json.dump(..) *)
  is_connected : res bool;
  disconnect : res unit
}.

(** One session.  [frames] lists the iterations of the loop that begin
    while [self.running] is still set: after the last of them the flag is
    read as [False]. *)
Record env : Type := {
  create_client : res unit;   (* PyViconDatastream() *)
  setup : connect_env;
  frames : list frame_env;
  final : stop_env
}.

(** [if subject_name:] *)
Definition truthy (name : option string) : bool :=
  match name with
  | Some (String _ _) => true
  | _ => false
  end.

Definition text (name : option string) : string :=
  match name with
  | Some s => s
  | None => "None"
  end.

(** [object_count is not None and object_count == 1] *)
Definition is_one (object_count : option Z) : bool :=
  match object_count with
  | Some n => Z.eqb n 1
  | None => false
  end.

(** Lines 36-56: the body of [try] before the loop. *)
Definition connecting (cfg : config) (ce : connect_env) : M F unit :=
  log INFO MsgConnecting ;;;
  call Cconnect (connect ce) ;;;
  log INFO MsgConnected ;;;
  (if labeled_object cfg then
     call Cenable_marker_data (enable_marker_data ce) ;;;
     call Cenable_segment_data (enable_segment_data ce) ;;;
     log INFO MsgMarkerSegmentEnabled ;;;
     subject_name <- call Cget_subject_name (first_subject_name ce) ;;
     if truthy subject_name then log INFO (MsgSubject (text subject_name))
     else ret tt
   else
     call Cenable_unlabeled_marker_data (enable_unlabeled_marker_data ce) ;;;
     log INFO MsgUnlabeledEnabled) ;;;
  call Cset_stream_mode (set_stream_mode ce) ;;;
  log INFO MsgStreamMode ;;;
  call Cset_axis_mapping (set_axis_mapping ce).

(** Lines 73-84: translation and rotation of the single tracked object. *)
Definition extract_pose (cfg : config) (d : frame_env)
  : M F (option vec3 * option vec3) :=
  if labeled_object cfg then
    subject_name <- call Cget_subject_name (get_subject_name d) ;;
    if truthy subject_name then
      log DEBUG (MsgSubject (text subject_name)) ;;;
      root_segment <- call Cget_subject_root_segment_name
                        (get_subject_root_segment_name d) ;;
      translation <- call Cget_segment_global_translation
                        (get_segment_global_translation d) ;;
      rotation <- call Cget_segment_global_rotation_euler_xyz
                        (get_segment_global_rotation_euler_xyz d) ;;
      ret (translation, rotation)
    else ret (None, None)
  else
    translation <- call Cget_unlabeled_marker_global_translation
                      (get_unlabeled_marker_global_translation d) ;;
    ret (translation, None).

(** The dict appended at lines 89-93. *)
Definition frame_record (frame_num : Z) (pos_x pos_y pos_z now : F) : record F :=
  [ ("frame_id", Num (Int frame_num));
    ("tvec", PList [Float pos_x; Float pos_y; Float pos_z]);
    ("time", Num (Float (fmul now (of_int 1000)))) ].

(** Lines 94-100: the callback, with or without the three Euler angles. *)
Definition invoke_callback (cfg : config) (d : frame_env)
    (pos_x pos_y pos_z : F) (rotation : option vec3) (now : F) : M F F :=
  if callback cfg then
    match rotation with
    | Some (r0, r1, r2) =>
        emit (Callback (map (fun x => Num (Float x))
                          [pos_x; pos_y; pos_z; r0; r1; r2]) (Some now)) ;;;
        lift (callback_result d)
    | None =>
        emit (Callback (map (fun x => Num (Float x))
                          [pos_x; pos_y; pos_z]) (Some now)) ;;;
        lift (callback_result d)
    end
  else ret (of_int 0).

(** Lines 103-105. *)
Definition account_latency (d : frame_env) (fc_latency : F) : M F unit :=
  if fgt fc_latency (of_int 0) then
    vicon_latency <- call Cget_latency_total (get_latency_total d) ;;
    log DEBUG (MsgSystemLatency
                 (fadd fc_latency (fmul vicon_latency (of_int 1000)))
                 fc_latency
                 (fmul vicon_latency (of_int 1000)))
  else ret tt.

(** Lines 61-112: one iteration of [while self.running]. *)
Definition poll (cfg : config) (d : frame_env) : M F unit :=
  got <- call Cget_frame (get_frame d) ;;
  if got : bool then
    frame_num <- call Cget_frame_number (get_frame_number d) ;;
    object_count <-
      (if labeled_object cfg then
         call Cget_subject_count (get_subject_count d)
       else
         c <- call Cget_unlabeled_marker_count (get_unlabeled_marker_count d) ;;
         log DEBUG (MsgUnlabeledCount c) ;;;
         ret c) ;;
    if is_one object_count then
      pose <- extract_pose cfg d ;;
      match pose with
      | (Some (pos_x, pos_y, pos_z), rotation) =>
          let now := time_time d in
          append (frame_record frame_num pos_x pos_y pos_z now) ;;;
          fc_latency <- invoke_callback cfg d pos_x pos_y pos_z rotation now ;;
          call Cget_time_code (get_time_code d) ;;;
          account_latency d fc_latency ;;;
          log DEBUG (MsgPosition (Float pos_x) (Float pos_y) (Float pos_z))
      | (None, _) =>
          log WARNING MsgOccluded
      end
    else ret tt
  else
    emit Sleep.

(** [while self.running: ...] over the iterations of the session. *)
Fixpoint streaming (cfg : config) (fs : list frame_env) : M F unit :=
  match fs with
  | [] => ret tt
  | d :: fs' => poll cfg d ;;; streaming cfg fs'
  end.

(** [except KeyboardInterrupt] and [except Exception as e]. *)
Definition handler (e : exn) : option (M F unit) :=
  match e with
  | KeyboardInterrupt => Some (log ERROR MsgInterrupted)
  | Exception _ => Some (log ERROR (MsgUnexpected e))
  | SystemExit | BaseException _ => None
  end.

(** Lines 123-124: the file is written, or opening or dumping raises. *)
Definition write_json (r : res unit) : M F unit :=
  fun s =>
    match r with
    | Ok _ => emit (Written (position_log s)) s
    | Raise e => (Raise e, s)
    end.

(** Lines 120-129: the finally block. *)
Definition stopping (fe : stop_env) : M F unit :=
  write_json (write_log fe) ;;;
  log INFO MsgSaved ;;;
  connected <- call Cis_connected (is_connected fe) ;;
  if connected : bool then
    call Cdisconnect (disconnect fe) ;;;
    log INFO MsgDisconnected
  else ret tt.

Definition run (cfg : config) (e : env) : M F unit :=
  set_running true ;;;
  lift (create_client e) ;;;
  log INFO MsgClientCreated ;;;
  try_except_finally
    (connecting cfg (setup e) ;;; streaming cfg (frames e))
    handler
    (stopping (final e)).

(** ** The thread: [start], [run] step by step, [stop] *)

(** What the outside answers when the length of the session is not fixed
    in advance: the [i]-th iteration of the loop gets [w_polls i]. *)
Record world : Type := {
  w_create_client : res unit;
  w_setup : connect_env;
  w_polls : nat -> frame_env;
  w_final : stop_env
}.

(** The session of [w] in which the loop runs [n] times. *)
Definition session (w : world) (n : nat) : env :=
  {| create_client := w_create_client w;
     setup := w_setup w;
     frames := map (w_polls w) (seq 0 n);
     final := w_final w |}.

(** Where the worker thread is.  Between two phases the worker does not
    read or write [self.running], so the controlling thread can only make a
    difference to what the worker does at these points.

    A step of the worker is a whole phase: the test of line 60 together
    with the iteration it lets in, and the finally block as a whole.  This
    grain decides which states the worker ends in and which events it
    leaves, in which order; it does not say where, among the events of one
    phase, an action of the controlling thread falls.  The statements
    about interleavings are therefore about the worker's outcome and its
    whole trace, and about what the controlling thread observes once
    [join()] has returned. *)
Inductive phase : Type :=
| Idle                            (* start() not called yet *)
| Started                         (* about to enter run *)
| Connecting                      (* self.running = True done *)
| Streaming (i : nat)             (* about to test self.running for the i-th iteration *)
| Stopping (pending : res unit)   (* about to enter the finally block *)
| Terminated (outcome : res unit).

(** What the controlling thread executes, one atomic action at a time. *)
Inductive instr : Type :=
| Thread_start           (* self.start() *)
| Clear_running          (* self.running = False *)
| Thread_join.           (* self.join() *)

Definition start : list instr := [Thread_start].

(** Lines 25-27. *)
Definition stop : list instr := [Clear_running; Thread_join].

Record system : Type := {
  controller : list instr;        (* what the controlling thread has still to do *)
  controller_error : option exn;  (* the exception that ended it, if any *)
  worker : phase;
  object : state F
}.

Definition boot (program : list instr) : system :=
  {| controller := program;
     controller_error := None;
     worker := Idle;
     object := init_state |}.

Definition with_running (b : bool) (s : state F) : state F :=
  snd (set_running b s).

(** The body of [try] raised or returned [r]: the except clauses. *)
Definition leave_try (r : res unit) (s : state F) : phase * state F :=
  let '(r', s') := except_ handler r s in (Stopping r', s').

Definition worker_step (cfg : config) (w : world) (y : system)
  : option (phase * state F) :=
  let s := object y in
  match worker y with
  | Idle => None
  | Started => Some (Connecting, with_running true s)
  | Connecting =>
      match (lift (w_create_client w) ;;; log INFO MsgClientCreated) s with
      | (Raise e, s') => Some (Terminated (Raise e), s')
      | (Ok _, s') =>
          match connecting cfg (w_setup w) s' with
          | (Ok _, s'') => Some (Streaming 0, s'')
          | (Raise e, s'') => Some (leave_try (Raise e) s'')
          end
      end
  | Streaming i =>
      if running s then
        match poll cfg (w_polls w i) s with
        | (Ok _, s') => Some (Streaming (S i), s')
        | (Raise e, s') => Some (leave_try (Raise e) s')
        end
      else Some (leave_try (Ok tt) s)
  | Stopping r =>
      let '(r', s') := finally_ (stopping (w_final w)) r s in
      Some (Terminated r', s')
  | Terminated _ => None
  end.

Definition runtime_error : exn := Exception "RuntimeError".

(** [Thread.start] raises on a thread that was started before;
    [Thread.join] raises on a thread that was never started and otherwise
    waits until [run] is over. *)
Definition controller_step (y : system) : option system :=
  match controller y with
  | [] => None
  | Thread_start :: rest =>
      match worker y with
      | Idle =>
          Some {| controller := rest; controller_error := None;
                  worker := Started; object := object y |}
      | _ =>
          Some {| controller := []; controller_error := Some runtime_error;
                  worker := worker y; object := object y |}
      end
  | Clear_running :: rest =>
      Some {| controller := rest; controller_error := None;
              worker := worker y; object := with_running false (object y) |}
  | Thread_join :: rest =>
      match worker y with
      | Idle =>
          Some {| controller := []; controller_error := Some runtime_error;
                  worker := worker y; object := object y |}
      | Terminated _ =>
          Some {| controller := rest; controller_error := None;
                  worker := worker y; object := object y |}
      | _ => None
      end
  end.

Inductive actor : Type := Controller | Worker.

(** One thread makes one step; [None] when it cannot (it is blocked or
    over). *)
Definition step (cfg : config) (w : world) (a : actor) (y : system)
  : option system :=
  match a with
  | Controller => controller_step y
  | Worker =>
      match worker_step cfg w y with
      | Some (p, s) =>
          Some {| controller := controller y;
                  controller_error := controller_error y;
                  worker := p; object := s |}
      | None => None
      end
  end.

(** An interleaving of the two threads, given by who moves next. *)
Fixpoint exec (cfg : config) (w : world) (schedule : list actor) (y : system)
  : option system :=
  match schedule with
  | [] => Some y
  | a :: schedule' =>
      match step cfg w a y with
      | Some y' => exec cfg w schedule' y'
      | None => None
      end
  end.

End WithFloat.

Arguments vec3 F : clear implicits.
Arguments frame_env F : clear implicits.
Arguments env F : clear implicits.
Arguments world F : clear implicits.
Arguments system F : clear implicits.

End ViconWrapper.

(** * vicon.py, class VirtualViconWrapper *)

Module VirtualViconWrapper.
Section WithFloat.
Context {F : Type} {FO : PyFloat F}.

Local Open Scope py_scope.
Local Open Scope Z_scope.

Record config : Type := {
  callback : bool            (* callable(self.callback) *)
}.

(** What the clock and the callback answer during one iteration. *)
Record frame_env : Type := {
  time_time : F;
  callback_result : res F
}.

(** One session; [frames] as for the device-backed wrapper. *)
Record env : Type := {
  frames : list frame_env;
  write_log : res unit
}.

(** The dict appended at lines 152-157. *)
Definition frame_record (frame_num pos_x pos_y pos_z vel_x vel_y vel_z : Z)
    (now : F) : record F :=
  [ ("frame_id", Num (Int frame_num));
    ("tvec", PList [Int pos_x; Int pos_y; Int pos_z]);
    ("vel", PList [Int vel_x; Int vel_y; Int vel_z]);
    ("time", Num (Float (fmul now (of_int 1000)))) ].

Definition write_json (r : res unit) : M F unit :=
  fun s =>
    match r with
    | Ok _ => emit (Written (position_log s)) s
    | Raise e => (Raise e, s)
    end.

(** Lines 164-170: the [else] clause of the [while]. *)
Definition while_else (e : env) : M F unit :=
  log WARNING MsgOccluded ;;;
  write_json (write_log e) ;;;
  log INFO MsgSaved.

(** Lines 149-162: the body of the loop, entered with the current
    [frame_num]; it returns the incremented one. *)
Definition generate (cfg : config) (d : frame_env) (frame_num : Z) : M F Z :=
  let frame_num := frame_num + 1 in
  let '(pos_x, pos_y, pos_z) := (0, 0, 10) in
  let '(vel_x, vel_y, vel_z) := (1, 1, 1) in
  append (frame_record frame_num pos_x pos_y pos_z vel_x vel_y vel_z
            (time_time d)) ;;;
  (if callback cfg then
     emit (Callback [PList (map Int [pos_x; pos_y; pos_z; vel_x; vel_y; vel_z])]
             None) ;;;
     _ <- lift (callback_result d) ;;
     ret tt
   else ret tt) ;;;
  log DEBUG (MsgPosition (Int pos_x) (Int pos_y) (Int pos_z)) ;;;
  ret frame_num.

(** [while self.running: ... else: ...] *)
Fixpoint streaming (cfg : config) (e : env) (fs : list frame_env)
    (frame_num : Z) : M F unit :=
  match fs with
  | [] => while_else e
  | d :: fs' =>
      frame_num <- generate cfg d frame_num ;;
      streaming cfg e fs' frame_num
  end.

Definition run (cfg : config) (e : env) : M F unit :=
  set_running true ;;;
  log INFO MsgGenerating ;;;
  streaming cfg e (frames e) 0.

End WithFloat.

Arguments frame_env F : clear implicits.
Arguments env F : clear implicits.

End VirtualViconWrapper.

(** * vicon.py, class VirtualViconWrapper: the thread *)

Module VirtualThread.
Section WithFloat.
Context {F : Type} {FO : PyFloat F}.

Import VirtualViconWrapper.

Local Open Scope py_scope.
Local Open Scope Z_scope.

(** What the outside answers when the length of the session is not fixed
    in advance: the [i]-th iteration of the loop gets [w_ticks i]. *)
Record world : Type := {
  w_ticks : nat -> frame_env F;
  w_write_log : res unit
}.

(** The session of [w] in which the loop runs [n] times. *)
Definition session (w : world) (n : nat) : env F :=
  {| frames := map (w_ticks w) (seq 0 n);
     write_log := w_write_log w |}.

(** Where the worker thread is.  As for the device-backed wrapper, the
    worker reads [self.running] at the head of the loop only; the log line
    of line 146 does not touch the flag, so it is taken together with the
    assignment of line 144.  The steps have the grain of the device-backed
    model: a whole iteration with its test, and the else clause with the
    test that ends the loop. *)
Inductive phase : Type :=
| Idle                                   (* start() not called yet *)
| Started                                (* about to enter run *)
| Streaming (i : nat) (frame_num : Z)    (* about to test self.running for the i-th iteration *)
| Terminated (outcome : res unit).

Definition start : list ViconWrapper.instr := [ViconWrapper.Thread_start].

(** Lines 139-141. *)
Definition stop : list ViconWrapper.instr :=
  [ViconWrapper.Clear_running; ViconWrapper.Thread_join].

Record system : Type := {
  controller : list ViconWrapper.instr;
  controller_error : option exn;
  worker : phase;
  object : state F
}.

Definition boot (program : list ViconWrapper.instr) : system :=
  {| controller := program;
     controller_error := None;
     worker := Idle;
     object := init_state |}.

Definition worker_step (cfg : config) (w : world) (y : system)
  : option (phase * state F) :=
  let s := object y in
  match worker y with
  | Idle => None
  | Started =>
      Some (Streaming 0 0,
            snd ((set_running true ;;; log INFO MsgGenerating) s))
  | Streaming i frame_num =>
      if running s then
        match generate cfg (w_ticks w i) frame_num s with
        | (Ok frame_num', s') => Some (Streaming (S i) frame_num', s')
        | (Raise e, s') => Some (Terminated (Raise e), s')
        end
      else
        let '(r, s') := while_else (session w i) s in
        Some (Terminated r, s')
  | Terminated _ => None
  end.

(** [Thread.start] and [Thread.join], as for the device-backed wrapper:
    an exception that ends [run] stays in the worker thread, [join]
    returns normally. *)
Definition controller_step (y : system) : option system :=
  match controller y with
  | [] => None
  | ViconWrapper.Thread_start :: rest =>
      match worker y with
      | Idle =>
          Some {| controller := rest; controller_error := None;
                  worker := Started; object := object y |}
      | _ =>
          Some {| controller := [];
                  controller_error := Some ViconWrapper.runtime_error;
                  worker := worker y; object := object y |}
      end
  | ViconWrapper.Clear_running :: rest =>
      Some {| controller := rest; controller_error := None;
              worker := worker y;
              object := snd (set_running false (object y)) |}
  | ViconWrapper.Thread_join :: rest =>
      match worker y with
      | Idle =>
          Some {| controller := [];
                  controller_error := Some ViconWrapper.runtime_error;
                  worker := worker y; object := object y |}
      | Terminated _ =>
          Some {| controller := rest; controller_error := None;
                  worker := worker y; object := object y |}
      | _ => None
      end
  end.

Definition step (cfg : config) (w : world) (a : ViconWrapper.actor) (y : system)
  : option system :=
  match a with
  | ViconWrapper.Controller => controller_step y
  | ViconWrapper.Worker =>
      match worker_step cfg w y with
      | Some (p, s) =>
          Some {| controller := controller y;
                  controller_error := controller_error y;
                  worker := p; object := s |}
      | None => None
      end
  end.

Fixpoint exec (cfg : config) (w : world) (schedule : list ViconWrapper.actor)
    (y : system) : option system :=
  match schedule with
  | [] => Some y
  | a :: schedule' =>
      match step cfg w a y with
      | Some y' => exec cfg w schedule' y'
      | None => None
      end
  end.

End WithFloat.

Arguments world F : clear implicits.
Arguments system F : clear implicits.

End VirtualThread.

(** * latency_analyse.py *)

Module LatencyAnalyse.

(** ** Text and numbers *)

(** A [str] is a sequence of Unicode code points; line 6 decodes the file
    into one. *)
Definition code_point : Type := N.
Definition text : Type := list code_point.

(** An ASCII character, and a literal of the source. *)
Definition char (a : ascii) : code_point := N_of_ascii a.
Definition chars (s : string) : text := map char (list_ascii_of_string s).

Arguments char : simpl never.
Arguments chars : simpl never.

(** What the program takes from the Unicode character database: which
    characters are decimal digits (category Nd) and the digit each of them
    stands for.  [\d] in a [str] pattern and [float] both go by it.  The
    table grows with the versions of Unicode; its ASCII part is fixed. *)
Class Unicode : Type := {
  decimal : code_point -> option Z;
  decimal_value : forall c d, decimal c = Some d -> (0 <= d <= 9)%Z;
  decimal_ascii : forall c, (c < 128)%N ->
    decimal c = if ((48 <=? c) && (c <=? 57))%N
                then Some (Z.of_N c - 48)%Z else None
}.

(** The sum of a list of integers. *)
Definition total (l : list Z) : Z := fold_right Z.add 0%Z l.

(** The doubles that arise in the analysis: the values of unsigned decimal
    literals, their sums and their quotients by a count, that is, the
    non-negative doubles and [inf].  There is neither a [NaN] nor a negative
    zero among them, so their comparison is a total order.  The laws are
    those of IEEE 754 binary64 arithmetic rounding to nearest: rounding is
    monotone, a sum of non-negative integers that stays below [2^53] is
    exact in whatever order it is taken, and the quotient of two integers
    below [2^53] is the double nearest to the exact quotient. *)
Class Double (F : Type) : Type := {
  nearest : Q -> F;          (* the double nearest to a non-negative rational *)
  fle : F -> F -> bool;      (* x <= y *)
  fmin : F -> F -> F;        (* the smaller of x and y *)
  fmax : F -> F -> F;        (* the larger of x and y *)
  fsum : list F -> F;        (* the sum of an array *)
  fdiv : F -> F -> F;        (* x / y *)
  fle_total : forall x y, fle x y = true \/ fle y x = true;
  fle_trans : forall x y z, fle x y = true -> fle y z = true -> fle x z = true;
  fle_antisym : forall x y, fle x y = true -> fle y x = true -> x = y;
  fmin_le : forall x y, fmin x y = if fle x y then x else y;
  fmax_le : forall x y, fmax x y = if fle x y then y else x;
  nearest_mono : forall a b,
    (0 <= a)%Q -> (a <= b)%Q -> fle (nearest a) (nearest b) = true;
  fsum_exact : forall l,
    Forall (fun z => 0 <= z)%Z l -> (total l <= 2 ^ 53)%Z ->
    fsum (map (fun z => nearest (inject_Z z)) l) = nearest (inject_Z (total l));
  fdiv_exact : forall a b,
    (0 <= a <= 2 ^ 53)%Z -> (0 < b <= 2 ^ 53)%Z ->
    fdiv (nearest (inject_Z a)) (nearest (inject_Z b)) =
      nearest (inject_Z a / inject_Z b)
}.

(** The rationals in lowest terms are one model of the interface, in which
    nothing is rounded; the concrete runs below use it. *)
#[global, refine] Instance Double_Qc : Double Qc := {|
  nearest := Q2Qc;
  fle := fun x y => Qle_bool x y;
  fmin := fun x y => if Qle_bool x y then x else y;
  fmax := fun x y => if Qle_bool x y then y else x;
  fsum := fun l => fold_right Qcplus (Q2Qc 0) l;
  fdiv := Qcdiv
|}.
Proof.
  - intros x y. rewrite !Qle_bool_iff.
    destruct (Qlt_le_dec y x) as [H | H];
      [right; apply Qlt_le_weak | left]; exact H.
  - intros x y z. rewrite !Qle_bool_iff. apply Qle_trans.
  - intros x y. rewrite !Qle_bool_iff. intros H1 H2.
    apply Qc_is_canon, Qle_antisym; assumption.
  - reflexivity.
  - reflexivity.
  - intros a b _ H. rewrite Qle_bool_iff. cbn [this Q2Qc].
    rewrite !Qred_correct. exact H.
  - intros l _ _. induction l as [| z l IH]; [reflexivity |].
    cbn [map fold_right total]. rewrite IH. apply Qc_is_canon.
    unfold Qcplus. cbn [this Q2Qc]. rewrite !Qred_correct.
    rewrite inject_Z_plus. reflexivity.
  - intros a b _ _. apply Qc_is_canon.
    unfold Qcdiv, Qcmult, Qcinv. cbn [this Q2Qc]. rewrite !Qred_correct.
    reflexivity.
Defined.

(** One table for the concrete runs: the ASCII digits and the Arabic-Indic
    digits, U+0660 to U+0669. *)
Definition sample_decimal (c : code_point) : option Z :=
  if ((48 <=? c) && (c <=? 57))%N then Some (Z.of_N c - 48)%Z
  else if ((1632 <=? c) && (c <=? 1641))%N then Some (Z.of_N c - 1632)%Z
  else None.

#[global, refine] Instance Unicode_sample : Unicode := {|
  decimal := sample_decimal
|}.
Proof.
  - intros c d. unfold sample_decimal.
    destruct (N.leb_spec 48 c) as [L1 | L1], (N.leb_spec c 57) as [L2 | L2];
      cbn [andb]; try (intros E; inversion E; lia);
      destruct (N.leb_spec 1632 c) as [L3 | L3],
               (N.leb_spec c 1641) as [L4 | L4];
      cbn [andb]; intros E; inversion E; lia.
  - intros c Hc. unfold sample_decimal.
    destruct ((48 <=? c) && (c <=? 57))%N; [reflexivity |].
    destruct (N.leb_spec 1632 c) as [L | L]; [lia | reflexivity].
Defined.

Section WithUnicode.
Context {U : Unicode}.

(** ** The regular expression *)

(** [\d]: a Unicode decimal digit. *)
Definition digit (c : code_point) : bool :=
  match decimal c with
  | Some _ => true
  | None => false
  end.

(** The character class [[\d.]]. *)
Definition digit_or_dot (c : code_point) : bool :=
  digit c || N.eqb c (char ".").

(** The two forms the pattern is built from: literal text, and a capturing
    group [([cls]+)] around a greedy repetition of a character class. *)
Inductive token : Type :=
| Lit (s : text)
| Group (cls : code_point -> bool).

(** Line 10. *)
Definition pattern : list token :=
  [ Lit (chars "System Latency: "); Group digit_or_dot;
    Lit (chars " ms. FC Latency: "); Group digit_or_dot;
    Lit (chars ", Vicon Latency: "); Group digit_or_dot ].

Fixpoint strip_prefix (p s : text) : option text :=
  match p, s with
  | [], _ => Some s
  | a :: p', b :: s' => if N.eqb a b then strip_prefix p' s' else None
  | _ :: _, [] => None
  end.

(** How many leading characters of [s] are in the class. *)
Fixpoint span (cls : code_point -> bool) (s : text) : nat :=
  match s with
  | c :: s' => if cls c then S (span cls s') else O
  | [] => O
  end.

Fixpoint take (n : nat) (s : text) : text :=
  match n, s with
  | S n', c :: s' => c :: take n' s'
  | _, _ => []
  end.

Fixpoint drop (n : nat) (s : text) : text :=
  match n, s with
  | S n', _ :: s' => drop n' s'
  | _, _ => s
  end.

(** A greedy group that may take at most [k] characters: the longest
    repetition first, then shorter ones, down to one character, until the
    rest of the pattern matches. *)
Fixpoint backtrack (rest_of_pattern : text -> option (list text * text))
    (s : text) (k : nat) : option (list text * text) :=
  match k with
  | O => None
  | S k' =>
      match rest_of_pattern (drop k s) with
      | Some (groups, rest) => Some (take k s :: groups, rest)
      | None => backtrack rest_of_pattern s k'
      end
  end.

(** A match of the pattern at the beginning of [s]: the captured groups
    and what follows the match. *)
Fixpoint match_here (p : list token) (s : text)
  : option (list text * text) :=
  match p with
  | [] => Some ([], s)
  | Lit l :: p' =>
      match strip_prefix l s with
      | Some s' => match_here p' s'
      | None => None
      end
  | Group cls :: p' => backtrack (match_here p') s (span cls s)
  end.

(** [pattern.findall]: the text is scanned from left to right; after a
    match the scan resumes where the match ended.  [skip] counts the
    characters still covered by the last match. *)
Fixpoint findall_from (p : list token) (s : text) (skip : nat)
  : list (list text) :=
  match s with
  | [] =>
      match match_here p s with
      | Some (groups, _) => [groups]
      | None => []
      end
  | _ :: s' =>
      match skip with
      | S skip' => findall_from p s' skip'
      | O =>
          match match_here p s with
          | Some (groups, rest) =>
              groups :: findall_from p s' (List.length s - List.length rest - 1)
          | None => findall_from p s' O
          end
      end
  end.

Definition findall (p : list token) (s : text) : list (list text) :=
  findall_from p s 0.

(** ** The data frame *)

Local Open Scope Z_scope.

(** The number that a string of decimal digits denotes, after [acc]. *)
Fixpoint digits (acc : Z) (s : text) : option Z :=
  match s with
  | [] => Some acc
  | c :: s' =>
      match decimal c with
      | Some d => digits (10 * acc + d) s'
      | None => None
      end
  end.

Definition pow10 (n : nat) : positive := Nat.iter n (Pos.mul 10) 1%positive.

Definition value_error : exn := Exception "ValueError".

(** The number that [s] denotes, for a string [s] of digits and dots, which
    is all the groups of the pattern can capture: digits with at most one
    dot and at least one digit; nothing else of that kind is a number. *)
Definition literal (s : text) : option Q :=
  let n := span digit s in
  let whole := take n s in
  match drop n s with
  | [] =>
      match whole, digits 0 whole with
      | _ :: _, Some v => Some (inject_Z v)
      | _, _ => None
      end
  | dot :: frac =>
      if N.eqb dot (char ".") then
        match whole ++ frac, digits 0 (whole ++ frac) with
        | _ :: _, Some v => Some (Qmake v (pow10 (List.length frac)))
        | _, _ => None
        end
      else None
  end.

Context {F : Type} {D : Double F}.

(** [float(s)], for a string of digits and dots: the double nearest to the
    number it denotes, or a [ValueError]. *)
Definition float (s : text) : res F :=
  match literal s with
  | Some q => Ok (nearest q)
  | None => Raise value_error
  end.

Fixpoint astype_float_row (row : list text) : res (list F) :=
  match row with
  | [] => Ok []
  | x :: row' =>
      match float x with
      | Raise e => Raise e
      | Ok v =>
          match astype_float_row row' with
          | Raise e => Raise e
          | Ok vs => Ok (v :: vs)
          end
      end
  end.

(** [pd.DataFrame(matches, columns=[...]).astype(float)], as its rows. *)
Fixpoint astype_float (matches : list (list text)) : res (list (list F)) :=
  match matches with
  | [] => Ok []
  | row :: matches' =>
      match astype_float_row row with
      | Raise e => Raise e
      | Ok r =>
          match astype_float matches' with
          | Raise e => Raise e
          | Ok rs => Ok (r :: rs)
          end
      end
  end.

Definition columns : list string :=
  ["System Latency"; "FC Latency"; "Vicon Latency"]%string.

(** [df[col]] for the [i]-th column. *)
Definition column (df : list (list F)) (i : nat) : list F :=
  map (fun row => nth i row (nearest 0)) df.

(** [min], [max] and [mean] of a column; [None] is the [NaN] that pandas
    gives for a column without rows.  The mean is the sum of the column
    divided by the number of its rows. *)
Definition col_min (c : list F) : option F :=
  match c with
  | [] => None
  | x :: c' => Some (fold_left fmin c' x)
  end.

Definition col_max (c : list F) : option F :=
  match c with
  | [] => None
  | x :: c' => Some (fold_left fmax c' x)
  end.

Definition col_mean (c : list F) : option F :=
  match c with
  | [] => None
  | _ => Some (fdiv (fsum c) (nearest (inject_Z (Z.of_nat (List.length c)))))
  end.

(** Lines 17-22. *)
Record summary : Type := {
  latency_type : list string;
  min_ms : list (option F);
  max_ms : list (option F);
  avg_ms : list (option F)
}.

(** Lines 10-22, for the text read at line 7. *)
Definition analyse (log_text : text) : res summary :=
  let matches := findall pattern log_text in
  match astype_float matches with
  | Raise e => Raise e
  | Ok df =>
      let cols := map (column df) (seq 0 (List.length columns)) in
      Ok {| latency_type := columns;
            min_ms := map col_min cols;
            max_ms := map col_max cols;
            avg_ms := map col_mean cols |}
  end.

End WithUnicode.

Arguments summary F : clear implicits.

End LatencyAnalyse.

(** * The vocabulary of the statements *)

Section TraceVocabulary.
Context {F : Type}.

(** From [s] to [s'] the trace grew by events in [P] and the position log
    by records in [Q]; [self.running] was left alone. *)
Definition grows (P : event F -> Prop) (Q : record F -> Prop)
    (s s' : state F) : Prop :=
  exists t l,
    trace s' = trace s ++ t /\ Forall P t /\
    position_log s' = position_log s ++ l /\ Forall Q l /\
    running s' = running s.

(** Whatever the state, [m] makes it grow in this way. *)
Definition sound (P : event F -> Prop) (Q : record F -> Prop)
    {A} (m : M F A) : Prop :=
  forall s, grows P Q s (snd (m s)).

(** [s] with [self.running] set to [b]. *)
Definition with_flag (b : bool) (s : state F) : state F :=
  {| running := b; position_log := position_log s; trace := trace s |}.

(** Two states with the same position log and the same trace. *)
Definition same_data (s s' : state F) : Prop :=
  position_log s = position_log s' /\ trace s = trace s'.

(** [m] neither reads nor writes [self.running]. *)
Definition oblivious {A} (m : M F A) : Prop :=
  forall b s, m (with_flag b s) = (fst (m s), with_flag b (snd (m s))).

(** A log file has been written. *)
Definition is_written (ev : event F) : bool :=
  match ev with
  | Written _ => true
  | _ => false
  end.

(** The latency-accounting line, at any level. *)
Definition is_latency_line (ev : event F) : bool :=
  match ev with
  | Log _ (MsgSystemLatency _ _ _) => true
  | _ => false
  end.

(** A line logged at warning level. *)
Definition is_warning (ev : event F) : bool :=
  match ev with
  | Log WARNING _ => true
  | _ => false
  end.

(** A call of [client.disconnect()]. *)
Definition is_disconnect (ev : event F) : bool :=
  match ev with
  | Call Cdisconnect => true
  | _ => false
  end.

(** The [frame_id] of a record, when it has one and it is an integer. *)
Definition frame_id (r : record F) : option Z :=
  match lookup "frame_id" r with
  | Some (Num (Int n)) => Some n
  | _ => None
  end.

(** The events of Connecting and Streaming: anything but a written file,
    [is_connected] and [disconnect]. *)
Definition quiet (ev : event F) : Prop :=
  match ev with
  | Written _ => False
  | Call Cis_connected => False
  | Call Cdisconnect => False
  | _ => True
  end.

End TraceVocabulary.

(** [subseq l1 l2]: [l1] is [l2] with some elements left out. *)
Inductive subseq {A : Type} : list A -> list A -> Prop :=
| subseq_nil : subseq [] []
| subseq_skip x l1 l2 : subseq l1 l2 -> subseq l1 (x :: l2)
| subseq_keep x l1 l2 : subseq l1 l2 -> subseq (x :: l1) (x :: l2).

Section DeviceVocabulary.
Import ViconWrapper.
Context {F : Type} {FO : PyFloat F}.

(** A record as [poll] builds it, for the frame number [n]. *)
Definition device_record (r : record F) : Prop :=
  exists n pos_x pos_y pos_z now, r = frame_record n pos_x pos_y pos_z now.

(** The body of [try] followed by the except clauses. *)
Definition guarded (cfg : config) (e : env F) : M F unit :=
  fun s =>
    let '(r, s1) := bind (connecting cfg (setup e))
                      (fun _ => streaming cfg (frames e)) s in
    except_ handler r s1.

(** The wrapper object when the finally block is entered, in a session
    that starts from [s0] and in which the client object exists: after
    Connecting, Streaming and the except clauses. *)
Definition before_finally (cfg : config) (e : env F) (s0 : state F) : state F :=
  snd (guarded cfg e (snd (log INFO MsgClientCreated (with_flag true s0)))).

(** The count the loop reads at lines 65-70. *)
Definition object_count (cfg : config) (d : frame_env F) : res (option Z) :=
  if labeled_object cfg then get_subject_count d
  else get_unlabeled_marker_count d.

(** The frame numbers the client reports, over the polls that got a frame. *)
Definition reported_frame_numbers (fs : list (frame_env F)) : list Z :=
  flat_map (fun d =>
              match get_frame d, get_frame_number d with
              | Ok true, Ok n => [n]
              | _, _ => []
              end) fs.





(** [vw.start(); vw.stop(); vw.stop()] *)
Definition program : list instr := start ++ stop ++ stop.

(** What the finally block adds to the trace, for the position log [log]. *)
Definition stopping_events (fe : stop_env) (log : list (record F))
  : list (event F) :=
  match write_log fe with
  | Raise _ => []
  | Ok _ =>
      [Written log; Log INFO MsgSaved; Call Cis_connected] ++
      match is_connected fe with
      | Ok true =>
          Call Cdisconnect ::
          match disconnect fe with
          | Ok _ => [Log INFO MsgDisconnected]
          | Raise _ => []
          end
      | _ => []
      end
  end.

(** The trace of a worker that is over: quiet events, then those of the
    finally block if [try] was entered at all. *)
Definition settled (w : world F) (s : state F) : Prop :=
  exists pre,
    Forall quiet pre /\
    trace s = pre ++ match w_create_client w with
                     | Ok _ => stopping_events (w_final w) (position_log s)
                     | Raise _ => []
                     end.

(** What holds of the trace in each phase of the worker: before the
    finally block it is quiet, and from Streaming on the client object
    exists. *)
Definition phase_ok (w : world F) (p : phase) (s : state F) : Prop :=
  match p with
  | Terminated _ => settled w s
  | Streaming _ | Stopping _ =>
      Forall quiet (trace s) /\ exists u, w_create_client w = Ok u
  | _ => Forall quiet (trace s)
  end.

(** How far the controlling thread is, against where the worker is. *)
Definition controller_ok (y : system F) : Prop :=
  controller_error y = None /\
  ((controller y = program /\ worker y = Idle) \/
   ((controller y = stop ++ stop \/ controller y = Thread_join :: stop) /\
    worker y <> Idle) \/
   ((controller y = stop \/ controller y = [Thread_join] \/ controller y = []) /\
    exists r, worker y = Terminated r)).

(** The state in which [try] is entered. *)
Definition entered : state F :=
  snd (log INFO MsgClientCreated (with_flag true init_state)).

(** What a phase of the worker and the shared object correspond to in a
    run of [run]. *)
Definition matches_run (cfg : config) (w : world F) (p : phase) (s : state F)
  : Prop :=
  match p with
  | Idle | Started | Connecting => same_data s init_state
  | Streaming i =>
      (exists u, w_create_client w = Ok u) /\
      exists s',
        bind (connecting cfg (w_setup w))
             (fun _ => streaming cfg (map (w_polls w) (seq 0 i))) entered
          = (Ok tt, s') /\
        same_data s s'
  | Stopping r =>
      (exists u, w_create_client w = Ok u) /\
      exists n s', guarded cfg (session w n) entered = (r, s') /\ same_data s s'
  | Terminated r =>
      exists n s', run cfg (session w n) init_state = (r, s') /\ same_data s s'
  end.

End DeviceVocabulary.

Section SyntheticVocabulary.
Import VirtualViconWrapper.
Context {F : Type} {FO : PyFloat F}.

Local Open Scope Z_scope.

(** The frame ids [k+1], ..., [k+n]. *)
Definition ids_after (k : Z) (n : nat) : list (option Z) :=
  map (fun i => Some (k + Z.of_nat i)) (seq 1 n).

(** The position of the synthetic generator. *)
Definition synthetic_tvec (r : record F) : Prop :=
  lookup "tvec" r = Some (PList [Int 0; Int 0; Int 10]).

(** In this iteration the callback does not raise. *)
Definition callback_returns (d : frame_env F) : Prop :=
  exists v, callback_result d = Ok v.

(** The events of one iteration whose callback returns. *)
Definition generate_events (cfg : config) : list (event F) :=
  (if callback cfg
   then [Callback [PList (map Int [0; 0; 10; 1; 1; 1])] None]
   else []) ++
  [Log DEBUG (MsgPosition (Int 0) (Int 0) (Int 10))].

End SyntheticVocabulary.

Section AnalyserVocabulary.
Import LatencyAnalyse.
Context {U : Unicode}.

(** Every character of [s] is in the class. *)
Fixpoint all (cls : code_point -> bool) (s : text) : bool :=
  match s with
  | [] => true
  | c :: s' => cls c && all cls s'
  end.

(** The class of the characters other than [x]. *)
Definition is_not (x : code_point) (c : code_point) : bool := negb (N.eqb c x).


(** A value that the class [[\d.]+] matches entirely. *)
Definition plain (s : text) : bool :=
  (0 <? List.length s)%nat && all digit_or_dot s.

(** The line as [ViconWrapper] formats it, for the three printed values. *)
Definition latency_line (a b c : text) : text :=
  chars "System Latency: " ++ a ++ chars " ms. FC Latency: " ++ b
    ++ chars ", Vicon Latency: " ++ c.


(** The summary of a data frame without rows. *)
Definition nan_summary {F : Type} : summary F :=
  {| latency_type := columns;
     min_ms := [None; None; None];
     max_ms := [None; None; None];
     avg_ms := [None; None; None] |}.

(** The text [s] is a decimal numeral for the number [q]. *)
Definition spells (s : text) (q : Q) : Prop :=
  match literal s with
  | Some q' => q' == q
  | None => False
  end.

(** The values of the three lines of the sample. *)
Definition sample_values : list (list Q) :=
  [[10; 2; 5 # 1000]; [20; 3; 1 # 100]; [30; 4; 2 # 100]]%Q.

(** One way of writing them. *)
Definition sample_rows : list (list text) :=
  [[chars "10"; chars "2"; chars "0.005"];
   [chars "20.0"; chars "3"; chars "0.01"];
   [chars "30"; chars "4.0"; chars "0.020"]].

(** The line feed. *)
Definition newline : text := [10%N].

(** The three latency lines, the largest first, among other lines of a
    log. *)
Definition sample_log : text :=
  chars "2025-07-15 16:57:16 - Vicon - INFO - Connection successful!" ++ newline ++
  chars "2025-07-15 16:57:17 - Vicon - DEBUG - " ++ latency_line (chars "30") (chars "4.0") (chars "0.020") ++ newline ++
  chars "2025-07-15 16:57:17 - Vicon - DEBUG - 	Position (mm): X=1.00, Y=2.00, Z=3.00" ++ newline ++
  chars "2025-07-15 16:57:18 - Vicon - DEBUG - " ++ latency_line (chars "10") (chars "2") (chars "0.005") ++ newline ++
  chars "2025-07-15 16:57:19 - Vicon - DEBUG - " ++ latency_line (chars "20.0") (chars "3") (chars "0.01") ++ newline.

End AnalyserVocabulary.

Section LogVocabulary.
Import LatencyAnalyse.
Context {U : Unicode}.

(** The line feed, as a character. *)
Definition line_feed : code_point := 10%N.

(** [x] occurs in no literal of the pattern and is in no class of a group. *)
Fixpoint avoids (x : code_point) (p : list token) : bool :=
  match p with
  | [] => true
  | Lit l :: p' => all (is_not x) l && avoids x p'
  | Group cls :: p' => negb (cls x) && avoids x p'
  end.

(** The classes of the groups of a pattern, in order. *)
Fixpoint classes (p : list token) : list (code_point -> bool) :=
  match p with
  | [] => []
  | Lit _ :: p' => classes p'
  | Group cls :: p' => cls :: classes p'
  end.

(** A string that a group over the class [cls] can capture. *)
Definition captured (cls : code_point -> bool) (s : text) : Prop :=
  (0 <? List.length s)%nat && all cls s = true.

(** How many dots a string has. *)
Fixpoint dots (s : text) : nat :=
  match s with
  | [] => 0
  | c :: s' => (if N.eqb c (char ".") then 1 else 0) + dots s'
  end.

Fixpoint has_digit (s : text) : bool :=
  match s with
  | [] => false
  | c :: s' => digit c || has_digit s'
  end.

(** Among the strings of digits and dots, the decimal numbers: at most one
    dot, at least one digit. *)
Definition well_formed (s : text) : bool :=
  (dots s <=? 1)%nat && has_digit s.

End LogVocabulary.

(** What the analyser prints for the sample log. *)
Definition sample_summary : LatencyAnalyse.summary Qc :=
  match LatencyAnalyse.analyse sample_log with
  | Ok sm => sm
  | Raise _ => nan_summary
  end.

(** Values written with Arabic-Indic digits: 3, and 1.2.3. *)
Definition arabic_indic (d : N) : LatencyAnalyse.code_point := (1632 + d)%N.

Definition arabic_three : LatencyAnalyse.text := [arabic_indic 3].

Definition arabic_one_two_three : LatencyAnalyse.text :=
  [arabic_indic 1; LatencyAnalyse.char "."; arabic_indic 2;
   LatencyAnalyse.char "."; arabic_indic 3].

(** * Concrete sessions, over the rationals *)

Module Sample.
Import ViconWrapper.

Local Open Scope Z_scope.

Definition setup_ok : connect_env :=
  {| connect := Ok tt;
     enable_marker_data := Ok tt;
     enable_segment_data := Ok tt;
     first_subject_name := Ok (Some "drone");
     enable_unlabeled_marker_data := Ok tt;
     set_stream_mode := Ok tt;
     set_axis_mapping := Ok tt |}.

Definition setup_unreachable : connect_env :=
  {| connect := Raise (Exception "ConnectionError");
     enable_marker_data := Ok tt;
     enable_segment_data := Ok tt;
     first_subject_name := Ok (Some "drone");
     enable_unlabeled_marker_data := Ok tt;
     set_stream_mode := Ok tt;
     set_axis_mapping := Ok tt |}.

Definition final_ok : stop_env :=
  {| write_log := Ok tt; is_connected := Ok true; disconnect := Ok tt |}.

(** The directory [logs] does not exist. *)
Definition final_no_directory : stop_env :=
  {| write_log := Raise (Exception "FileNotFoundError");
     is_connected := Ok true;
     disconnect := Ok tt |}.

(** A frame numbered [n] in which [count] objects are seen, the single
    object (if any) is at [pos] with Euler angles [rot], the callback
    reports [fc] milliseconds and the source 5 milliseconds. *)
Definition frame (n : Z) (count : Z) (pos : option (vec3 Q))
    (rot : option (vec3 Q)) (fc : Q) : frame_env Q :=
  {| get_frame := Ok true;
     get_frame_number := Ok n;
     get_subject_count := Ok (Some count);
     get_unlabeled_marker_count := Ok (Some count);
     get_subject_name := Ok (Some "drone");
     get_subject_root_segment_name := Ok "root";
     get_segment_global_translation := Ok pos;
     get_segment_global_rotation_euler_xyz := Ok rot;
     get_unlabeled_marker_global_translation := Ok pos;
     time_time := 1700000000%Q;
     callback_result := Ok fc;
     get_time_code := Ok tt;
     get_latency_total := Ok (5 # 1000)%Q |}.

Definition seen (n : Z) (fc : Q) : frame_env Q :=
  frame n 1 (Some (100, 200, 300)%Q) (Some (1 # 10, 2 # 10, 3 # 10)%Q) fc.

Definition nothing_seen (n : Z) : frame_env Q := frame n 0 None None 0%Q.


(** Two objects are in view. *)
Definition two_seen (n : Z) : frame_env Q :=
  frame n 2 (Some (100, 200, 300)%Q) None 0%Q.

Definition unlabeled : config := {| callback := true; labeled_object := false |}.

Definition labeled : config := {| callback := true; labeled_object := true |}.

Definition session_of (fs : list (frame_env Q)) (fe : stop_env) : env Q :=
  {| create_client := Ok tt; setup := setup_ok; frames := fs; final := fe |}.

(** A client that delivers frame after frame, numbered from 1. *)
Definition world_of (fe : stop_env) : world Q :=
  {| w_create_client := Ok tt;
     w_setup := setup_ok;
     w_polls := fun i => seen (Z.of_nat i + 1) 7;
     w_final := fe |}.

(** [start()], then the worker connects and records one frame, then
    [stop()] while the worker goes on to the end, then [stop()] again. *)
Definition one_frame_schedule : list actor :=
  [Controller; Worker; Worker; Worker; Controller; Worker; Worker;
   Controller; Controller; Controller].

End Sample.

(** * Concrete synthetic sessions *)

Module VirtualSample.
Import VirtualViconWrapper.

Definition tick (answer : res Q) : frame_env Q :=
  {| time_time := 1700000000%Q; callback_result := answer |}.

Definition with_callback : config := {| callback := true |}.

Definition session_of (fs : list (frame_env Q)) : env Q :=
  {| frames := fs; write_log := Ok tt |}.

(** The callback raises in the second iteration. *)
Definition failing_callback : env Q :=
  session_of [tick (Ok 7%Q); tick (Raise (Exception "ValueError")); tick (Ok 7%Q)].

End VirtualSample.

(** The state that [Sample.one_frame_schedule] leads to. *)
Definition sample_outcome (fe : ViconWrapper.stop_env) : ViconWrapper.system Q :=
  match ViconWrapper.exec Sample.unlabeled (Sample.world_of fe)
          Sample.one_frame_schedule (ViconWrapper.boot program) with
  | Some y => y
  | None => ViconWrapper.boot program
  end.

(** * Sessions of the device-backed wrapper: vocabulary *)

Section SessionVocabulary.
Import ViconWrapper.
Context {F : Type} {FO : PyFloat F}.

Definition is_callback (ev : event F) : bool :=
  match ev with
  | Callback _ _ => true
  | _ => false
  end.

(** A line logged at error level. *)
Definition is_error (ev : event F) : bool :=
  match ev with
  | Log ERROR _ => true
  | _ => false
  end.

Definition is_sleep (ev : event F) : bool :=
  match ev with
  | Sleep => true
  | _ => false
  end.

(** A call of [client.get_frame()]. *)
Definition is_poll (ev : event F) : bool :=
  match ev with
  | Call Cget_frame => true
  | _ => false
  end.

(** The client methods that [run] calls in labeled-object mode only, and
    those it calls in unlabeled-marker mode only. *)
Definition labeled_call (c : client_call) : bool :=
  match c with
  | Cenable_marker_data | Cenable_segment_data
  | Cget_subject_count | Cget_subject_name | Cget_subject_root_segment_name
  | Cget_segment_global_translation
  | Cget_segment_global_rotation_euler_xyz => true
  | _ => false
  end.

Definition unlabeled_call (c : client_call) : bool :=
  match c with
  | Cenable_unlabeled_marker_data | Cget_unlabeled_marker_count
  | Cget_unlabeled_marker_global_translation => true
  | _ => false
  end.

(** What the body of [try] may do under the configuration [cfg]: no call
    of the other tracking mode, nothing of the finally block, no line at
    error level; the callback and the latency accounting only with a
    callback; three arguments for the callback, or six with orientation
    tracking, and always the timestamp. *)
Definition allowed (cfg : config) (ev : event F) : bool :=
  match ev with
  | Call c =>
      match c with
      | Cis_connected | Cdisconnect => false
      | Cget_latency_total => callback cfg
      | _ => if labeled_object cfg then negb (unlabeled_call c)
             else negb (labeled_call c)
      end
  | Log l m =>
      match l, m with
      | ERROR, _ => false
      | _, MsgSystemLatency _ _ _ => callback cfg
      | _, _ => true
      end
  | Sleep => true
  | Callback args timestamp =>
      callback cfg &&
      match timestamp with Some _ => true | None => false end &&
      ((List.length args =? 3)%nat ||
       labeled_object cfg && (List.length args =? 6)%nat)
  | Written _ => false
  end.

(** The body of [try]: Connecting, then Streaming. *)
Definition try_body (cfg : config) (e : env F) : M F unit :=
  bind (connecting cfg (setup e)) (fun _ => streaming cfg (frames e)).

(** What the except clauses log for the outcome of the body of [try]. *)
Definition handled (r : res unit) : list (event F) :=
  match r with
  | Raise KeyboardInterrupt => [Log ERROR MsgInterrupted]
  | Raise (Exception what) => [Log ERROR (MsgUnexpected (Exception what))]
  | _ => []
  end.

(** The outcome that is pending when the finally block is entered. *)
Definition pending (r : res unit) : res unit :=
  match r with
  | Raise SystemExit => Raise SystemExit
  | Raise (BaseException what) => Raise (BaseException what)
  | _ => Ok tt
  end.

(** Nothing raises in the finally block. *)
Definition stops_cleanly (fe : stop_env) : Prop :=
  exists u connected,
    write_log fe = Ok u /\ is_connected fe = Ok connected /\
    (connected = true -> exists u', disconnect fe = Ok u').

(** The iteration finds no frame. *)
Definition no_frame (d : frame_env F) : bool :=
  match get_frame d with
  | Ok false => true
  | _ => false
  end.

(** The translation that the loop reads at line 81 or 84. *)
Definition reported_position (cfg : config) (d : frame_env F)
  : res (option (vec3 F)) :=
  if labeled_object cfg then get_segment_global_translation d
  else get_unlabeled_marker_global_translation d.

(** The record [r] is what the iteration [d] appends: the frame number
    and the translation the client reported, and the clock reading. *)
Definition recorded (cfg : config) (d : frame_env F) (r : record F) : Prop :=
  exists n pos_x pos_y pos_z,
    get_frame d = Ok true /\
    get_frame_number d = Ok n /\
    reported_position cfg d = Ok (Some (pos_x, pos_y, pos_z)) /\
    r = frame_record n pos_x pos_y pos_z (time_time d).

(** The record [r] was handed to the callback by the call [ev]: the
    position of the record first, then nothing or three Euler angles, and
    as timestamp the clock reading of which the record holds the
    thousandfold. *)
Definition hands_over (cfg : config) (r : record F) (ev : event F) : Prop :=
  exists n pos_x pos_y pos_z now rotation,
    r = frame_record n pos_x pos_y pos_z now /\
    ev = Callback ([Num (Float pos_x); Num (Float pos_y); Num (Float pos_z)]
                     ++ rotation) (Some now) /\
    (rotation = [] \/
     labeled_object cfg = true /\ List.length rotation = 3%nat).

(** From [y] to [y'] the worker has come to its end, and the controlling
    thread has not moved. *)
Definition wound_down (y y' : system F) : Prop :=
  controller y' = controller y /\
  controller_error y' = controller_error y /\
  exists r, worker y' = Terminated r.

(** The script's main block, lines 172-176: a wrapper without callback
    in unlabeled-marker mode (the log level only configures the logger) is
    started and, 30 seconds later, stopped.  The sleep delays the
    controlling thread and nothing else. *)
Definition main_config : config :=
  {| callback := false; labeled_object := false |}.

Definition main_program : list instr := start ++ stop.

(** How far the main block is, against where the worker is. *)
Definition main_controller_ok (y : system F) : Prop :=
  controller_error y = None /\
  ((controller y = main_program /\ worker y = Idle) \/
   ((controller y = stop \/ controller y = [Thread_join]) /\
    worker y <> Idle) \/
   (controller y = [] /\ exists r, worker y = Terminated r)).

End SessionVocabulary.

(** * Sessions of the synthetic wrapper: vocabulary *)

Section SyntheticSessionVocabulary.
Import VirtualViconWrapper.
Context {F : Type} {FO : PyFloat F}.

Local Open Scope Z_scope.

(** The records that the iterations [fs] append when the counter stands
    at [k]: the clock reading is all that differs from one to the next. *)
Fixpoint synthetic_records (fs : list (frame_env F)) (k : Z) : list (record F) :=
  match fs with
  | [] => []
  | d :: fs' =>
      frame_record (k + 1) 0 0 10 1 1 1 (time_time d)
        :: synthetic_records fs' (k + 1)
  end.

(** The call of the callback at line 160: one list, no keyword. *)
Definition synthetic_call : event F :=
  Callback [PList (map Int [0; 0; 10; 1; 1; 1])] None.

(** The events of [n] iterations whose callbacks return. *)
Fixpoint synthetic_events (cfg : config) (n : nat) : list (event F) :=
  match n with
  | O => []
  | S n' => generate_events cfg ++ synthetic_events cfg n'
  end.

(** What the [else] clause of the loop adds to the trace, for the
    position log [log]. *)
Definition while_else_events (e : env F) (log : list (record F))
  : list (event F) :=
  Log WARNING MsgOccluded ::
  match write_log e with
  | Ok _ => [Written log; Log INFO MsgSaved]
  | Raise _ => []
  end.

(** The outcome of the [else] clause. *)
Definition while_else_outcome (e : env F) : res unit :=
  match write_log e with
  | Ok _ => Ok tt
  | Raise x => Raise x
  end.

End SyntheticSessionVocabulary.

Section SyntheticThreadVocabulary.
Import VirtualViconWrapper VirtualThread.
Context {F : Type} {FO : PyFloat F}.

Local Open Scope Z_scope.

(** The body of the loop over the iterations [fs], without the [else]
    clause; it returns the counter. *)
Fixpoint iterations (cfg : config) (fs : list (frame_env F)) (frame_num : Z)
  : M F Z :=
  match fs with
  | [] => ret frame_num
  | d :: fs' =>
      bind (generate cfg d frame_num) (fun frame_num' =>
      iterations cfg fs' frame_num')
  end.

(** The state in which the loop is entered. *)
Definition generating : state F :=
  snd (log INFO MsgGenerating (with_flag true init_state)).

(** What a phase of the worker and the shared object correspond to in a
    run of [run]. *)
Definition matches_synthetic_run (cfg : config) (w : world F) (p : phase)
    (s : state F) : Prop :=
  match p with
  | Idle | Started => same_data s init_state
  | Streaming i frame_num =>
      exists s',
        iterations cfg (map (w_ticks w) (seq 0 i)) 0 generating
          = (Ok frame_num, s') /\
        same_data s s'
  | Terminated r =>
      exists n s',
        run cfg (session w n) init_state = (r, s') /\ same_data s s'
  end.

(** [vw.start(); vw.stop()]: how far the controlling thread is, against
    where the worker is. *)
Definition synthetic_controller_ok (y : system F) : Prop :=
  controller_error y = None /\
  ((controller y = (start ++ stop)%list /\ worker y = Idle) \/
   ((controller y = stop \/ controller y = [ViconWrapper.Thread_join]) /\
    worker y <> Idle) \/
   (controller y = [] /\ exists r, worker y = Terminated r)).

End SyntheticThreadVocabulary.

(** * More concrete sessions *)

Module Sessions.
Import ViconWrapper.

(** The server cannot be reached. *)
Definition unreachable : env Q :=
  {| create_client := Ok tt;
     setup := Sample.setup_unreachable;
     frames := [Sample.seen 1 7];
     final := Sample.final_ok |}.

(** The server cannot be reached and the directory [logs] does not
    exist. *)
Definition unreachable_no_directory : env Q :=
  {| create_client := Ok tt;
     setup := Sample.setup_unreachable;
     frames := [Sample.seen 1 7];
     final := Sample.final_no_directory |}.

(** The client has no new frame. *)
Definition no_frame_yet : frame_env Q :=
  {| get_frame := Ok false;
     get_frame_number := Ok 0%Z;
     get_subject_count := Ok None;
     get_unlabeled_marker_count := Ok None;
     get_subject_name := Ok None;
     get_subject_root_segment_name := Ok "";
     get_segment_global_translation := Ok None;
     get_segment_global_rotation_euler_xyz := Ok None;
     get_unlabeled_marker_global_translation := Ok None;
     time_time := 1700000000%Q;
     callback_result := Ok 0%Q;
     get_time_code := Ok tt;
     get_latency_total := Ok 0%Q |}.

(** A frame, a pause, a frame. *)
Definition with_pause : env Q :=
  Sample.session_of [Sample.seen 1 7; no_frame_yet; Sample.seen 2 7]
    Sample.final_ok.

End Sessions.

(** [vw.start(); vw.stop(); vw.start(); vw.stop()] on one object. *)
Definition restart : list ViconWrapper.instr :=
  ViconWrapper.start ++ ViconWrapper.stop ++ ViconWrapper.start ++ ViconWrapper.stop.

(** The worker records one frame, the first [stop()] lets it end, and the
    second [start()] is attempted. *)
Definition restart_schedule : list ViconWrapper.actor :=
  [ViconWrapper.Controller; ViconWrapper.Worker; ViconWrapper.Worker;
   ViconWrapper.Worker; ViconWrapper.Controller; ViconWrapper.Worker;
   ViconWrapper.Worker; ViconWrapper.Controller; ViconWrapper.Controller].

Definition restart_outcome : ViconWrapper.system Q :=
  match ViconWrapper.exec Sample.unlabeled (Sample.world_of Sample.final_ok)
          restart_schedule (ViconWrapper.boot restart) with
  | Some y => y
  | None => ViconWrapper.boot restart
  end.

(** The worker is in its second iteration when [stop()] is called. *)
Definition streaming_system : ViconWrapper.system Q :=
  match ViconWrapper.exec Sample.unlabeled (Sample.world_of Sample.final_ok)
          [ViconWrapper.Controller; ViconWrapper.Worker; ViconWrapper.Worker;
           ViconWrapper.Worker]
          (ViconWrapper.boot (ViconWrapper.start ++ ViconWrapper.stop)) with
  | Some y => y
  | None => ViconWrapper.boot (ViconWrapper.start ++ ViconWrapper.stop)
  end.

(** The main block against a client that delivers frames: the worker
    records one frame before [stop()] is called. *)
Definition main_outcome : ViconWrapper.system Q :=
  match ViconWrapper.exec main_config (Sample.world_of Sample.final_ok)
          [ViconWrapper.Controller; ViconWrapper.Worker; ViconWrapper.Worker;
           ViconWrapper.Worker; ViconWrapper.Controller; ViconWrapper.Worker;
           ViconWrapper.Worker; ViconWrapper.Controller]
          (ViconWrapper.boot main_program) with
  | Some y => y
  | None => ViconWrapper.boot main_program
  end.

Module VirtualSessions.
Import VirtualViconWrapper.

(** Two iterations; the directory [logs] does not exist. *)
Definition no_directory : env Q :=
  {| frames := [VirtualSample.tick (Ok 7%Q); VirtualSample.tick (Ok 7%Q)];
     write_log := Raise (Exception "FileNotFoundError") |}.

(** A source of synthetic frames whose callback raises from the third
    iteration on. *)
Definition crashing_world : VirtualThread.world Q :=
  {| VirtualThread.w_ticks := fun i =>
       VirtualSample.tick (if (i <? 2)%nat then Ok 7%Q
                           else Raise (Exception "ValueError"));
     VirtualThread.w_write_log := Ok tt |}.

(** [start()], three iterations of the worker, then [stop()]. *)
Definition crashing_outcome : VirtualThread.system Q :=
  match VirtualThread.exec VirtualSample.with_callback crashing_world
          [ViconWrapper.Controller; ViconWrapper.Worker; ViconWrapper.Worker;
           ViconWrapper.Worker; ViconWrapper.Worker;
           ViconWrapper.Controller; ViconWrapper.Controller]
          (VirtualThread.boot (VirtualThread.start ++ VirtualThread.stop)) with
  | Some y => y
  | None => VirtualThread.boot (VirtualThread.start ++ VirtualThread.stop)
  end.

End VirtualSessions.

(** * Reasoning about the monad *)

Section MonadFacts.
Context {F : Type}.
Implicit Types (P : event F -> Prop) (Q : record F -> Prop).
Implicit Types (s : state F).

Lemma grows_refl P Q s : grows P Q s s.
Proof.
  exists [], []. rewrite !app_nil_r. repeat split; constructor.
Qed.

Lemma grows_trans P Q s1 s2 s3 :
  grows P Q s1 s2 -> grows P Q s2 s3 -> grows P Q s1 s3.
Proof.
  intros (t1 & l1 & Ht1 & HP1 & Hl1 & HQ1 & Hr1)
         (t2 & l2 & Ht2 & HP2 & Hl2 & HQ2 & Hr2).
  exists (t1 ++ t2), (l1 ++ l2).
  rewrite Ht2, Ht1, Hl2, Hl1, Hr2, Hr1, !app_assoc.
  repeat split; apply Forall_app; auto.
Qed.

Lemma sound_ret P Q {A} (a : A) : sound P Q (ret a).
Proof. intros s. apply grows_refl. Qed.

Lemma sound_raise P Q {A} e : sound P Q (@raise F A e).
Proof. intros s. apply grows_refl. Qed.

Lemma sound_lift P Q {A} (r : res A) : sound P Q (lift r).
Proof. intros s. apply grows_refl. Qed.

Lemma sound_bind P Q {A B} (m : M F A) (k : A -> M F B) :
  sound P Q m -> (forall a, sound P Q (k a)) -> sound P Q (bind m k).
Proof.
  intros Hm Hk s. unfold bind. specialize (Hm s).
  destruct (m s) as [[a | e] s1]; cbn in *; auto.
  eapply grows_trans; [exact Hm | apply Hk].
Qed.

Lemma sound_emit (P : event F -> Prop) Q ev : P ev -> sound P Q (emit ev).
Proof.
  intros HP s. exists [ev], []. cbn. rewrite app_nil_r.
  repeat split; auto.
Qed.

Lemma sound_log (P : event F -> Prop) Q l m :
  P (Log l m) -> sound P Q (log l m).
Proof. apply sound_emit. Qed.

Lemma sound_call (P : event F -> Prop) Q {A} c (r : res A) :
  P (Call c) -> sound P Q (call c r).
Proof.
  intros HP. apply sound_bind; [apply sound_emit; exact HP |].
  intros _. apply sound_lift.
Qed.

Lemma sound_append P (Q : record F -> Prop) r : Q r -> sound P Q (append r).
Proof.
  intros HQ s. exists [], [r]. cbn. rewrite app_nil_r.
  repeat split; auto.
Qed.

Lemma sound_except P Q {A} (handler : exn -> option (M F A)) (r : res A) :
  (forall e h, handler e = Some h -> sound P Q h) ->
  sound P Q (except_ handler r).
Proof.
  intros Hh. destruct r as [a | e]; cbn.
  - apply sound_ret.
  - destruct (handler e) eqn:E; [eapply Hh; eauto | apply sound_raise].
Qed.

Lemma oblivious_ret {A} (a : A) : oblivious (@ret F A a).
Proof. intros b s. reflexivity. Qed.

Lemma oblivious_raise {A} e : oblivious (@raise F A e).
Proof. intros b s. reflexivity. Qed.

Lemma oblivious_lift {A} (r : res A) : oblivious (@lift F A r).
Proof. intros b s. reflexivity. Qed.

Lemma oblivious_emit ev : oblivious (@emit F ev).
Proof. intros b s. reflexivity. Qed.

Lemma oblivious_log l m : oblivious (@log F l m).
Proof. intros b s. reflexivity. Qed.

Lemma oblivious_append r : oblivious (@append F r).
Proof. intros b s. reflexivity. Qed.

Lemma oblivious_bind {A B} (m : M F A) (k : A -> M F B) :
  oblivious m -> (forall a, oblivious (k a)) -> oblivious (bind m k).
Proof.
  intros Hm Hk b s. unfold bind. rewrite Hm.
  destruct (m s) as [[a | e] s1]; cbn; [apply Hk | reflexivity].
Qed.

Lemma oblivious_call {A} c (r : res A) : oblivious (@call F A c r).
Proof.
  apply oblivious_bind; [apply oblivious_emit | intros _; apply oblivious_lift].
Qed.

Lemma oblivious_except {A} (handler : exn -> option (M F A)) (r : res A) :
  (forall e h, handler e = Some h -> oblivious h) ->
  oblivious (except_ handler r).
Proof.
  intros Hh. destruct r as [a | e]; cbn.
  - apply oblivious_ret.
  - destruct (handler e) eqn:E; [eapply Hh; eauto | apply oblivious_raise].
Qed.

Lemma oblivious_finally {A} (fin : M F unit) (r : res A) :
  oblivious fin -> oblivious (finally_ fin r).
Proof.
  intros Hf b s. unfold finally_. rewrite Hf.
  destruct (fin s) as [[[] | e] s1]; reflexivity.
Qed.

End MonadFacts.

Create HintDb sound discriminated.
#[export] Hint Resolve sound_ret sound_raise sound_lift sound_emit sound_log
  sound_call sound_append : sound.

Create HintDb oblivious discriminated.
#[export] Hint Resolve oblivious_ret oblivious_raise oblivious_lift
  oblivious_emit oblivious_log oblivious_append oblivious_call : oblivious.

Ltac sound_step :=
  match goal with
  | |- sound _ _ (bind _ _) => apply sound_bind; [| intros ?]
  | |- sound _ _ (call _ _) => apply sound_call; first [exact I | reflexivity]
  | |- sound _ _ (log _ _) => apply sound_log; first [exact I | reflexivity]
  | |- sound _ _ (emit _) => apply sound_emit; first [exact I | reflexivity]
  | |- sound _ _ (ret _) => apply sound_ret
  | |- sound _ _ (lift _) => apply sound_lift
  | |- sound _ _ (if ?b then _ else _) => destruct b
  | |- sound _ _ (match ?x with _ => _ end) => destruct x
  end.

Ltac oblivious_step :=
  match goal with
  | |- oblivious (bind _ _) => apply oblivious_bind; [| intros ?]
  | |- oblivious (if ?b then _ else _) => destruct b
  | |- oblivious (match ?x with _ => _ end) => destruct x
  | |- oblivious _ => solve [auto with oblivious]
  end.

(** Case analysis on what the environment answers, innermost test first. *)
Ltac crunch H :=
  repeat match type of H with
         | context [match ?x with _ => _ end] =>
             lazymatch x with
             | context [match _ with _ => _ end] => fail
             | _ => destruct x eqn:?; cbn in H; try discriminate H
             end
         end.

(** * The device-backed wrapper: what each block can do *)

Section DeviceFacts.
Import ViconWrapper.
Context {F : Type} {FO : PyFloat F}.

Lemma sound_connecting cfg ce : sound quiet device_record (connecting cfg ce).
Proof. unfold connecting. repeat sound_step. Qed.

Lemma sound_extract_pose cfg (d : frame_env F) :
  sound quiet device_record (extract_pose cfg d).
Proof. unfold extract_pose. repeat sound_step. Qed.

Lemma sound_invoke_callback cfg (d : frame_env F) x y z rot now :
  sound quiet device_record (invoke_callback cfg d x y z rot now).
Proof. unfold invoke_callback. repeat sound_step. Qed.

Lemma sound_account_latency (d : frame_env F) fc :
  sound quiet device_record (account_latency d fc).
Proof. unfold account_latency. repeat sound_step. Qed.

Lemma sound_poll cfg (d : frame_env F) : sound quiet device_record (poll cfg d).
Proof.
  unfold poll. repeat sound_step;
    try apply sound_extract_pose; try apply sound_invoke_callback;
    try apply sound_account_latency.
  apply sound_append. unfold device_record. eauto 6.
Qed.

Lemma sound_streaming cfg (fs : list (frame_env F)) : sound quiet device_record (streaming cfg fs).
Proof.
  induction fs as [| d fs IH]; cbn.
  - apply sound_ret.
  - apply sound_bind; [apply sound_poll | intros _; exact IH].
Qed.

Lemma sound_handler e h :
  handler e = Some h -> sound quiet device_record h.
Proof.
  destruct e; cbn; intros E; inversion E; subst; apply sound_log; exact I.
Qed.

Lemma oblivious_connecting cfg ce : oblivious (connecting (F:=F) cfg ce).
Proof. unfold connecting. repeat oblivious_step. Qed.

Lemma oblivious_extract_pose cfg (d : frame_env F) : oblivious (extract_pose cfg d).
Proof. unfold extract_pose. repeat oblivious_step. Qed.

Lemma oblivious_invoke_callback cfg (d : frame_env F) x y z rot now :
  oblivious (invoke_callback cfg d x y z rot now).
Proof. unfold invoke_callback. repeat oblivious_step. Qed.

Lemma oblivious_account_latency (d : frame_env F) fc : oblivious (account_latency d fc).
Proof. unfold account_latency. repeat oblivious_step. Qed.

Lemma oblivious_poll cfg (d : frame_env F) : oblivious (poll cfg d).
Proof.
  unfold poll. repeat oblivious_step;
    auto using oblivious_extract_pose, oblivious_invoke_callback,
               oblivious_account_latency.
Qed.

Lemma oblivious_handler e (h : M F unit) :
  handler e = Some h -> oblivious h.
Proof.
  destruct e; cbn; intros E; inversion E; subst; apply oblivious_log.
Qed.

Lemma oblivious_write_json r : oblivious (write_json (F:=F) r).
Proof. intros b s. destruct r; reflexivity. Qed.

Lemma oblivious_stopping fe : oblivious (stopping (F:=F) fe).
Proof.
  unfold stopping. repeat oblivious_step. apply oblivious_write_json.
Qed.

End DeviceFacts.

(** * The device-backed wrapper: [run] as a whole *)

Section DeviceRun.
Import ViconWrapper.
Context {F : Type} {FO : PyFloat F}.

Lemma run_create_fails cfg (e : env F) s x :
  create_client e = Raise x ->
  run cfg e s = (Raise x, with_flag true s).
Proof.
  intros H. unfold run, bind. cbn. rewrite H. reflexivity.
Qed.

Lemma run_unfold cfg (e : env F) s u :
  create_client e = Ok u ->
  run cfg e s =
  (let '(r, s1) := guarded cfg e
                     (snd (log INFO MsgClientCreated (with_flag true s))) in
   finally_ (stopping (final e)) r s1).
Proof.
  intros H. unfold run, bind at 1 2 3. cbn. rewrite H. cbn.
  unfold try_except_finally, guarded.
  destruct (bind _ _ _) as [r s1]. destruct (except_ handler r s1).
  reflexivity.
Qed.

Lemma sound_guarded cfg (e : env F) : sound quiet device_record (guarded cfg e).
Proof.
  intros s. unfold guarded.
  pose proof (sound_bind quiet device_record
                (connecting cfg (setup e))
                (fun _ => streaming cfg (frames e))
                (sound_connecting cfg (setup e))
                (fun _ => sound_streaming cfg (frames e)) s) as H1.
  destruct (bind _ _ s) as [r s1]. cbn in H1.
  eapply grows_trans; [exact H1 |].
  apply sound_except. apply sound_handler.
Qed.

(** The finally block, case by case. *)
Lemma stopping_write_fails (fe : stop_env) (s : state F) x :
  write_log fe = Raise x -> stopping fe s = (Raise x, s).
Proof.
  intros H. unfold stopping, bind, write_json. rewrite H. reflexivity.
Qed.

Lemma stopping_write_ok (fe : stop_env) (s : state F) u :
  write_log fe = Ok u ->
  exists r post,
    stopping fe s =
      (r, {| running := running s;
             position_log := position_log s;
             trace := trace s ++ Written (position_log s) :: Log INFO MsgSaved
                                 :: Call Cis_connected :: post |}) /\
    (In (Call Cdisconnect) post <-> is_connected fe = Ok true) /\
    Forall (fun ev => ev = Call Cdisconnect \/ ev = Log INFO MsgDisconnected)
           post.
Proof.
  intros H. unfold stopping, bind, write_json, call, log, bind, emit, lift.
  rewrite H. cbn.
  destruct (is_connected fe) as [[|] | x]; cbn.
  - destruct (disconnect fe) as [[] | x]; cbn.
    + exists (Ok tt), [Call Cdisconnect; Log INFO MsgDisconnected].
      rewrite <- !app_assoc. cbn. split; [reflexivity | split].
      * split; [reflexivity | cbn; auto].
      * repeat first [apply Forall_nil | apply Forall_cons; [first [left; reflexivity | right; reflexivity] |]].
    + exists (Raise x), [Call Cdisconnect].
      rewrite <- !app_assoc. cbn. split; [reflexivity | split].
      * split; [reflexivity | cbn; auto].
      * repeat first [apply Forall_nil | apply Forall_cons; [first [left; reflexivity | right; reflexivity] |]].
  - exists (Ok tt), []. rewrite <- !app_assoc. cbn.
    split; [reflexivity | split].
    + split; [intros [] | discriminate].
    + constructor.
  - exists (Raise x), []. rewrite <- !app_assoc. cbn.
    split; [reflexivity | split].
    + split; [intros [] | discriminate].
    + constructor.
Qed.

End DeviceRun.

(** * The claims about the Stopping phase *)

Section Stopping.
Import ViconWrapper.
Context {F : Type} {FO : PyFloat F}.

(** C1 (as amended).  Whenever the client object could be created, so that
    [try] is entered, and however Connecting and Streaming end (normal
    stop, an exception caught by one of the except clauses, or one that is
    not caught), the events of the finally block ([post]) come last, after
    those of Connecting, Streaming and the except clauses ([pre]), which
    contain no write and no disconnect.  The block first writes the
    current position log.  If that write raises, nothing else happens: the
    exception leaves [run], and the wrapper object is left as it was when
    the block was entered, so the block has logged nothing (neither the
    failure nor a saved file) and has called neither [is_connected] nor
    [disconnect].  If the write succeeds, the block logs it, asks
    [is_connected] and calls [disconnect] exactly when the answer is
    [True]. *)
Theorem stopping_writes_then_disconnects cfg (e : env F) s0 r s :
  create_client e = Ok tt ->
  run cfg e s0 = (r, s) ->
  exists pre post,
    trace (before_finally cfg e s0) = trace s0 ++ pre /\
    trace s = trace (before_finally cfg e s0) ++ post /\
    trace s = trace s0 ++ pre ++ post /\
    Forall quiet pre /\
    match write_log (final e) with
    | Raise x =>
        post = [] /\ r = Raise x /\ s = before_finally cfg e s0
    | Ok _ =>
        exists post',
          post = Written (position_log s) :: Log INFO MsgSaved
                   :: Call Cis_connected :: post' /\
          (In (Call Cdisconnect) post' <-> is_connected (final e) = Ok true) /\
          Forall (fun ev => ev = Call Cdisconnect \/
                            ev = Log INFO MsgDisconnected) post'
    end.
Proof.
  intros Hc Hrun. rewrite (run_unfold _ _ _ _ Hc) in Hrun.
  unfold before_finally.
  pose proof (sound_guarded cfg e
                (snd (log INFO MsgClientCreated (with_flag true s0)))) as Hg.
  destruct (guarded cfg e _) as [r1 s1]. cbn in Hg. cbn [snd].
  destruct Hg as (t & l & Ht & HPt & Hl & HQl & Hr).
  cbn in Ht. rewrite <- app_assoc in Ht.
  unfold finally_ in Hrun.
  destruct (write_log (final e)) as [u | x] eqn:Hw.
  - destruct (stopping_write_ok (final e) s1 u Hw) as (r2 & post' & Hs & Hd & Hf).
    rewrite Hs in Hrun.
    exists ([Log INFO MsgClientCreated] ++ t),
           (Written (position_log s1) :: Log INFO MsgSaved
              :: Call Cis_connected :: post').
    assert (Hs' : trace s = trace s1 ++ Written (position_log s1)
                    :: Log INFO MsgSaved :: Call Cis_connected :: post'
                  /\ position_log s = position_log s1).
    { destruct r2 as [[] | x]; inversion Hrun; subst; cbn; auto. }
    destruct Hs' as [Hts Hls]. rewrite Hts, Ht, <- !app_assoc, Hls.
    split; [reflexivity | split; [reflexivity | split; [reflexivity | split]]].
    + constructor; [exact I | exact HPt].
    + exists post'. auto.
  - rewrite (stopping_write_fails _ _ _ Hw) in Hrun. inversion Hrun; subst.
    exists ([Log INFO MsgClientCreated] ++ t), [].
    rewrite Ht, !app_nil_r.
    split; [reflexivity | split; [reflexivity | split; [reflexivity | split]]];
      auto.
    constructor; [exact I | exact HPt].
Qed.

End Stopping.

Lemma stopping_writes_then_disconnects_witness :
  (exists pre post,
    trace (before_finally Sample.unlabeled
             (Sample.session_of [Sample.seen 4 7] Sample.final_ok) init_state)
      = trace init_state ++ pre /\
    trace (snd (ViconWrapper.run Sample.unlabeled
                  (Sample.session_of [Sample.seen 4 7] Sample.final_ok)
                  init_state))
      = trace (before_finally Sample.unlabeled
                 (Sample.session_of [Sample.seen 4 7] Sample.final_ok)
                 init_state) ++ post /\
    trace (snd (ViconWrapper.run Sample.unlabeled
                  (Sample.session_of [Sample.seen 4 7] Sample.final_ok)
                  init_state))
      = trace init_state ++ pre ++ post /\
    Forall quiet pre /\
    exists post',
      post = Written (position_log
                        (snd (ViconWrapper.run Sample.unlabeled
                                (Sample.session_of [Sample.seen 4 7]
                                   Sample.final_ok) init_state)))
               :: Log INFO MsgSaved :: Call Cis_connected :: post' /\
      (In (Call Cdisconnect) post' <-> Ok true = Ok true) /\
      Forall (fun ev => ev = Call Cdisconnect \/
                        ev = Log INFO MsgDisconnected) post') /\
  (let out := ViconWrapper.run Sample.unlabeled
                Sessions.unreachable_no_directory init_state in
   let entry := before_finally Sample.unlabeled
                  Sessions.unreachable_no_directory init_state in
   exists pre post,
     trace entry = trace init_state ++ pre /\
     trace (snd out) = trace entry ++ post /\
     trace (snd out) = trace init_state ++ pre ++ post /\
     Forall quiet pre /\
     post = [] /\
     fst out = Raise (Exception "FileNotFoundError") /\
     snd out = entry).
Proof.
  split.
  - exact (stopping_writes_then_disconnects (F := Q) Sample.unlabeled
             (Sample.session_of [Sample.seen 4 7] Sample.final_ok)
             init_state _ _ eq_refl (surjective_pairing _)).
  - exact (stopping_writes_then_disconnects (F := Q) Sample.unlabeled
             Sessions.unreachable_no_directory
             init_state _ _ eq_refl (surjective_pairing _)).
Defined.

(** C1, as stated, fails.  With the directory [logs] missing the write
    raises: the exception leaves [run], no error is logged, and the client
    is neither asked [is_connected] nor disconnected.  And in a session
    that ends normally the file is written before the disconnect, not
    after. *)
Lemma stopping_counterexample :
  let failed := ViconWrapper.run (F := Q) Sample.unlabeled
                  (Sample.session_of [] Sample.final_no_directory) init_state in
  let normal := ViconWrapper.run (F := Q) Sample.unlabeled
                  (Sample.session_of [] Sample.final_ok) init_state in
  fst failed = Raise (Exception "FileNotFoundError") /\
  ~ In (Call Cdisconnect) (trace (snd failed)) /\
  ~ In (Call Cis_connected) (trace (snd failed)) /\
  (forall m, ~ In (Log ERROR m) (trace (snd failed))) /\
  exists pre post,
    trace (snd normal) =
      pre ++ [Written []; Log INFO MsgSaved; Call Cis_connected;
              Call Cdisconnect] ++ post /\
    ~ In (Call Cdisconnect) pre.
Proof.
  vm_compute. split; [reflexivity |].
  split; [intuition discriminate |].
  split; [intuition discriminate |].
  split; [intros m; intuition discriminate |].
  eexists [_; _; _; _; _; _; _; _; _], _.
  split; [reflexivity | intuition discriminate].
Qed.

(** * One iteration of the device loop *)

Section DevicePoll.
Import ViconWrapper.
Context {F : Type} {FO : PyFloat F}.

Lemma no_self_append {A} (l : list A) x : l = l ++ [x] -> False.
Proof.
  intros H. apply (f_equal (@List.length A)) in H.
  rewrite length_app in H. cbn in H. lia.
Qed.

Lemma filter_none {A} (f : A -> bool) l :
  Forall (fun x => f x = false) l -> filter f l = [].
Proof.
  induction 1 as [| x l Hx _ IH]; cbn; [reflexivity |].
  rewrite Hx. exact IH.
Qed.

Ltac open_poll H :=
  unfold poll, extract_pose, invoke_callback, account_latency,
    bind, call, log, emit, lift, append, ret in H;
  cbn in H.



(** What an iteration does to the position log: nothing, or one record
    carrying the frame number the client reported. *)
Lemma poll_log cfg (d : frame_env F) s :
  position_log (snd (poll cfg d s)) = position_log s \/
  exists n pos_x pos_y pos_z,
    get_frame d = Ok true /\ get_frame_number d = Ok n /\
    position_log (snd (poll cfg d s)) =
      position_log s ++ [frame_record n pos_x pos_y pos_z (time_time d)].
Proof.
  destruct (poll cfg d s) as [r s'] eqn:H. destruct cfg as [[|] [|]].
  all: open_poll H; crunch H.
  all: inversion H; subst; clear H; cbn; auto.
  all: right; eauto 8.
Qed.

(** With orientation tracking and a rotation at hand, a captured frame
    hands the three Euler angles to the callback. *)
Lemma poll_rotation_to_callback (d : frame_env F) s s' rec r0 r1 r2 :
  get_segment_global_rotation_euler_xyz d = Ok (Some (r0, r1, r2)) ->
  poll {| callback := true; labeled_object := true |} d s = (Ok tt, s') ->
  position_log s' = position_log s ++ [rec] ->
  exists pos_x pos_y pos_z t,
    trace s' = trace s ++ t /\
    In (Callback (map (fun x => Num (Float x))
                    [pos_x; pos_y; pos_z; r0; r1; r2]) (Some (time_time d))) t.
Proof.
  intros Hrot H Hlog.
  open_poll H; crunch H.
  all: inversion H; subst; clear H; cbn in Hlog.
  all: try (exfalso; eapply no_self_append; eassumption).
  all: try discriminate Hrot.
  all: inversion Hrot; subst.
  all: do 3 eexists; eexists; cbn;
       (split; [rewrite <- !app_assoc; reflexivity |]); cbn; auto 20.
Qed.



End DevicePoll.

(** * The synthetic wrapper *)

Section SyntheticFacts.
Import VirtualViconWrapper.
Context {F : Type} {FO : PyFloat F}.

Local Open Scope Z_scope.

Lemma ids_after_succ k n :
  ids_after k (S n) = Some (k + 1) :: ids_after (k + 1) n.
Proof.
  unfold ids_after. cbn [seq map]. f_equal.
  rewrite <- seq_shift, map_map. apply map_ext. intros i.
  f_equal. lia.
Qed.

Lemma generate_returns cfg (d : frame_env F) k s :
  (callback cfg = true -> callback_returns d) ->
  generate cfg d k s =
    (Ok (k + 1),
     {| running := running s;
        position_log :=
          position_log s ++ [frame_record (k + 1) 0 0 10 1 1 1 (time_time d)];
        trace := trace s ++ generate_events cfg |}).
Proof.
  intros H. unfold generate, generate_events, bind, append, emit, lift, log, ret.
  destruct (callback cfg); cbn.
  - destruct (H eq_refl) as [v Hv]. rewrite Hv. cbn.
    rewrite <- !app_assoc. reflexivity.
  - reflexivity.
Qed.

Lemma generate_raises cfg (d : frame_env F) k s x :
  callback cfg = true ->
  callback_result d = Raise x ->
  generate cfg d k s =
    (Raise x,
     {| running := running s;
        position_log :=
          position_log s ++ [frame_record (k + 1) 0 0 10 1 1 1 (time_time d)];
        trace := trace s ++ [Callback [PList (map Int [0; 0; 10; 1; 1; 1])] None] |}).
Proof.
  intros Hc Hx. unfold generate, bind, append, emit, lift, log, ret.
  rewrite Hc. cbn. rewrite Hx. reflexivity.
Qed.

(** Either the callback returns or it raises. *)
Lemma generate_cases cfg (d : frame_env F) :
  (callback cfg = true -> callback_returns d) \/
  (callback cfg = true /\ exists x, callback_result d = Raise x).
Proof.
  destruct (callback cfg); [| left; discriminate].
  destruct (callback_result d) as [v | x] eqn:E.
  - left. intros _. exists v. exact E.
  - right. split; [reflexivity | exists x; reflexivity].
Qed.

Lemma while_else_log (e : env F) s :
  position_log (snd (while_else e s)) = position_log s.
Proof.
  unfold while_else, bind, log, emit, write_json.
  cbn. destruct (write_log e); reflexivity.
Qed.

(** However the session ends, the position log holds consecutive frame
    ids and the fixed position. *)
Lemma synthetic_log_shape cfg (e : env F) fs : forall k s,
  exists l,
    position_log (snd (streaming cfg e fs k s)) = position_log s ++ l /\
    map frame_id l = ids_after k (List.length l) /\
    Forall synthetic_tvec l /\
    (List.length l <= List.length fs)%nat.
Proof.
  induction fs as [| d fs IH]; intros k s.
  - exists []. cbn [streaming]. rewrite while_else_log, app_nil_r.
    repeat split; auto.
  - cbn [streaming]. unfold bind at 1.
    destruct (generate_cases cfg d) as [Hok | (Hc & x & Hx)].
    + rewrite (generate_returns cfg d k s Hok).
      destruct (IH (k + 1) {| running := running s;
                              position_log := position_log s ++
                                [frame_record (k + 1) 0 0 10 1 1 1 (time_time d)];
                              trace := trace s ++ generate_events cfg |})
        as (l & Hl & Hids & Htv & Hlen).
      exists (frame_record (k + 1) 0 0 10 1 1 1 (time_time d) :: l).
      rewrite Hl. cbn [position_log]. rewrite <- app_assoc.
      split; [reflexivity |]. split; [| split].
      * cbn [map List.length]. rewrite ids_after_succ, Hids. reflexivity.
      * constructor; [reflexivity | exact Htv].
      * cbn. lia.
    + rewrite (generate_raises cfg d k s x Hc Hx).
      exists [frame_record (k + 1) 0 0 10 1 1 1 (time_time d)].
      cbn [fst snd position_log]. split; [reflexivity |]. split; [| split].
      * reflexivity.
      * constructor; [reflexivity | constructor].
      * cbn. lia.
Qed.

(** What a written file holds is the position log as it is at the end. *)
Lemma synthetic_written_is_log cfg (e : env F) fs : forall k s written,
  In (Written written) (trace (snd (streaming cfg e fs k s))) ->
  In (Written written) (trace s) \/
  written = position_log (snd (streaming cfg e fs k s)).
Proof.
  induction fs as [| d fs IH]; intros k s written.
  - cbn [streaming]. unfold while_else, bind, log, emit, write_json. cbn.
    destruct (write_log e); cbn; rewrite ?in_app_iff; cbn.
    + intros [[[H | [H | []]] | [H | []]] | [H | []]];
        try discriminate; auto.
      inversion H; auto.
    + intros [H | [H | []]]; try discriminate; auto.
  - cbn [streaming]. unfold bind.
    destruct (generate_cases cfg d) as [Hok | (Hc & x & Hx)].
    + rewrite (generate_returns cfg d k s Hok). intros H.
      apply IH in H. destruct H as [H | H]; [| right; exact H].
      cbn in H. rewrite in_app_iff in H. destruct H as [H | H]; [left; exact H |].
      exfalso. unfold generate_events in H.
      destruct (callback cfg); cbn in H; intuition discriminate.
    + rewrite (generate_raises cfg d k s x Hc Hx). cbn.
      rewrite in_app_iff. cbn. intros [H | [H | []]]; [left; exact H | discriminate].
Qed.

(** A session whose callbacks all return and whose file can be written. *)
Lemma synthetic_normal_stop cfg (e : env F) fs : forall k s,
  (callback cfg = true -> Forall callback_returns fs) ->
  write_log e = Ok tt ->
  exists l t,
    streaming cfg e fs k s =
      (Ok tt,
       {| running := running s;
          position_log := position_log s ++ l;
          trace := trace s ++ t ++ [Log WARNING MsgOccluded;
                                    Written (position_log s ++ l);
                                    Log INFO MsgSaved] |}) /\
    List.length l = List.length fs /\
    filter is_written t = [].
Proof.
  induction fs as [| d fs IH]; intros k s Hcb Hw.
  - exists [], []. cbn [streaming].
    unfold while_else, bind, log, emit, write_json. rewrite Hw. cbn.
    rewrite !app_nil_r, <- !app_assoc. auto.
  - cbn [streaming]. unfold bind at 1.
    assert (Hd : callback cfg = true -> callback_returns d).
    { intros Hc. specialize (Hcb Hc). inversion Hcb; auto. }
    assert (Hfs : callback cfg = true -> Forall callback_returns fs).
    { intros Hc. specialize (Hcb Hc). inversion Hcb; auto. }
    rewrite (generate_returns cfg d k s Hd).
    destruct (IH (k + 1) {| running := running s;
                            position_log := position_log s ++
                              [frame_record (k + 1) 0 0 10 1 1 1 (time_time d)];
                            trace := trace s ++ generate_events cfg |} Hfs Hw)
      as (l & t & Hrun & Hlen & Ht).
    exists (frame_record (k + 1) 0 0 10 1 1 1 (time_time d) :: l),
           (generate_events cfg ++ t).
    rewrite Hrun. cbn [running position_log trace].
    rewrite <- !app_assoc. cbn [app]. split; [reflexivity |].
    split; [cbn; lia |].
    rewrite filter_app, Ht, app_nil_r. unfold generate_events.
    destruct (callback cfg); reflexivity.
Qed.


(** ** A session taken apart *)

Lemma while_else_anatomy (e : env F) s :
  while_else e s =
    (while_else_outcome e,
     {| running := running s;
        position_log := position_log s;
        trace := trace s ++ while_else_events e (position_log s) |}).
Proof.
  unfold while_else, while_else_outcome, while_else_events,
    bind, log, emit, write_json.
  cbn. destruct (write_log e) as [[] | x]; cbn; rewrite <- ?app_assoc; reflexivity.
Qed.

(** A session whose callbacks all return, exactly. *)
Lemma streaming_returns cfg (e : env F) fs : forall k s,
  (callback cfg = true -> Forall callback_returns fs) ->
  streaming cfg e fs k s =
    (while_else_outcome e,
     {| running := running s;
        position_log := position_log s ++ synthetic_records fs k;
        trace := trace s ++ synthetic_events cfg (List.length fs)
                   ++ while_else_events e
                        (position_log s ++ synthetic_records fs k) |}).
Proof.
  induction fs as [| d fs IH]; intros k s Hcb.
  - cbn [streaming synthetic_records synthetic_events List.length app].
    rewrite while_else_anatomy, !app_nil_r. reflexivity.
  - cbn [streaming]. unfold bind at 1.
    assert (Hd : callback cfg = true -> callback_returns d).
    { intros Hc. specialize (Hcb Hc). inversion Hcb; auto. }
    assert (Hfs : callback cfg = true -> Forall callback_returns fs).
    { intros Hc. specialize (Hcb Hc). inversion Hcb; auto. }
    rewrite (generate_returns cfg d k s Hd), (IH _ _ Hfs).
    cbn [running position_log trace synthetic_records synthetic_events
         List.length].
    rewrite <- !app_assoc. reflexivity.
Qed.

(** A session in which the callback raises, exactly: [d] is the first
    iteration in which it does. *)
Lemma streaming_raises cfg (e : env F) pre d post x : forall k s,
  callback cfg = true ->
  Forall callback_returns pre ->
  callback_result d = Raise x ->
  streaming cfg e (pre ++ d :: post) k s =
    (Raise x,
     {| running := running s;
        position_log := position_log s ++ synthetic_records (pre ++ [d]) k;
        trace := trace s ++ synthetic_events cfg (List.length pre)
                   ++ [synthetic_call] |}).
Proof.
  induction pre as [| d0 pre IH]; intros k s Hc Hpre Hx.
  - cbn [app streaming synthetic_records synthetic_events List.length].
    unfold bind. rewrite (generate_raises cfg d k s x Hc Hx). reflexivity.
  - inversion Hpre as [| ? ? Hd0 Hpre']; subst.
    cbn [app streaming]. unfold bind at 1.
    rewrite (generate_returns cfg d0 k s (fun _ => Hd0)), (IH _ _ Hc Hpre' Hx).
    cbn [running position_log trace synthetic_records synthetic_events
         List.length app].
    rewrite <- !app_assoc. reflexivity.
Qed.

(** Either every callback returns, or there is a first one that raises. *)
Lemma first_raise cfg (fs : list (frame_env F)) :
  (callback cfg = true -> Forall callback_returns fs) \/
  (callback cfg = true /\
   exists pre d post x,
     fs = (pre ++ d :: post)%list /\ Forall callback_returns pre /\
     callback_result d = Raise x).
Proof.
  destruct (callback cfg); [| left; discriminate].
  induction fs as [| d fs IH].
  - left. constructor.
  - destruct (callback_result d) as [v | x] eqn:E.
    + destruct IH as [IH | (_ & pre & d' & post & x & -> & Hpre & Hx)].
      * left. intros _. constructor; [exists v; exact E | auto].
      * right. split; [reflexivity |].
        exists (d :: pre), d', post, x.
        repeat split; auto. constructor; [exists v; exact E | exact Hpre].
    + right. split; [reflexivity |]. exists [], d, fs, x.
      repeat split; auto.
Qed.

Lemma run_is_streaming cfg (e : env F) :
  run cfg e init_state =
    streaming cfg e (frames e) 0
      {| running := true; position_log := [];
         trace := [Log INFO MsgGenerating] |}.
Proof. reflexivity. Qed.

Lemma synthetic_events_filter cfg (f : event F -> bool) n :
  f (Log DEBUG (MsgPosition (Int 0) (Int 0) (Int 10))) = false ->
  filter f (synthetic_events cfg n) =
    if callback cfg && f synthetic_call then repeat synthetic_call n else [].
Proof.
  intros Hf. induction n as [| n IH]; cbn [synthetic_events].
  - destruct (callback cfg && f synthetic_call); reflexivity.
  - rewrite filter_app, IH. unfold generate_events.
    destruct (callback cfg); cbn [andb app filter]; rewrite Hf.
    + fold (synthetic_call (F := F)).
      destruct (f synthetic_call); reflexivity.
    + reflexivity.
Qed.

Lemma synthetic_records_length (fs : list (frame_env F)) : forall k,
  List.length (synthetic_records fs k) = List.length fs.
Proof.
  induction fs as [| d fs IH]; intros k; cbn; [reflexivity |].
  rewrite IH. reflexivity.
Qed.

Lemma firstn_first (pre post : list (frame_env F)) d :
  firstn (S (List.length pre)) (pre ++ d :: post) = (pre ++ [d])%list.
Proof.
  induction pre as [| d0 pre IH]; cbn [List.length app firstn];
    [reflexivity |].
  rewrite <- IH. reflexivity.
Qed.

End SyntheticFacts.

(** * Subsequences *)

Lemma subseq_nil_l {A} (l : list A) : subseq [] l.
Proof. induction l; constructor; auto. Qed.

Lemma subseq_app_skip {A} (l1 l2 pre : list A) :
  subseq l1 l2 -> subseq l1 (pre ++ l2).
Proof. intros H. induction pre; cbn; [exact H | constructor; auto]. Qed.

Lemma subseq_Forall {A} (P : A -> Prop) (l1 l2 : list A) :
  subseq l1 l2 -> Forall P l2 -> Forall P l1.
Proof.
  induction 1 as [| x l1 l2 _ IH | x l1 l2 _ IH]; intros H; auto;
    inversion H; subst; auto.
Qed.

Lemma subseq_sorted {A} (R : A -> A -> Prop) (l1 l2 : list A) :
  subseq l1 l2 -> StronglySorted R l2 -> StronglySorted R l1.
Proof.
  induction 1 as [| x l1 l2 Hs IH | x l1 l2 Hs IH]; intros H; auto;
    inversion H; subst; auto.
  constructor; [auto | eapply subseq_Forall; eauto].
Qed.

(** * The position log of a device session *)

Section DeviceLog.
Import ViconWrapper.
Context {F : Type} {FO : PyFloat F}.

Lemma sound_keeps_log (P : event F -> Prop) {A} (m : M F A) s :
  sound P (fun _ => False) m ->
  position_log (snd (m s)) = position_log s.
Proof.
  intros H. destruct (H s) as (t & l & _ & _ & Hl & HQ & _).
  destruct l as [| r l]; [rewrite app_nil_r in Hl; exact Hl |].
  inversion HQ; contradiction.
Qed.

Lemma connecting_keeps_log cfg ce (s : state F) :
  position_log (snd (connecting cfg ce s)) = position_log s.
Proof.
  apply (sound_keeps_log (fun _ => True)).
  unfold connecting. repeat sound_step.
Qed.

Lemma except_keeps_log (r : res unit) (s : state F) :
  position_log (snd (except_ handler r s)) = position_log s.
Proof.
  apply (sound_keeps_log (fun _ => True)).
  apply sound_except. intros e h.
  destruct e; cbn; intros E; inversion E; subst; apply sound_log; exact I.
Qed.

Lemma stopping_keeps_log fe (s : state F) :
  position_log (snd (stopping fe s)) = position_log s.
Proof.
  apply (sound_keeps_log (fun _ => True)).
  unfold stopping. repeat sound_step.
  intros s'. unfold write_json. destruct (write_log fe).
  - apply (sound_emit (fun _ : event F => True)). exact I.
  - apply grows_refl.
Qed.

Lemma finally_keeps_log fe (r : res unit) (s : state F) :
  position_log (snd (finally_ (stopping fe) r s)) = position_log s.
Proof.
  unfold finally_. rewrite <- (stopping_keeps_log fe s).
  destruct (stopping fe s) as [[[] | x] s']; reflexivity.
Qed.

(** The frame ids in the log are, in order, frame numbers that the client
    reported. *)
Lemma device_streaming_log cfg (fs : list (frame_env F)) : forall s,
  exists ns l,
    position_log (snd (streaming cfg fs s)) = position_log s ++ l /\
    map frame_id l = map Some ns /\
    subseq ns (reported_frame_numbers fs).
Proof.
  induction fs as [| d fs IH]; intros s.
  - exists [], []. cbn. rewrite app_nil_r. repeat split. constructor.
  - cbn [streaming]. unfold bind.
    pose proof (poll_log cfg d s) as Hp.
    destruct (poll cfg d s) as [[[] | x] s1] eqn:E; cbn [snd] in Hp |- *.
    + destruct (IH s1) as (ns & l & Hl & Hids & Hsub).
      destruct Hp as [Hp | (n & px & py & pz & Hf & Hn & Hp)].
      * exists ns, l. rewrite Hl, Hp. repeat split; auto.
        unfold reported_frame_numbers. cbn [flat_map].
        apply subseq_app_skip. exact Hsub.
      * exists (n :: ns), (frame_record n px py pz (time_time d) :: l).
        rewrite Hl, Hp, <- app_assoc. repeat split.
        -- cbn [map]. rewrite Hids. reflexivity.
        -- unfold reported_frame_numbers. cbn [flat_map].
           rewrite Hf, Hn. cbn. apply subseq_keep. exact Hsub.
    + destruct Hp as [Hp | (n & px & py & pz & Hf & Hn & Hp)].
      * exists [], []. rewrite Hp, app_nil_r. repeat split.
        apply subseq_nil_l.
      * exists [n], [frame_record n px py pz (time_time d)].
        rewrite Hp. repeat split.
        unfold reported_frame_numbers. cbn [flat_map].
        rewrite Hf, Hn. cbn. apply subseq_keep. apply subseq_nil_l.
Qed.

Lemma guarded_log cfg (e : env F) s :
  exists ns l,
    position_log (snd (guarded cfg e s)) = position_log s ++ l /\
    map frame_id l = map Some ns /\
    subseq ns (reported_frame_numbers (frames e)).
Proof.
  unfold guarded, bind.
  pose proof (connecting_keeps_log cfg (setup e) s) as Hc.
  destruct (connecting cfg (setup e) s) as [[[] | x] s1]; cbn [snd] in Hc.
  - destruct (device_streaming_log cfg (frames e) s1) as (ns & l & Hl & Hids & Hsub).
    destruct (streaming cfg (frames e) s1) as [r s2]. cbn [snd] in Hl.
    exists ns, l. rewrite except_keeps_log, Hl, Hc. auto.
  - exists [], []. rewrite except_keeps_log, Hc, app_nil_r.
    repeat split. apply subseq_nil_l.
Qed.

Lemma run_log cfg (e : env F) :
  exists ns,
    map frame_id (position_log (snd (run cfg e init_state))) = map Some ns /\
    subseq ns (reported_frame_numbers (frames e)).
Proof.
  destruct (create_client e) as [u | x] eqn:Hc.
  - rewrite (run_unfold _ _ _ _ Hc).
    destruct (guarded_log cfg e
                (snd (log INFO MsgClientCreated (with_flag true init_state))))
      as (ns & l & Hl & Hids & Hsub).
    destruct (guarded cfg e _) as [r s1]. cbn [snd] in Hl.
    rewrite finally_keeps_log, Hl. cbn. exists ns. auto.
  - rewrite (run_create_fails _ _ _ _ Hc). cbn. exists [].
    split; [reflexivity | apply subseq_nil_l].
Qed.

(** Every record of the log is one that [poll] built. *)
Lemma run_records cfg (e : env F) :
  Forall device_record (position_log (snd (run cfg e init_state))).
Proof.
  destruct (create_client e) as [u | x] eqn:Hc.
  - rewrite (run_unfold _ _ _ _ Hc).
    destruct (sound_guarded cfg e
                (snd (log INFO MsgClientCreated (with_flag true init_state))))
      as (t & l & _ & _ & Hl & HQ & _).
    destruct (guarded cfg e _) as [r s1]. cbn [snd] in Hl.
    rewrite finally_keeps_log, Hl. cbn. exact HQ.
  - rewrite (run_create_fails _ _ _ _ Hc). cbn. constructor.
Qed.

(** A written file holds the position log as it is when [run] ends. *)
Lemma run_written_is_log cfg (e : env F) s0 written :
  (forall w, ~ In (Written w) (trace s0)) ->
  In (Written written) (trace (snd (run cfg e s0))) ->
  written = position_log (snd (run cfg e s0)).
Proof.
  intros Hs0 Hin.
  destruct (create_client e) as [u | x] eqn:Hc.
  - rewrite (run_unfold _ _ _ _ Hc) in Hin |- *.
    destruct (sound_guarded cfg e
                (snd (log INFO MsgClientCreated (with_flag true s0))))
      as (t & l & Ht & HPt & _).
    destruct (guarded cfg e _) as [r s1]. cbn [snd] in Ht.
    cbn in Ht.
    assert (Hq : ~ In (Written written) (trace s1)).
    { rewrite Ht, !in_app_iff. intros [[H | [H | []]] | H].
      - exact (Hs0 _ H).
      - discriminate H.
      - rewrite Forall_forall in HPt. exact (HPt _ H). }
    rewrite finally_keeps_log. unfold finally_ in Hin.
    destruct (write_log (final e)) as [u' | x] eqn:Hw.
    + destruct (stopping_write_ok (final e) s1 u' Hw) as (r2 & post & Hs & _ & Hf).
      rewrite Hs in Hin.
      assert (Hin' : In (Written written)
                       (trace s1 ++ Written (position_log s1) :: Log INFO MsgSaved
                          :: Call Cis_connected :: post)).
      { destruct r2 as [[] | x]; exact Hin. }
      rewrite in_app_iff in Hin'. cbn in Hin'.
      destruct Hin' as [H | [H | [H | [H | H]]]];
        try discriminate H; try contradiction.
      * inversion H; reflexivity.
      * rewrite Forall_forall in Hf. destruct (Hf _ H); discriminate.
    + rewrite (stopping_write_fails _ _ _ Hw) in Hin. contradiction.
  - rewrite (run_create_fails _ _ _ _ Hc) in Hin. cbn in Hin.
    exfalso. exact (Hs0 _ Hin).
Qed.

End DeviceLog.

(** * The claims about flushing, latency lines and the log *)

(** C2.  The synthetic wrapper writes the log in the [else] clause of its
    [while] loop and has no [try]: when the callback raises in the second
    iteration, the exception leaves [run] with two records in the position
    log and no file written. *)
Theorem synthetic_exception_skips_flush :
  let out := VirtualViconWrapper.run VirtualSample.with_callback
               VirtualSample.failing_callback init_state in
  fst out = Raise (Exception "ValueError") /\
  List.length (position_log (snd out)) = 2%nat /\
  filter is_written (trace (snd out)) = [].
Proof. vm_compute. repeat split. Qed.

Section Claims.
Context {F : Type} {FO : PyFloat F}.


(** C4 (as amended).  A synthetic session of [N] iterations whose
    callbacks return (when a callback is configured) ends with [N] records
    in the position log, with frame ids 1, ..., [N] in this order and
    [tvec] equal to [0, 0, 10] in each.  They are persisted exactly when
    the file can be written: then [run] returns normally and exactly one
    file is written, holding these [N] records; when the write raises,
    that exception leaves [run] and no file is written. *)
Theorem synthetic_session_persists_N_records cfg (e : VirtualViconWrapper.env F) :
  (VirtualViconWrapper.callback cfg = true ->
   Forall callback_returns (VirtualViconWrapper.frames e)) ->
  let out := VirtualViconWrapper.run cfg e init_state in
  let N := List.length (VirtualViconWrapper.frames e) in
  List.length (position_log (snd out)) = N /\
  map frame_id (position_log (snd out)) =
    map (fun i => Some (Z.of_nat i)) (seq 1 N) /\
  Forall synthetic_tvec (position_log (snd out)) /\
  match VirtualViconWrapper.write_log e with
  | Ok _ =>
      fst out = Ok tt /\
      filter is_written (trace (snd out)) = [Written (position_log (snd out))]
  | Raise x =>
      fst out = Raise x /\ filter is_written (trace (snd out)) = []
  end.
Proof.
  intros Hcb. cbv zeta.
  destruct (synthetic_log_shape cfg e (VirtualViconWrapper.frames e) 0%Z
              {| running := true; position_log := [];
                 trace := [Log INFO MsgGenerating] |})
    as (l & Hl & Hids & Htv & _).
  rewrite run_is_streaming in *.
  rewrite (streaming_returns cfg e _ _ _ Hcb) in *.
  cbn [fst snd trace position_log app] in *. subst l.
  rewrite synthetic_records_length in *.
  split; [reflexivity |]. split; [| split; [exact Htv |]].
  - rewrite Hids. unfold ids_after. apply map_ext. intros i. reflexivity.
  - cbn [filter is_written].
    rewrite filter_app, (synthetic_events_filter cfg is_written _ eq_refl).
    rewrite andb_false_r. unfold while_else_events, while_else_outcome.
    destruct (VirtualViconWrapper.write_log e); split; reflexivity.
Qed.

(** C5 (as amended).  In a synthetic session the frame ids of the position
    log are 1, 2, ... without gaps.  In a device session they are, in
    order, frame numbers that the client reported for polled frames (the
    wrapper takes them as they come and checks nothing), so they are
    strictly increasing whenever the reported numbers are.  In both, a
    written file holds the position log as it is at the end of [run]. *)
Theorem frame_ids_follow_the_source :
  (forall cfg (e : VirtualViconWrapper.env F),
      let s := snd (VirtualViconWrapper.run cfg e init_state) in
      map frame_id (position_log s) =
        ids_after 0 (List.length (position_log s)) /\
      forall written, In (Written written) (trace s) ->
                      written = position_log s) /\
  (forall cfg (e : ViconWrapper.env F),
      let s := snd (ViconWrapper.run cfg e init_state) in
      (exists ns,
          map frame_id (position_log s) = map Some ns /\
          subseq ns (reported_frame_numbers (ViconWrapper.frames e)) /\
          (StronglySorted Z.lt (reported_frame_numbers (ViconWrapper.frames e)) ->
           StronglySorted Z.lt ns)) /\
      forall written, In (Written written) (trace s) ->
                      written = position_log s).
Proof.
  split.
  - intros cfg e. cbv zeta.
    unfold VirtualViconWrapper.run, bind at 1 2. cbn.
    set (s1 := {| running := true; position_log := [];
                  trace := [Log INFO MsgGenerating] |}).
    destruct (synthetic_log_shape cfg e (VirtualViconWrapper.frames e) 0%Z s1)
      as (l & Hl & Hids & _).
    split.
    + rewrite Hl. cbn. exact Hids.
    + intros written Hin.
      destruct (synthetic_written_is_log cfg e _ _ _ _ Hin) as [H | H];
        [| exact H].
      cbn in H. destruct H as [H | []]. discriminate H.
  - intros cfg e. cbv zeta. split.
    + destruct (run_log cfg e) as (ns & Hids & Hsub).
      exists ns. split; [exact Hids | split; [exact Hsub |]].
      apply subseq_sorted. exact Hsub.
    + intros written. apply run_written_is_log. intros w [].
Qed.

(** C6 (as amended).  Whatever the tracking mode, every record of the
    position log of a device session, and so of the written file, has the
    three fields [frame_id], [tvec] and [time] and no [rvec].  With
    orientation tracking and a rotation at hand, the three Euler angles of
    a captured frame go to the callback. *)
Theorem frame_records_have_no_rvec :
  (forall cfg (e : ViconWrapper.env F),
      let s := snd (ViconWrapper.run cfg e init_state) in
      Forall (fun r => keys r = ["frame_id"; "tvec"; "time"] /\
                       lookup "rvec" r = None) (position_log s) /\
      forall written, In (Written written) (trace s) ->
                      written = position_log s) /\
  (forall (d : ViconWrapper.frame_env F) s s' rec r0 r1 r2,
      ViconWrapper.get_segment_global_rotation_euler_xyz d = Ok (Some (r0, r1, r2)) ->
      ViconWrapper.poll {| ViconWrapper.callback := true;
                           ViconWrapper.labeled_object := true |} d s = (Ok tt, s') ->
      position_log s' = position_log s ++ [rec] ->
      exists pos_x pos_y pos_z t,
        trace s' = trace s ++ t /\
        In (Callback (map (fun x => Num (Float x))
                        [pos_x; pos_y; pos_z; r0; r1; r2])
              (Some (ViconWrapper.time_time d))) t).
Proof.
  split.
  - intros cfg e. cbv zeta. split.
    + eapply Forall_impl; [| apply run_records].
      intros r (n & px & py & pz & now & ->). split; reflexivity.
    + intros written. apply run_written_is_log. intros w [].
  - intros d s s' rec r0 r1 r2. apply poll_rotation_to_callback.
Qed.


End Claims.

(** * Concrete runs for the claims above *)



Lemma synthetic_session_persists_N_records_witness :
  let out := VirtualViconWrapper.run VirtualSample.with_callback
               (VirtualSample.session_of
                  [VirtualSample.tick (Ok 7%Q); VirtualSample.tick (Ok 0%Q);
                   VirtualSample.tick (Ok 7%Q)]) init_state in
  List.length (position_log (snd out)) = 3%nat /\
  map frame_id (position_log (snd out)) = [Some 1%Z; Some 2%Z; Some 3%Z] /\
  Forall synthetic_tvec (position_log (snd out)) /\
  fst out = Ok tt /\
  filter is_written (trace (snd out)) = [Written (position_log (snd out))].
Proof.
  apply (synthetic_session_persists_N_records (F := Q)
           VirtualSample.with_callback
           (VirtualSample.session_of
              [VirtualSample.tick (Ok 7%Q); VirtualSample.tick (Ok 0%Q);
               VirtualSample.tick (Ok 7%Q)])).
  intros _. repeat constructor; eexists; reflexivity.
Defined.

(** C4, as stated, fails when the file cannot be written: with the
    directory [logs] missing, a session of two iterations whose callbacks
    return is stopped with two records in the position log and nothing
    persisted; the exception of the write leaves [run]. *)
Lemma synthetic_persistence_counterexample :
  let out := VirtualViconWrapper.run VirtualSample.with_callback
               VirtualSessions.no_directory init_state in
  List.length (VirtualViconWrapper.frames VirtualSessions.no_directory) = 2%nat /\
  Forall callback_returns (VirtualViconWrapper.frames VirtualSessions.no_directory) /\
  fst out = Raise (Exception "FileNotFoundError") /\
  List.length (position_log (snd out)) = 2%nat /\
  filter is_written (trace (snd out)) = [].
Proof.
  cbv zeta. split; [reflexivity |].
  split; [repeat constructor; exists 7%Q; reflexivity |].
  vm_compute. repeat split.
Qed.

(** C5, as stated, fails for the device-backed wrapper.  First session:
    the client reports the frame numbers 4, 4 and 9 for three frames that
    are all captured.  The written log has the frame ids 4, 4, 9: a
    duplicate, and a gap although no frame of the session was occluded (no
    warning, and as many records as polls).  Second session: the client
    numbers its frames 4, 5, 6 and frame 5 has two objects in view.  The
    loop skips it without a warning, and the written log has the frame
    ids 4, 6: a gap across a frame that was not occluded. *)
Lemma frame_id_counterexample :
  let s := snd (ViconWrapper.run Sample.unlabeled
                  (Sample.session_of
                     [Sample.seen 4 0; Sample.seen 4 0; Sample.seen 9 0]
                     Sample.final_ok) init_state) in
  let s' := snd (ViconWrapper.run Sample.unlabeled
                   (Sample.session_of
                      [Sample.seen 4 0; Sample.two_seen 5; Sample.seen 6 0]
                      Sample.final_ok) init_state) in
  (map frame_id (position_log s) = [Some 4%Z; Some 4%Z; Some 9%Z] /\
   In (Written (position_log s)) (trace s) /\
   filter is_warning (trace s) = [] /\
   ~ StronglySorted Z.lt [4%Z; 4%Z; 9%Z] /\
   ~ NoDup [4%Z; 4%Z; 9%Z]) /\
  (map frame_id (position_log s') = [Some 4%Z; Some 6%Z] /\
   In (Written (position_log s')) (trace s') /\
   filter is_warning (trace s') = []).
Proof.
  cbv zeta. split.
  - split; [vm_compute; reflexivity |].
    split; [vm_compute; auto 50 |].
    split; [vm_compute; reflexivity |].
    split.
    + intros H. inversion H as [| ? ? _ H1]; subst.
      inversion H1 as [| ? ? H2 _]; subst. lia.
    + intros H. inversion H as [| ? ? H1 _]; subst. apply H1. left. reflexivity.
  - split; [vm_compute; reflexivity |].
    split; [vm_compute; auto 50 | vm_compute; reflexivity].
Qed.

Lemma frame_ids_follow_the_source_witness :
  let s := snd (ViconWrapper.run Sample.unlabeled
                  (Sample.session_of
                     [Sample.seen 4 0; Sample.nothing_seen 5; Sample.seen 9 0]
                     Sample.final_ok) init_state) in
  (exists ns,
      map frame_id (position_log s) = map Some ns /\
      subseq ns [4%Z; 5%Z; 9%Z] /\
      (StronglySorted Z.lt [4%Z; 5%Z; 9%Z] -> StronglySorted Z.lt ns)) /\
  forall written, In (Written written) (trace s) -> written = position_log s.
Proof.
  exact (proj2 (frame_ids_follow_the_source (F := Q)) Sample.unlabeled
           (Sample.session_of
              [Sample.seen 4 0; Sample.nothing_seen 5; Sample.seen 9 0]
              Sample.final_ok)).
Defined.

(** C6, as stated, fails: with orientation tracking enabled and a rotation
    available, the record that is written has no [rvec] field. *)
Lemma rvec_counterexample :
  let d := Sample.seen 4 7 in
  let s := snd (ViconWrapper.run Sample.labeled
                  (Sample.session_of [d] Sample.final_ok) init_state) in
  ViconWrapper.get_segment_global_rotation_euler_xyz d =
    Ok (Some (1 # 10, 2 # 10, 3 # 10)%Q) /\
  exists r,
    In (Written [r]) (trace s) /\
    keys r = ["frame_id"; "tvec"; "time"] /\
    lookup "rvec" r = None.
Proof.
  cbv zeta. split; [reflexivity |].
  exists (ViconWrapper.frame_record 4 100 200 300 1700000000)%Q.
  split; [vm_compute; auto 50 | split; reflexivity].
Qed.

Lemma frame_records_have_no_rvec_witness :
  let d := Sample.seen 4 7 in
  let out := ViconWrapper.poll Sample.labeled d init_state in
  exists pos_x pos_y pos_z t,
    trace (snd out) = trace init_state ++ t /\
    In (Callback (map (fun x => Num (Float x))
                    [pos_x; pos_y; pos_z; (1 # 10)%Q; (2 # 10)%Q; (3 # 10)%Q])
          (Some (ViconWrapper.time_time d))) t.
Proof.
  cbv zeta.
  apply (proj2 (frame_records_have_no_rvec (F := Q))
           (Sample.seen 4 7) init_state
           (snd (ViconWrapper.poll Sample.labeled (Sample.seen 4 7) init_state))
           (ViconWrapper.frame_record 4 100 200 300 1700000000)%Q).
  - reflexivity.
  - vm_compute. reflexivity.
  - vm_compute. reflexivity.
Defined.



(** * The analyser: how the pattern matches a latency line *)

Section AnalyserFacts.
Import LatencyAnalyse.
Context {U : Unicode}.
Implicit Types s rest : text.

(** The ASCII characters that are no digits. *)
Lemma digit_ascii c :
  (c < 128)%N -> digit c = ((48 <=? c) && (c <=? 57))%N.
Proof.
  intros H. unfold digit. rewrite (decimal_ascii c H).
  destruct ((48 <=? c) && (c <=? 57))%N; reflexivity.
Qed.

Lemma digit_or_dot_ascii c :
  (c < 128)%N ->
  digit_or_dot c = ((48 <=? c) && (c <=? 57) || (c =? 46))%N.
Proof. intros H. unfold digit_or_dot. rewrite (digit_ascii c H). reflexivity. Qed.



Lemma line_feed_not_in_class : digit_or_dot line_feed = false.
Proof. rewrite digit_or_dot_ascii; reflexivity. Qed.

Lemma dot_no_digit : digit (char ".") = false.
Proof. rewrite digit_ascii; reflexivity. Qed.

Lemma all_app cls s1 s2 : all cls (s1 ++ s2) = all cls s1 && all cls s2.
Proof.
  induction s1 as [| c s1 IH]; cbn; [reflexivity |].
  rewrite IH, andb_assoc. reflexivity.
Qed.



Lemma length_append s1 s2 :
  List.length (s1 ++ s2) = (List.length s1 + List.length s2)%nat.
Proof. induction s1 as [| c s1 IH]; cbn; [reflexivity | rewrite IH; reflexivity]. Qed.

Lemma take_drop n : forall s, take n s ++ drop n s = s.
Proof.
  induction n as [| n IH]; intros [| c s]; cbn; try reflexivity.
  rewrite IH. reflexivity.
Qed.

Lemma take_app_length a s : take (List.length a) (a ++ s) = a.
Proof.
  induction a as [| c a IH]; cbn; [destruct s; reflexivity |].
  rewrite IH. reflexivity.
Qed.

Lemma drop_app_length a s : drop (List.length a) (a ++ s) = s.
Proof. induction a as [| c a IH]; cbn; [destruct s; reflexivity | exact IH]. Qed.



Lemma strip_prefix_mismatch x l c s :
  is_not x c = true -> strip_prefix (x :: l) (c :: s) = None.
Proof.
  unfold is_not. rewrite negb_true_iff. intros H. cbn.
  rewrite N.eqb_sym, H. reflexivity.
Qed.

Lemma span_app_all cls a s :
  all cls a = true ->
  span cls (a ++ s) = (List.length a + span cls s)%nat.
Proof.
  induction a as [| c a IH]; cbn; [reflexivity |].
  rewrite andb_true_iff. intros [Hc Ha]. rewrite Hc, IH; auto.
Qed.


Lemma match_here_group cls p s :
  match_here (Group cls :: p) s = backtrack (match_here p) s (span cls s).
Proof. reflexivity. Qed.

Lemma match_here_literal l p s :
  match_here (Lit l :: p) s =
    match strip_prefix l s with
    | Some s' => match_here p s'
    | None => None
    end.
Proof. reflexivity. Qed.









Lemma findall_from_cons p c s :
  findall_from p (c :: s) 0 =
    match match_here p (c :: s) with
    | Some (groups, rest) =>
        groups :: findall_from p s
                    (List.length (c :: s) - List.length rest - 1)
    | None => findall_from p s 0
    end.
Proof. reflexivity. Qed.

Lemma match_pattern_mismatch c s :
  is_not (char "S") c = true -> match_here pattern (c :: s) = None.
Proof.
  intros Hc. unfold pattern. rewrite match_here_literal.
  change (chars "System Latency: ") with (char "S" :: chars "ystem Latency: ").
  rewrite (strip_prefix_mismatch _ _ c s Hc). reflexivity.
Qed.



Lemma append_assoc s1 s2 s3 : (s1 ++ s2) ++ s3 = s1 ++ s2 ++ s3.
Proof.
  induction s1 as [| c s1 IH]; cbn; [reflexivity | rewrite IH; reflexivity].
Qed.




End AnalyserFacts.

(** * The analyser on whole logs *)

Section AnalyserLines.
Import LatencyAnalyse.
Context {U : Unicode}.
Implicit Types s t rest : text.

Lemma strip_prefix_before x t l : forall s,
  all (is_not x) l = true ->
  strip_prefix l (s ++ (x :: t)) =
    match strip_prefix l s with
    | Some r => Some (r ++ (x :: t))
    | None => None
    end.
Proof.
  induction l as [| a l IH]; intros s; cbn [all].
  - intros _. destruct s; reflexivity.
  - rewrite andb_true_iff. intros [Ha Hl]. destruct s as [| b s]; cbn.
    + unfold is_not in Ha. rewrite negb_true_iff in Ha. rewrite Ha. reflexivity.
    + destruct (N.eqb a b); [apply IH; exact Hl | reflexivity].
Qed.

Lemma span_before cls x t : forall s,
  cls x = false -> span cls (s ++ (x :: t)) = span cls s.
Proof.
  intros s Hx. induction s as [| c s IH]; cbn.
  - rewrite Hx. reflexivity.
  - destruct (cls c); [rewrite IH |]; reflexivity.
Qed.

Lemma span_le cls : forall s, (span cls s <= List.length s)%nat.
Proof.
  induction s as [| c s IH]; cbn; [lia |]. destruct (cls c); lia.
Qed.

Lemma take_app_le t : forall k s,
  (k <= List.length s)%nat -> take k (s ++ t) = take k s.
Proof.
  induction k as [| k IH]; intros [| c s]; cbn; intros Hk;
    try reflexivity; try lia.
  rewrite IH by lia. reflexivity.
Qed.

Lemma drop_app_le t : forall k s,
  (k <= List.length s)%nat -> drop k (s ++ t) = drop k s ++ t.
Proof.
  induction k as [| k IH]; intros [| c s]; cbn; intros Hk;
    try reflexivity; try lia.
  apply IH. lia.
Qed.

(** A character that the rest of the pattern cannot cross stops the
    backtracking of a group in the same way. *)
Lemma backtrack_before (rest_of_pattern : text -> option (list text * text))
    x t s :
  (forall s', rest_of_pattern (s' ++ (x :: t)) =
              match rest_of_pattern s' with
              | Some (g, r) => Some (g, r ++ (x :: t))
              | None => None
              end) ->
  forall k, (k <= List.length s)%nat ->
  backtrack rest_of_pattern (s ++ (x :: t)) k =
    match backtrack rest_of_pattern s k with
    | Some (g, r) => Some (g, r ++ (x :: t))
    | None => None
    end.
Proof.
  intros Hc. induction k as [| k IH]; intros Hk; cbn [backtrack];
    [reflexivity |].
  rewrite drop_app_le, take_app_le, Hc by exact Hk.
  destruct (rest_of_pattern (drop (S k) s)) as [[g r] |];
    [reflexivity | apply IH; lia].
Qed.

(** A match of a pattern that avoids [x] lies before the first [x]. *)
Lemma match_here_before x t p :
  avoids x p = true ->
  forall s,
    match_here p (s ++ (x :: t)) =
      match match_here p s with
      | Some (g, r) => Some (g, r ++ (x :: t))
      | None => None
      end.
Proof.
  induction p as [| [l | cls] p IH]; cbn [avoids]; intros H s.
  - reflexivity.
  - apply andb_true_iff in H. destruct H as [Hl Hp].
    rewrite !match_here_literal, (strip_prefix_before x t l s Hl).
    destruct (strip_prefix l s); [apply IH; exact Hp | reflexivity].
  - apply andb_true_iff in H. destruct H as [Hx Hp].
    rewrite negb_true_iff in Hx.
    rewrite !match_here_group, (span_before cls x t s Hx).
    apply backtrack_before; [intros s'; apply IH; exact Hp | apply span_le].
Qed.

Lemma findall_from_skip p c s k :
  findall_from p (c :: s) (S k) = findall_from p s k.
Proof. reflexivity. Qed.

Lemma pattern_avoids_line_feed : avoids line_feed pattern = true.
Proof.
  unfold pattern. cbn [avoids]. rewrite line_feed_not_in_class. reflexivity.
Qed.

Lemma findall_from_before t : forall s skip,
  (skip <= List.length s)%nat ->
  findall_from pattern (s ++ (line_feed :: t)) skip =
    (findall_from pattern s skip ++ findall_from pattern t 0)%list.
Proof.
  induction s as [| c s IH]; intros skip Hs.
  - cbn in Hs. assert (skip = 0%nat) by lia. subst skip.
    change ([] ++ line_feed :: t) with (line_feed :: t).
    rewrite findall_from_cons, (match_pattern_mismatch line_feed t eq_refl).
    reflexivity.
  - change ((c :: s) ++ (line_feed :: t))
      with (c :: (s ++ line_feed :: t)).
    destruct skip as [| skip].
    + rewrite !findall_from_cons.
      change (c :: (s ++ line_feed :: t))
        with ((c :: s) ++ (line_feed :: t)).
      rewrite (match_here_before line_feed t pattern pattern_avoids_line_feed (c :: s)).
      destruct (match_here pattern (c :: s)) as [[g r] |].
      * replace (List.length ((c :: s) ++ (line_feed :: t))
                 - List.length (r ++ (line_feed :: t)) - 1)%nat
          with (List.length (c :: s) - List.length r - 1)%nat
          by (rewrite !length_append; lia).
        cbn [app]. f_equal. apply IH. cbn [List.length]. lia.
      * apply IH. lia.
    + rewrite !findall_from_skip. apply IH. cbn in Hs. lia.
Qed.

(** What a group captures is a non-empty string of its class. *)
Lemma take_span cls : forall k s,
  (1 <= k <= span cls s)%nat -> captured cls (take k s).
Proof.
  unfold captured.
  induction k as [| k IH]; intros [| c s]; cbn; try lia.
  destruct (cls c) eqn:Hc; [| lia]. intros Hk. cbn.
  destruct k as [| k]; [destruct s; reflexivity |].
  specialize (IH s). rewrite andb_true_iff in IH.
  apply IH. lia.
Qed.

Lemma backtrack_some (rest_of_pattern : text -> option (list text * text))
    s : forall k g r,
  backtrack rest_of_pattern s k = Some (g, r) ->
  exists k' g',
    (1 <= k' <= k)%nat /\ g = take k' s :: g' /\
    rest_of_pattern (drop k' s) = Some (g', r).
Proof.
  induction k as [| k IH]; intros g r; cbn [backtrack]; [discriminate |].
  destruct (rest_of_pattern (drop (S k) s)) as [[g' r'] |] eqn:E.
  - intros H. inversion H; subst. exists (S k), g'. repeat split; auto; lia.
  - intros H. destruct (IH g r H) as (k' & g' & Hk & Hg & Hr).
    exists k', g'. repeat split; auto; lia.
Qed.

Lemma match_here_groups p : forall s g r,
  match_here p s = Some (g, r) -> Forall2 captured (classes p) g.
Proof.
  induction p as [| [l | cls] p IH]; intros s g r; cbn [classes].
  - intros H. inversion H. constructor.
  - rewrite match_here_literal. destruct (strip_prefix l s); [apply IH | discriminate].
  - rewrite match_here_group. intros H.
    destruct (backtrack_some _ _ _ _ _ H) as (k & g' & Hk & -> & Hr).
    constructor; [apply take_span; exact Hk | eapply IH; exact Hr].
Qed.

Lemma findall_from_groups p : forall s skip,
  Forall (Forall2 captured (classes p)) (findall_from p s skip).
Proof.
  induction s as [| c s IH]; intros skip.
  - cbn [findall_from].
    destruct (match_here p []) as [[g r] |] eqn:E; repeat constructor.
    eapply match_here_groups; exact E.
  - destruct skip as [| skip]; [| rewrite findall_from_skip; apply IH].
    rewrite findall_from_cons.
    destruct (match_here p (c :: s)) as [[g r] |] eqn:E; [| apply IH].
    constructor; [eapply match_here_groups; exact E | apply IH].
Qed.

End AnalyserLines.

(** * The analyser: which captured values are numbers *)

Section AnalyserNumbers.
Import LatencyAnalyse.
Context {U : Unicode}.
Implicit Types s rest whole frac : text.

Lemma digits_all : forall s acc,
  all digit s = true -> exists v, digits acc s = Some v.
Proof.
  induction s as [| c s IH]; intros acc; cbn; [eauto |].
  unfold digit at 1. destruct (decimal c); cbn; [apply IH | discriminate].
Qed.

Lemma digits_not_all : forall s acc,
  all digit s = false -> digits acc s = None.
Proof.
  induction s as [| c s IH]; intros acc; cbn; [discriminate |].
  unfold digit at 1. destruct (decimal c); cbn; [apply IH | reflexivity].
Qed.

(** Digits denote a number that is not negative. *)
Lemma digits_nonneg : forall s acc v,
  (0 <= acc)%Z -> digits acc s = Some v -> (0 <= v)%Z.
Proof.
  induction s as [| c s IH]; intros acc v Hacc; cbn [digits].
  - intros H. inversion H. subst. exact Hacc.
  - destruct (decimal c) as [d |] eqn:Hd; [| discriminate].
    apply IH. pose proof (decimal_value c d Hd). lia.
Qed.

Lemma digit_not_dot c : digit c = true -> N.eqb c (char ".") = false.
Proof.
  intros H. destruct (N.eqb_spec c (char ".")); [subst c | reflexivity].
  rewrite dot_no_digit in H. discriminate H.
Qed.

Lemma dots_digits s : all digit s = true -> dots s = 0%nat.
Proof.
  induction s as [| c s IH]; cbn; [reflexivity |].
  rewrite andb_true_iff. intros [Hc Hs].
  rewrite (digit_not_dot c Hc), IH; auto.
Qed.

Lemma dots_not_digits s :
  all digit_or_dot s = true -> all digit s = false -> (1 <= dots s)%nat.
Proof.
  induction s as [| c s IH]; cbn; [discriminate |].
  unfold digit_or_dot at 1. destruct (digit c); cbn.
  - intros Hs Hd. specialize (IH Hs Hd). lia.
  - rewrite andb_true_iff. intros [Hc _] _. rewrite Hc. lia.
Qed.

Lemma has_digit_digits s :
  all digit s = true -> has_digit s = (0 <? List.length s)%nat.
Proof.
  destruct s as [| c s]; cbn; [reflexivity |].
  destruct (digit c); cbn; [reflexivity | discriminate].
Qed.

Lemma dots_app s1 s2 : dots (s1 ++ s2) = (dots s1 + dots s2)%nat.
Proof.
  induction s1 as [| c s1 IH]; cbn; [reflexivity | rewrite IH; lia].
Qed.

Lemma has_digit_app s1 s2 :
  has_digit (s1 ++ s2) = has_digit s1 || has_digit s2.
Proof.
  induction s1 as [| c s1 IH]; cbn; [reflexivity |].
  rewrite IH, orb_assoc. reflexivity.
Qed.

(** A string of digits and dots is digits, then nothing or a dot and the
    rest. *)
Lemma span_digit_rest : forall s,
  all digit_or_dot s = true ->
  all digit (take (span digit s) s) = true /\
  (drop (span digit s) s = [] \/
   exists frac, drop (span digit s) s = char "." :: frac /\
                all digit_or_dot frac = true).
Proof.
  induction s as [| c s IH]; cbn; [auto |].
  unfold digit_or_dot at 1. destruct (digit c) eqn:Hd; cbn.
  - intros Hs. rewrite Hd. cbn. apply IH. exact Hs.
  - rewrite andb_true_iff. intros [Hc Hs]. split; [reflexivity |].
    right. exists s. apply N.eqb_eq in Hc. subst c. auto.
Qed.

Lemma literal_split whole rest :
  all digit whole = true ->
  (rest = [] \/
   exists frac, rest = char "." :: frac /\ all digit_or_dot frac = true) ->
  if well_formed (whole ++ rest)
  then exists q, literal (whole ++ rest) = Some q
  else literal (whole ++ rest) = None.
Proof.
  intros Hw Hrest.
  assert (Hn : span digit (whole ++ rest) = List.length whole).
  { rewrite (span_app_all _ _ _ Hw).
    destruct Hrest as [-> | (frac & -> & _)]; cbn [span];
      [| rewrite dot_no_digit]; lia. }
  unfold literal, well_formed. rewrite Hn, take_app_length, drop_app_length.
  rewrite dots_app, has_digit_app, (dots_digits _ Hw), (has_digit_digits _ Hw).
  destruct Hrest as [-> | (frac & -> & Hf)].
  - cbn [dots has_digit Nat.add Nat.leb]. rewrite orb_false_r. cbn [andb].
    destruct (digits_all whole 0%Z Hw) as [v Hv].
    destruct whole as [| a w]; [reflexivity |]. rewrite Hv. cbn. eauto.
  - rewrite N.eqb_refl. cbn [dots has_digit]. rewrite N.eqb_refl.
    rewrite dot_no_digit. cbn [orb Nat.add].
    destruct (all digit frac) eqn:Hd.
    + rewrite (dots_digits _ Hd), (has_digit_digits _ Hd).
      cbn [Nat.add Nat.leb andb].
      assert (Hwf : all digit (whole ++ frac) = true)
        by (rewrite all_app, Hw, Hd; reflexivity).
      destruct (digits_all _ 0%Z Hwf) as [v Hv].
      destruct whole as [| a w]; destruct frac as [| b f];
        cbn [app] in Hv |- *; [reflexivity | | |];
        rewrite Hv; cbn; eauto.
    + rewrite (digits_not_all (whole ++ frac) 0%Z)
        by (rewrite all_app, Hw, Hd; reflexivity).
      pose proof (dots_not_digits _ Hf Hd) as H1.
      destruct (dots frac) as [| n]; [lia |]. cbn [Nat.leb andb].
      destruct (whole ++ frac); reflexivity.
Qed.

(** Which strings of digits and dots denote a number. *)
Lemma literal_plain s :
  all digit_or_dot s = true ->
  if well_formed s then exists q, literal s = Some q
  else literal s = None.
Proof.
  intros Hs. destruct (span_digit_rest s Hs) as [Hw Hrest].
  pose proof (literal_split _ _ Hw Hrest) as H.
  rewrite take_drop in H. exact H.
Qed.

(** The number is not negative. *)
Lemma literal_nonneg s q : literal s = Some q -> (0 <= q)%Q.
Proof.
  unfold literal.
  destruct (drop (span digit s) s) as [| dot frac].
  - destruct (take (span digit s) s) as [| c w] eqn:Hw; [discriminate |].
    destruct (digits 0 (c :: w)) as [v |] eqn:Hv; [| discriminate].
    intros H. inversion H. subst q.
    pose proof (digits_nonneg _ _ _ (Z.le_refl 0) Hv).
    unfold Qle. cbn. lia.
  - destruct (N.eqb dot (char ".")); [| discriminate].
    destruct (take (span digit s) s ++ frac) as [| c w] eqn:Hw; [discriminate |].
    destruct (digits 0 (c :: w)) as [v |] eqn:Hv; [| discriminate].
    intros H. inversion H. subst q.
    pose proof (digits_nonneg _ _ _ (Z.le_refl 0) Hv).
    unfold Qle. cbn. lia.
Qed.

Context {F : Type} {D : Double F}.

(** [float] on what a group of the pattern can capture. *)
Lemma float_plain s :
  all digit_or_dot s = true ->
  if well_formed s then exists v : F, float s = Ok v
  else float s = Raise value_error.
Proof.
  intros Hs. pose proof (literal_plain s Hs) as H. unfold float.
  destruct (well_formed s).
  - destruct H as [q ->]. eauto.
  - rewrite H. reflexivity.
Qed.

Lemma astype_float_row_cases row :
  Forall (fun g => all digit_or_dot g = true) row ->
  if forallb well_formed row
  then exists vs : list F, astype_float_row row = Ok vs
  else astype_float_row (F := F) row = Raise value_error.
Proof.
  induction 1 as [| g row Hg _ IH]; cbn; [eauto |].
  pose proof (float_plain g Hg) as Hf.
  destruct (well_formed g); cbn.
  - destruct Hf as [v Hv]. rewrite Hv.
    destruct (forallb well_formed row).
    + destruct IH as [vs Hvs]. rewrite Hvs. eauto.
    + rewrite IH. reflexivity.
  - rewrite Hf. reflexivity.
Qed.

Lemma astype_float_cases matches :
  Forall (Forall (fun g => all digit_or_dot g = true)) matches ->
  if forallb (forallb well_formed) matches
  then exists df : list (list F),
         astype_float matches = Ok df /\
         List.length df = List.length matches
  else astype_float (F := F) matches = Raise value_error.
Proof.
  induction 1 as [| row matches Hrow _ IH]; cbn; [eauto |].
  pose proof (astype_float_row_cases row Hrow) as Hr.
  destruct (forallb well_formed row); cbn.
  - destruct Hr as [vs Hvs]. rewrite Hvs.
    destruct (forallb (forallb well_formed) matches).
    + destruct IH as (df & Hdf & Hlen). rewrite Hdf.
      eexists. split; [reflexivity | cbn; rewrite Hlen; reflexivity].
    + rewrite IH. reflexivity.
  - rewrite Hr. reflexivity.
Qed.

(** Every match of the pattern has three groups of digits and dots. *)
Lemma findall_rows log_text :
  Forall (fun row => exists a b c,
              row = [a; b; c] /\
              plain a = true /\ plain b = true /\ plain c = true)
         (findall pattern log_text).
Proof.
  eapply Forall_impl; [| apply (findall_from_groups pattern log_text 0)].
  intros row H. cbn [classes pattern] in H.
  inversion H as [| ? a ? r1 Ha H1]; subst.
  inversion H1 as [| ? b ? r2 Hb H2]; subst.
  inversion H2 as [| ? c ? r3 Hc H3]; subst.
  inversion H3; subst.
  exists a, b, c. auto.
Qed.

Lemma findall_rows_classes log_text :
  Forall (Forall (fun g => all digit_or_dot g = true)) (findall pattern log_text).
Proof.
  eapply Forall_impl; [| apply findall_rows].
  intros row (a & b & c & -> & Ha & Hb & Hc).
  unfold plain in Ha, Hb, Hc. rewrite andb_true_iff in Ha, Hb, Hc.
  repeat constructor; tauto.
Qed.

End AnalyserNumbers.

(** * The analyser: the statistics of a column *)

Section AnalyserStatistics.
Import LatencyAnalyse.
Context {F : Type} {D : Double F}.

Lemma fle_refl (x : F) : fle x x = true.
Proof. destruct (fle_total x x); assumption. Qed.

Lemma fmin_cases (x y : F) : fmin x y = x \/ fmin x y = y.
Proof. rewrite fmin_le. destruct (fle x y); auto. Qed.

Lemma fmax_cases (x y : F) : fmax x y = x \/ fmax x y = y.
Proof. rewrite fmax_le. destruct (fle x y); auto. Qed.

Lemma fmin_lower (x y : F) :
  fle (fmin x y) x = true /\ fle (fmin x y) y = true.
Proof.
  rewrite fmin_le. destruct (fle x y) eqn:E.
  - split; [apply fle_refl | exact E].
  - destruct (fle_total x y) as [H | H]; [congruence |].
    split; [exact H | apply fle_refl].
Qed.

Lemma fmax_upper (x y : F) :
  fle x (fmax x y) = true /\ fle y (fmax x y) = true.
Proof.
  rewrite fmax_le. destruct (fle x y) eqn:E.
  - split; [exact E | apply fle_refl].
  - destruct (fle_total x y) as [H | H]; [congruence |].
    split; [apply fle_refl | exact H].
Qed.

Lemma fold_min_le : forall (c : list F) x,
  fle (fold_left fmin c x) x = true /\
  Forall (fun v => fle (fold_left fmin c x) v = true) c.
Proof.
  induction c as [| v c IH]; intros x; cbn [fold_left].
  - split; [apply fle_refl | constructor].
  - destruct (IH (fmin x v)) as [H1 H2].
    destruct (fmin_lower x v) as [Hx Hv]. split.
    + exact (fle_trans _ _ _ H1 Hx).
    + constructor; [exact (fle_trans _ _ _ H1 Hv) | exact H2].
Qed.

Lemma fold_max_ge : forall (c : list F) x,
  fle x (fold_left fmax c x) = true /\
  Forall (fun v => fle v (fold_left fmax c x) = true) c.
Proof.
  induction c as [| v c IH]; intros x; cbn [fold_left].
  - split; [apply fle_refl | constructor].
  - destruct (IH (fmax x v)) as [H1 H2].
    destruct (fmax_upper x v) as [Hx Hv]. split.
    + exact (fle_trans _ _ _ Hx H1).
    + constructor; [exact (fle_trans _ _ _ Hv H1) | exact H2].
Qed.

(** The minimum and the maximum are values of the column. *)
Lemma fold_min_in : forall (c : list F) x,
  fold_left fmin c x = x \/ In (fold_left fmin c x) c.
Proof.
  induction c as [| v c IH]; intros x; cbn [fold_left In]; [auto |].
  destruct (IH (fmin x v)) as [H | H]; [| auto].
  rewrite H. destruct (fmin_cases x v) as [-> | ->]; auto.
Qed.

Lemma fold_max_in : forall (c : list F) x,
  fold_left fmax c x = x \/ In (fold_left fmax c x) c.
Proof.
  induction c as [| v c IH]; intros x; cbn [fold_left In]; [auto |].
  destruct (IH (fmax x v)) as [H | H]; [| auto].
  rewrite H. destruct (fmax_cases x v) as [-> | ->]; auto.
Qed.

Lemma col_min_least (c : list F) m :
  col_min c = Some m -> In m c /\ Forall (fun v => fle m v = true) c.
Proof.
  destruct c as [| x c]; cbn [col_min]; [discriminate |].
  intros H. inversion H. subst m. clear H.
  destruct (fold_min_le c x) as [H1 H2]. split.
  - destruct (fold_min_in c x) as [-> | H]; [left; reflexivity | right; exact H].
  - constructor; assumption.
Qed.

Lemma col_max_greatest (c : list F) m :
  col_max c = Some m -> In m c /\ Forall (fun v => fle v m = true) c.
Proof.
  destruct c as [| x c]; cbn [col_max]; [discriminate |].
  intros H. inversion H. subst m. clear H.
  destruct (fold_max_ge c x) as [H1 H2]. split.
  - destruct (fold_max_in c x) as [-> | H]; [left; reflexivity | right; exact H].
  - constructor; assumption.
Qed.

(** The order of the rows does not matter to the minimum and the
    maximum. *)
Lemma col_min_permutation (c c' : list F) :
  Permutation c c' -> col_min c = col_min c'.
Proof.
  intros Hp.
  destruct (col_min c) as [m |] eqn:Hm, (col_min c') as [m' |] eqn:Hm'.
  - destruct (col_min_least _ _ Hm) as [Hin Hle].
    destruct (col_min_least _ _ Hm') as [Hin' Hle'].
    rewrite Forall_forall in Hle, Hle'. f_equal. apply fle_antisym.
    + apply Hle. apply (Permutation_in _ (Permutation_sym Hp)). exact Hin'.
    + apply Hle'. apply (Permutation_in _ Hp). exact Hin.
  - destruct c' as [| x c']; [| discriminate].
    apply Permutation_sym, Permutation_nil in Hp. subst c. discriminate.
  - destruct c as [| x c]; [| discriminate].
    apply Permutation_nil in Hp. subst c'. discriminate.
  - reflexivity.
Qed.

Lemma col_max_permutation (c c' : list F) :
  Permutation c c' -> col_max c = col_max c'.
Proof.
  intros Hp.
  destruct (col_max c) as [m |] eqn:Hm, (col_max c') as [m' |] eqn:Hm'.
  - destruct (col_max_greatest _ _ Hm) as [Hin Hle].
    destruct (col_max_greatest _ _ Hm') as [Hin' Hle'].
    rewrite Forall_forall in Hle, Hle'. f_equal. apply fle_antisym.
    + apply Hle'. apply (Permutation_in _ Hp). exact Hin.
    + apply Hle. apply (Permutation_in _ (Permutation_sym Hp)). exact Hin'.
  - destruct c' as [| x c']; [| discriminate].
    apply Permutation_sym, Permutation_nil in Hp. subst c. discriminate.
  - destruct c as [| x c]; [| discriminate].
    apply Permutation_nil in Hp. subst c'. discriminate.
  - reflexivity.
Qed.

(** Equal numbers have the same nearest double. *)
Lemma nearest_eq (a b : Q) :
  (0 <= a)%Q -> a == b -> nearest (F := F) a = nearest b.
Proof.
  intros Ha Hab. apply fle_antisym; apply nearest_mono.
  - exact Ha.
  - rewrite Hab. apply Qle_refl.
  - rewrite <- Hab. exact Ha.
  - rewrite Hab. apply Qle_refl.
Qed.

Lemma total_permutation (l l' : list Z) :
  Permutation l l' -> total l = total l'.
Proof.
  induction 1 as [| x l l' _ IH | x y l | l l' l'' _ IH1 _ IH2];
    unfold total in *; cbn [fold_right]; lia.
Qed.

Lemma total_nonneg (l : list Z) :
  Forall (fun z => 0 <= z)%Z l -> (0 <= total l)%Z.
Proof. induction 1; unfold total in *; cbn [fold_right]; lia. Qed.

(** The mean of a column of small integers is the double nearest to
    their exact mean. *)
Lemma col_mean_integers (l : list Z) :
  l <> [] ->
  Forall (fun z => 0 <= z)%Z l ->
  (total l <= 2 ^ 53)%Z ->
  (Z.of_nat (List.length l) <= 2 ^ 53)%Z ->
  col_mean (map (fun z => nearest (F := F) (inject_Z z)) l) =
    Some (nearest (inject_Z (total l) / inject_Z (Z.of_nat (List.length l)))).
Proof.
  intros Hne Hpos Hsum Hlen. unfold col_mean.
  destruct l as [| z l]; [congruence |].
  remember (z :: l) as l' eqn:El.
  destruct (map (fun z => nearest (inject_Z z)) l') eqn:Em;
    [subst l'; discriminate |].
  rewrite <- Em, length_map, (fsum_exact l' Hpos Hsum). f_equal.
  apply fdiv_exact.
  - split; [apply total_nonneg; exact Hpos | exact Hsum].
  - split; [subst l'; cbn [List.length]; lia | exact Hlen].
Qed.

Context {U : Unicode}.

Lemma astype_float_length : forall matches (df : list (list F)),
  astype_float matches = Ok df -> List.length df = List.length matches.
Proof.
  induction matches as [| row matches IH]; intros df; cbn.
  - intros H. inversion H. reflexivity.
  - destruct (astype_float_row row); [| discriminate].
    destruct (astype_float matches) as [rs |]; [| discriminate].
    intros H. inversion H. cbn. rewrite (IH rs eq_refl). reflexivity.
Qed.

(** The rows of the data frame come in the order of the matches. *)
Lemma astype_float_permutation (m m' : list (list text)) :
  Permutation m m' ->
  forall df' : list (list F), astype_float m' = Ok df' ->
  exists df, astype_float m = Ok df /\ Permutation df df'.
Proof.
  induction 1 as [| row m m' _ IH | r1 r2 m | m m' m'' _ IH1 _ IH2];
    intros df'; cbn [astype_float].
  - intros H. inversion H. exists []. split; [reflexivity | constructor].
  - destruct (astype_float_row row) as [r | x]; [| discriminate].
    destruct (astype_float m') as [rs' | x] eqn:E'; [| discriminate].
    intros H. inversion H. subst df'.
    destruct (IH rs' eq_refl) as (rs & -> & Hp).
    exists (r :: rs). split; [reflexivity | constructor; exact Hp].
  - destruct (astype_float_row r1) as [v1 | x]; [| discriminate].
    destruct (astype_float_row r2) as [v2 | x]; [| discriminate].
    destruct (astype_float m) as [rs | x]; [| discriminate].
    intros H. inversion H. subst df'.
    exists (v2 :: v1 :: rs). split; [reflexivity | constructor].
  - intros H. destruct (IH2 df' H) as (df1 & H1 & Hp1).
    destruct (IH1 df1 H1) as (df & H0 & Hp0).
    exists df. split; [exact H0 | exact (Permutation_trans Hp0 Hp1)].
Qed.

(** Numerals are read as the doubles nearest to their numbers. *)
Lemma float_spells s q :
  spells s q -> float s = Ok (nearest (F := F) q).
Proof.
  unfold spells, float. destruct (literal s) as [q' |] eqn:E; [| tauto].
  intros H. rewrite (nearest_eq q' q (literal_nonneg s q' E) H). reflexivity.
Qed.

Lemma astype_float_row_spells row qs :
  Forall2 spells row qs ->
  astype_float_row row = Ok (map (nearest (F := F)) qs).
Proof.
  induction 1 as [| s q row qs Hs _ IH]; cbn [astype_float_row map];
    [reflexivity |].
  rewrite (float_spells s q Hs), IH. reflexivity.
Qed.

Lemma astype_float_spells rows qss :
  Forall2 (Forall2 spells) rows qss ->
  astype_float rows = Ok (map (map (nearest (F := F))) qss).
Proof.
  induction 1 as [| row qs rows qss Hr _ IH]; cbn [astype_float map];
    [reflexivity |].
  rewrite (astype_float_row_spells row qs Hr), IH. reflexivity.
Qed.

End AnalyserStatistics.

(** * The claims about the analyser *)

Section AnalyserClaims.
Import LatencyAnalyse.
Context {U : Unicode} {F : Type} {D : Double F}.

Lemma sample_column_min :
  col_min (map (fun z => nearest (F := F) (inject_Z z)) [10; 20; 30]%Z)
    = Some (nearest 10).
Proof.
  cbn [map col_min fold_left].
  rewrite (fmin_le (nearest (inject_Z 10)) (nearest (inject_Z 20))),
    (nearest_mono (inject_Z 10) (inject_Z 20)) by (unfold Qle; cbn; lia).
  rewrite (fmin_le (nearest (inject_Z 10)) (nearest (inject_Z 30))),
    (nearest_mono (inject_Z 10) (inject_Z 30)) by (unfold Qle; cbn; lia).
  reflexivity.
Qed.

Lemma sample_column_max :
  col_max (map (fun z => nearest (F := F) (inject_Z z)) [10; 20; 30]%Z)
    = Some (nearest 30).
Proof.
  cbn [map col_max fold_left].
  rewrite (fmax_le (nearest (inject_Z 10)) (nearest (inject_Z 20))),
    (nearest_mono (inject_Z 10) (inject_Z 20)) by (unfold Qle; cbn; lia).
  rewrite (fmax_le (nearest (inject_Z 20)) (nearest (inject_Z 30))),
    (nearest_mono (inject_Z 20) (inject_Z 30)) by (unfold Qle; cbn; lia).
  reflexivity.
Qed.

Lemma sample_column_mean (c : list F) :
  Permutation c (map (fun z => nearest (inject_Z z)) [10; 20; 30]%Z) ->
  col_mean c = Some (nearest 20).
Proof.
  intros Hp. apply Permutation_map_inv in Hp. destruct Hp as (l & -> & Hl).
  assert (Hlen : List.length l = 3%nat)
    by (rewrite <- (Permutation_length Hl); reflexivity).
  assert (Htot : total l = 60%Z)
    by (rewrite <- (total_permutation _ _ Hl); reflexivity).
  rewrite col_mean_integers.
  - rewrite Hlen, Htot. f_equal. apply nearest_eq; [| reflexivity].
    unfold Qle. cbn. lia.
  - intros ->. discriminate Hlen.
  - apply (Permutation_Forall Hl). repeat constructor; lia.
  - rewrite Htot. lia.
  - rewrite Hlen. lia.
Qed.

(** C9.  When the matches of the pattern in the text are three and,
    in whatever order their lines come, they are numerals for (10, 2,
    0.005), (20, 3, 0.01) and (30, 4, 0.02), the summary gives for the
    first column, System Latency, the minimum 10, the maximum 30 and the
    mean 20 (each as the double nearest to it, and 10, 20 and 30 are
    doubles). *)
Theorem analyser_sample_statistics (log_text : text) (rows : list (list text)) :
  Permutation (findall pattern log_text) rows ->
  Forall2 (Forall2 spells) rows sample_values ->
  exists sm,
    analyse log_text = Ok sm /\
    nth 0 (latency_type sm) ""%string = "System Latency"%string /\
    nth 0 (min_ms sm) None = Some (nearest 10) /\
    nth 0 (max_ms sm) None = Some (nearest 30) /\
    nth 0 (avg_ms sm) None = Some (nearest 20).
Proof.
  intros Hperm Hrows.
  pose proof (astype_float_spells (F := F) rows sample_values Hrows) as Hdf'.
  destruct (astype_float_permutation _ _ Hperm _ Hdf') as (df & Hdf & Hp).
  assert (Hc : Permutation (column df 0)
                 (map (fun z => nearest (inject_Z z)) [10; 20; 30]%Z))
    by exact (Permutation_map (fun row => nth 0 row (nearest 0)) Hp).
  unfold analyse. rewrite Hdf. eexists. split; [reflexivity |].
  cbn [latency_type min_ms max_ms avg_ms columns List.length seq map nth].
  split; [reflexivity |].
  rewrite (col_min_permutation _ _ Hc), (col_max_permutation _ _ Hc).
  rewrite sample_column_min, sample_column_max, (sample_column_mean _ Hc).
  auto.
Qed.




End AnalyserClaims.

Lemma analyser_sample_statistics_witness :
  exists sm,
    LatencyAnalyse.analyse sample_log = Ok sm /\
    nth 0 (LatencyAnalyse.latency_type sm) ""%string = "System Latency"%string /\
    nth 0 (LatencyAnalyse.min_ms sm) None = Some (LatencyAnalyse.nearest 10) /\
    nth 0 (LatencyAnalyse.max_ms sm) None = Some (LatencyAnalyse.nearest 30) /\
    nth 0 (LatencyAnalyse.avg_ms sm) None = Some (LatencyAnalyse.nearest 20).
Proof.
  apply (analyser_sample_statistics (U := LatencyAnalyse.Unicode_sample) (F := Qc)
           sample_log sample_rows).
  - vm_compute. apply (Permutation_cons_app [_; _] []). apply Permutation_refl.
  - repeat first [apply Forall2_cons | apply Forall2_nil];
      vm_compute; reflexivity.
Defined.



(** * The two threads *)

Section Threads.
Import ViconWrapper.
Context {F : Type} {FO : PyFloat F}.

Lemma stopping_trace (fe : stop_env) (s : state F) :
  trace (snd (stopping fe s)) = trace s ++ stopping_events fe (position_log s) /\
  position_log (snd (stopping fe s)) = position_log s.
Proof.
  unfold stopping, stopping_events, bind, write_json, call, log, bind, emit, lift.
  destruct (write_log fe) as [u | x]; cbn; [| rewrite app_nil_r; auto].
  destruct (is_connected fe) as [[|] | x]; cbn;
    [destruct (disconnect fe) as [u' | x]; cbn | |];
    rewrite <- !app_assoc; auto.
Qed.

Lemma finally_trace (fe : stop_env) (r : res unit) (s : state F) :
  trace (snd (finally_ (stopping fe) r s)) =
    trace s ++ stopping_events fe (position_log s) /\
  position_log (snd (finally_ (stopping fe) r s)) = position_log s.
Proof.
  pose proof (stopping_trace fe s) as H. unfold finally_.
  destruct (stopping fe s) as [[[] | x] s']; exact H.
Qed.

Lemma stopping_events_written fe (log : list (record F)) :
  filter is_written (stopping_events fe log) =
    match write_log fe with
    | Ok _ => [Written log]
    | Raise _ => []
    end.
Proof.
  unfold stopping_events. destruct (write_log fe); [| reflexivity].
  destruct (is_connected fe) as [[|] | x]; [destruct (disconnect fe) | |];
    reflexivity.
Qed.

Lemma stopping_events_disconnect fe (log : list (record F)) :
  filter is_disconnect (stopping_events fe log) =
    match write_log fe, is_connected fe with
    | Ok _, Ok true => [Call Cdisconnect]
    | _, _ => []
    end.
Proof.
  unfold stopping_events. destruct (write_log fe); [| reflexivity].
  destruct (is_connected fe) as [[|] | x]; [destruct (disconnect fe) | |];
    reflexivity.
Qed.

Lemma quiet_not_written (t : list (event F)) :
  Forall quiet t -> filter is_written t = [].
Proof.
  intros H. apply filter_none. eapply Forall_impl; [| exact H].
  intros [[] | | | |]; cbn; auto; contradiction.
Qed.

Lemma quiet_not_disconnect (t : list (event F)) :
  Forall quiet t -> filter is_disconnect t = [].
Proof.
  intros H. apply filter_none. eapply Forall_impl; [| exact H].
  intros [[] | | | |]; cbn; auto; contradiction.
Qed.

(** A block whose events are quiet keeps a quiet trace quiet. *)
Lemma sound_keeps_quiet (Q : record F -> Prop) {A} (m : M F A) s :
  sound quiet Q m -> Forall quiet (trace s) -> Forall quiet (trace (snd (m s))).
Proof.
  intros Hm Hs. destruct (Hm s) as (t & l & Ht & HPt & _).
  rewrite Ht. apply Forall_app. auto.
Qed.

Lemma leave_try_quiet (r : res unit) (s : state F) :
  Forall quiet (trace s) -> Forall quiet (trace (snd (leave_try r s))).
Proof.
  intros Hs. unfold leave_try.
  pose proof (sound_keeps_quiet device_record (except_ handler r) s
                (sound_except _ _ _ _ sound_handler) Hs) as H.
  destruct (except_ handler r s) as [r' s']. exact H.
Qed.

Lemma leave_try_phase (r : res unit) (s : state F) :
  exists r', fst (leave_try r s) = Stopping r'.
Proof.
  unfold leave_try. destruct (except_ handler r s) as [r' s'].
  exists r'. reflexivity.
Qed.

Lemma create_then_log (r : res unit) (s : state F) :
  bind (lift r) (fun _ => log INFO MsgClientCreated) s =
    match r with
    | Ok _ => (Ok tt, snd (log INFO MsgClientCreated s))
    | Raise e => (Raise e, s)
    end.
Proof. destruct r; reflexivity. Qed.

Lemma worker_step_phase_ok cfg (w : world F) (y : system F) p s :
  phase_ok w (worker y) (object y) ->
  worker_step cfg w y = Some (p, s) ->
  phase_ok w p s.
Proof.
  unfold worker_step. destruct (worker y) as [| | | i | r | r]; cbn [phase_ok].
  - discriminate.
  - intros H E. inversion E; subst. exact H.
  - intros H. rewrite create_then_log.
    destruct (w_create_client w) as [u | x] eqn:Hc.
    + set (s1 := snd (log INFO MsgClientCreated (object y))).
      assert (Hs1 : Forall quiet (trace s1)).
      { cbn. apply Forall_app. split; [exact H | repeat constructor]. }
      pose proof (sound_keeps_quiet _ _ s1 (sound_connecting cfg (w_setup w)) Hs1)
        as Hq.
      destruct (connecting cfg (w_setup w) s1) as [[[] | x] s2]; cbn [snd] in Hq.
      * intros E. inversion E; subst. cbn. eauto.
      * intros E. inversion E as [E']. clear E.
        pose proof (leave_try_quiet (Raise x) s2 Hq) as Hq'.
        destruct (leave_try_phase (Raise x) s2) as [r' Hr'].
        destruct (leave_try (Raise x) s2) as [p' s']. cbn in *. subst.
        inversion E'; subst. cbn. eauto.
    + intros E. inversion E; subst. cbn.
      exists (trace (object y)). rewrite Hc, app_nil_r. auto.
  - intros [H Hc].
    destruct (running (object y)).
    + pose proof (sound_keeps_quiet _ _ (object y) (sound_poll cfg (w_polls w i)) H)
        as Hq.
      destruct (poll cfg (w_polls w i) (object y)) as [[[] | x] s2];
        cbn [snd] in Hq.
      * intros E. inversion E; subst. cbn. auto.
      * intros E. inversion E as [E']. clear E.
        pose proof (leave_try_quiet (Raise x) s2 Hq) as Hq'.
        destruct (leave_try_phase (Raise x) s2) as [r' Hr'].
        destruct (leave_try (Raise x) s2) as [p' s']. cbn in *. subst.
        inversion E'; subst. cbn. auto.
    + intros E. cbn in E. inversion E; subst. cbn. auto.
  - intros [H [u Hc]].
    destruct (finally_trace (w_final w) r (object y)) as [Ht Hl].
    destruct (finally_ (stopping (w_final w)) r (object y)) as [r' s'].
    cbn [snd] in Ht, Hl. intros E. inversion E; subst. cbn.
    exists (trace (object y)). rewrite Hc, Ht, Hl. auto.
  - discriminate.
Qed.

Lemma controller_step_data (y y' : system F) :
  controller_step y = Some y' ->
  worker y' = worker y /\
  trace (object y') = trace (object y) /\
  position_log (object y') = position_log (object y) \/
  worker y = Idle /\ worker y' = Started /\ object y' = object y.
Proof.
  unfold controller_step.
  destruct (controller y) as [| [| |] rest]; [discriminate | | |].
  - destruct (worker y); intros E; inversion E; subst; cbn; auto.
  - intros E. inversion E; subst. cbn. auto.
  - destruct (worker y); intros E; inversion E; subst; cbn; auto.
Qed.

Lemma step_phase_ok cfg (w : world F) a (y y' : system F) :
  phase_ok w (worker y) (object y) ->
  step cfg w a y = Some y' ->
  phase_ok w (worker y') (object y').
Proof.
  intros H. destruct a; cbn [step].
  - intros E. destruct (controller_step_data y y' E)
      as [(Hw & Ht & Hl) | (Hw & Hw' & Ho)].
    + rewrite Hw. destruct (worker y); cbn [phase_ok] in *;
        rewrite ?Ht; auto.
      destruct H as (pre & Hpre & Htr). exists pre. rewrite Ht, Hl. auto.
    + rewrite Hw', Ho. rewrite Hw in H. exact H.
  - destruct (worker_step cfg w y) as [[p s] |] eqn:E; [| discriminate].
    intros E'. inversion E'; subst. cbn.
    eapply worker_step_phase_ok; eauto.
Qed.

Lemma step_controller_ok cfg (w : world F) a (y y' : system F) :
  controller_ok y ->
  step cfg w a y = Some y' ->
  controller_ok y'.
Proof.
  intros [He Hc]. destruct a; cbn [step].
  - unfold controller_step.
    destruct Hc as [[Hp Hw] | [[[Hp | Hp] Hw] | [[Hp | [Hp | Hp]] [r Hw]]]];
      rewrite Hp; cbn.
    + rewrite Hw. intros E. inversion E; subst. split; [reflexivity |].
      right. left. cbn. split; [left; reflexivity | discriminate].
    + intros E. inversion E; subst. split; [reflexivity |].
      right. left. cbn. split; [right; reflexivity | exact Hw].
    + destruct (worker y) eqn:Hwy; try discriminate; try contradiction.
      intros E. inversion E; subst. split; [reflexivity |].
      right. right. cbn. split; [left; reflexivity | eauto].
    + intros E. inversion E; subst. split; [reflexivity |].
      right. right. cbn. split; [right; left; reflexivity | eauto].
    + rewrite Hw. intros E. inversion E; subst. split; [reflexivity |].
      right. right. cbn. split; [right; right; reflexivity | eauto].
    + discriminate.
  - destruct (worker_step cfg w y) as [[p s] |] eqn:E; [| discriminate].
    intros E'. inversion E'; subst. split; [exact He |]. cbn.
    unfold worker_step in E.
    destruct Hc as [[Hp Hw] | [[Hp Hw] | [Hp [r Hw]]]].
    + rewrite Hw in E. discriminate.
    + right. left. split; [exact Hp |].
      destruct (worker y); try contradiction.
      * inversion E. discriminate.
      * rewrite create_then_log in E.
        destruct (w_create_client w) as [u | x].
        -- destruct (connecting _ _ _) as [[[] | x] s2].
           ++ inversion E. discriminate.
           ++ destruct (leave_try_phase (Raise x) s2) as [r' Hr'].
              destruct (leave_try (Raise x) s2). cbn in Hr'. subst.
              inversion E. discriminate.
        -- inversion E. discriminate.
      * destruct (running (object y)).
        -- destruct (poll _ _ _) as [[[] | x] s2].
           ++ inversion E. discriminate.
           ++ destruct (leave_try_phase (Raise x) s2) as [r' Hr'].
              destruct (leave_try (Raise x) s2). cbn in Hr'. subst.
              inversion E. discriminate.
        -- destruct (leave_try_phase (Ok tt) (object y)) as [r' Hr'].
           destruct (leave_try (Ok tt) (object y)). cbn in Hr'. subst.
           inversion E. discriminate.
      * destruct (finally_ _ _ _). inversion E. discriminate.
      * discriminate.
    + rewrite Hw in E. discriminate.
Qed.

Lemma exec_invariant cfg (w : world F) schedule : forall (y y' : system F),
  controller_ok y -> phase_ok w (worker y) (object y) ->
  exec cfg w schedule y = Some y' ->
  controller_ok y' /\ phase_ok w (worker y') (object y').
Proof.
  induction schedule as [| a schedule IH]; intros y y' Hc Hp; cbn [exec].
  - intros E. inversion E; subst. auto.
  - destruct (step cfg w a y) as [y1 |] eqn:E; [| discriminate].
    apply IH.
    + eapply step_controller_ok; eauto.
    + eapply step_phase_ok; eauto.
Qed.

(** Once the worker is over, no step changes the trace or the log. *)
Lemma exec_terminated cfg (w : world F) schedule : forall (y y' : system F) r,
  worker y = Terminated r ->
  exec cfg w schedule y = Some y' ->
  worker y' = Terminated r /\
  trace (object y') = trace (object y) /\
  position_log (object y') = position_log (object y).
Proof.
  induction schedule as [| a schedule IH]; intros y y' r Hw; cbn [exec].
  - intros E. inversion E; subst. auto.
  - destruct (step cfg w a y) as [y1 |] eqn:E; [| discriminate].
    intros E'. destruct a; cbn [step] in E.
    + destruct (controller_step_data y y1 E) as [(Hw1 & Ht & Hl) | (Hi & _)].
      * rewrite Hw in Hw1. destruct (IH y1 y' r Hw1 E') as (H1 & H2 & H3).
        rewrite H2, H3. auto.
      * rewrite Hw in Hi. discriminate.
    + unfold worker_step in E. rewrite Hw in E. discriminate.
Qed.

End Threads.

(** * The claim about [stop] *)

Section StopClaim.
Import ViconWrapper.
Context {F : Type} {FO : PyFloat F}.

(** C8 (as amended).  The controlling thread runs [start(); stop();
    stop()] while the worker runs [run], in any interleaving.  The
    controlling thread never raises, and at every moment the trace holds
    at most one written file and at most one disconnect.  As soon as the
    first [stop()] has returned (at most the second one is left to do) the
    worker is over; if the client object could be created and the file
    could be written, exactly one file has been written by then, holding
    the position log, and the client was disconnected once if it said it
    was connected and not at all otherwise; and whatever runs afterwards,
    the second [stop()] included, changes neither the trace nor the
    position log. *)
Theorem stop_twice_settles_once cfg (w : world F) schedule (y : system F) :
  exec cfg w schedule (boot program) = Some y ->
  controller_error y = None /\
  (List.length (filter is_written (trace (object y))) <= 1)%nat /\
  (List.length (filter is_disconnect (trace (object y))) <= 1)%nat /\
  ((List.length (controller y) <= 2)%nat ->
   (exists r, worker y = Terminated r) /\
   (w_create_client w = Ok tt -> write_log (w_final w) = Ok tt ->
    filter is_written (trace (object y)) = [Written (position_log (object y))] /\
    filter is_disconnect (trace (object y)) =
      match is_connected (w_final w) with
      | Ok true => [Call Cdisconnect]
      | _ => []
      end) /\
   (forall schedule' y',
       exec cfg w schedule' y = Some y' ->
       trace (object y') = trace (object y) /\
       position_log (object y') = position_log (object y))).
Proof.
  intros E.
  assert (Hc0 : controller_ok (boot (F := F) program)).
  { split; [reflexivity | left; split; reflexivity]. }
  assert (Hp0 : phase_ok w (worker (boot (F := F) program))
                  (object (boot (F := F) program))).
  { constructor. }
  destruct (exec_invariant cfg w schedule _ _ Hc0 Hp0 E) as [[He Hc] Hp].
  assert (Hcounts :
            (List.length (filter is_written (trace (object y))) <= 1)%nat /\
            (List.length (filter is_disconnect (trace (object y))) <= 1)%nat).
  { assert (Hq : Forall quiet (trace (object y)) ->
                 (List.length (filter is_written (trace (object y))) <= 1)%nat /\
                 (List.length (filter is_disconnect (trace (object y))) <= 1)%nat).
    { intros Hq. rewrite (quiet_not_written _ Hq), (quiet_not_disconnect _ Hq).
      cbn. lia. }
    destruct (worker y); cbn [phase_ok] in Hp;
      try (apply Hq; tauto).
    destruct Hp as (pre & Hpre & Ht). rewrite Ht, !filter_app.
    rewrite (quiet_not_written _ Hpre), (quiet_not_disconnect _ Hpre).
    cbn [app]. destruct (w_create_client w); [| cbn; lia].
    rewrite stopping_events_written, stopping_events_disconnect.
    destruct (write_log (w_final w)); [| cbn; lia].
    destruct (is_connected (w_final w)) as [[|] | x]; cbn; lia. }
  split; [exact He |]. split; [apply Hcounts |]. split; [apply Hcounts |].
  intros Hlen.
  assert (Hterm : exists r, worker y = Terminated r).
  { destruct Hc as [[Hpr _] | [[[Hpr | Hpr] _] | [_ Hw]]];
      [rewrite Hpr in Hlen; cbn in Hlen; lia .. | exact Hw]. }
  destruct Hterm as [r Hw]. split; [eauto |]. split.
  - intros Hcreate Hwrite. rewrite Hw in Hp. cbn [phase_ok] in Hp.
    destruct Hp as (pre & Hpre & Ht). rewrite Hcreate in Ht.
    rewrite Ht, !filter_app.
    rewrite (quiet_not_written _ Hpre), (quiet_not_disconnect _ Hpre).
    cbn [app]. rewrite stopping_events_written, stopping_events_disconnect.
    rewrite Hwrite. split; reflexivity.
  - intros schedule' y' E'.
    destruct (exec_terminated cfg w schedule' y y' r Hw E') as (_ & Ht & Hl).
    auto.
Qed.

End StopClaim.

Lemma stop_twice_settles_once_witness :
  let y := sample_outcome Sample.final_ok in
  ViconWrapper.controller_error y = None /\
  (List.length (filter is_written (trace (ViconWrapper.object y))) <= 1)%nat /\
  (List.length (filter is_disconnect (trace (ViconWrapper.object y))) <= 1)%nat /\
  ((List.length (ViconWrapper.controller y) <= 2)%nat ->
   (exists r, ViconWrapper.worker y = ViconWrapper.Terminated r) /\
   (Ok tt = Ok tt -> Ok tt = Ok tt ->
    filter is_written (trace (ViconWrapper.object y)) =
      [Written (position_log (ViconWrapper.object y))] /\
    filter is_disconnect (trace (ViconWrapper.object y)) = [Call Cdisconnect]) /\
   (forall schedule' y',
       ViconWrapper.exec Sample.unlabeled (Sample.world_of Sample.final_ok)
         schedule' y = Some y' ->
       trace (ViconWrapper.object y') = trace (ViconWrapper.object y) /\
       position_log (ViconWrapper.object y') =
         position_log (ViconWrapper.object y))).
Proof.
  apply (stop_twice_settles_once (F := Q) Sample.unlabeled
           (Sample.world_of Sample.final_ok) Sample.one_frame_schedule
           (sample_outcome Sample.final_ok)).
  vm_compute. reflexivity.
Defined.

(** C8, as stated, fails when the file cannot be written.  In this
    interleaving the worker records one frame, both calls of [stop()]
    return and the worker is over, yet the directory [logs] is missing:
    no file was written, and the client was neither asked [is_connected]
    nor disconnected. *)
Lemma stop_twice_counterexample :
  let y := sample_outcome Sample.final_no_directory in
  ViconWrapper.exec Sample.unlabeled (Sample.world_of Sample.final_no_directory)
    Sample.one_frame_schedule (ViconWrapper.boot program) = Some y /\
  ViconWrapper.controller y = [] /\
  ViconWrapper.controller_error y = None /\
  ViconWrapper.worker y =
    ViconWrapper.Terminated (Raise (Exception "FileNotFoundError")) /\
  List.length (position_log (ViconWrapper.object y)) = 1%nat /\
  filter is_written (trace (ViconWrapper.object y)) = [] /\
  filter is_disconnect (trace (ViconWrapper.object y)) = [] /\
  ~ In (Call Cis_connected) (trace (ViconWrapper.object y)).
Proof.
  vm_compute. repeat (split; [reflexivity |]). intuition discriminate.
Qed.

(** * The interleaved worker against [run] *)

Section Refinement.
Import ViconWrapper.
Context {F : Type} {FO : PyFloat F}.

Lemma same_data_with_flag (s s' : state F) :
  same_data s s' -> s = with_flag (running s) s'.
Proof.
  destruct s, s'. unfold same_data, with_flag. cbn.
  intros [-> ->]. reflexivity.
Qed.

Lemma same_data_trans (s1 s2 s3 : state F) :
  same_data s1 s2 -> same_data s2 s3 -> same_data s1 s3.
Proof. intros [H1 H2] [H3 H4]. split; congruence. Qed.

(** A block that ignores the flag does the same from two states that
    differ in the flag only. *)
Lemma oblivious_same {A} (m : M F A) (s s' : state F) :
  oblivious m -> same_data s s' ->
  fst (m s) = fst (m s') /\ same_data (snd (m s)) (snd (m s')).
Proof.
  intros Hm Hs. rewrite (same_data_with_flag s s' Hs), Hm. cbn.
  split; [reflexivity | split; reflexivity].
Qed.

Lemma streaming_app cfg (l1 l2 : list (frame_env F)) : forall s,
  streaming cfg (l1 ++ l2) s =
  bind (streaming cfg l1) (fun _ => streaming cfg l2) s.
Proof.
  induction l1 as [| d l1 IH]; intros s; cbn [app streaming].
  - reflexivity.
  - unfold bind at 1 2 3.
    destruct (poll cfg d s) as [[[] | x] s1]; [| reflexivity].
    rewrite IH. reflexivity.
Qed.

(** One more iteration after a prefix that went through. *)
Lemma streaming_snoc cfg (l : list (frame_env F)) d s s' :
  streaming cfg l s = (Ok tt, s') ->
  streaming cfg (l ++ [d]) s = poll cfg d s'.
Proof.
  intros H. rewrite streaming_app. unfold bind at 1. rewrite H.
  cbn [streaming]. unfold bind, ret.
  destruct (poll cfg d s') as [[[] | x] s1]; reflexivity.
Qed.

(** The body of [try] for the first [n] iterations of [w]. *)
Lemma try_body_snoc cfg (w : world F) n s s' :
  bind (connecting cfg (w_setup w))
       (fun _ => streaming cfg (map (w_polls w) (seq 0 n))) s = (Ok tt, s') ->
  bind (connecting cfg (w_setup w))
       (fun _ => streaming cfg (map (w_polls w) (seq 0 (S n)))) s =
  poll cfg (w_polls w n) s'.
Proof.
  unfold bind.
  destruct (connecting cfg (w_setup w) s) as [[[] | x] s1]; [| discriminate].
  intros H. rewrite seq_S, map_app. cbn [map Nat.add].
  apply streaming_snoc. exact H.
Qed.

Lemma leave_try_matches cfg (w : world F) n r (s s1 : state F) :
  (exists u, w_create_client w = Ok u) ->
  bind (connecting cfg (w_setup w))
       (fun _ => streaming cfg (map (w_polls w) (seq 0 n))) entered = (r, s1) ->
  same_data s s1 ->
  matches_run cfg w (fst (leave_try r s)) (snd (leave_try r s)).
Proof.
  intros Hc Hb Hs. unfold leave_try.
  destruct (oblivious_same (except_ handler r) s s1
              (oblivious_except _ _ oblivious_handler) Hs) as [Hr Hd].
  destruct (except_ handler r s) as [r' s'] eqn:E. cbn [fst snd] in *.
  split; [exact Hc |]. exists n, (snd (except_ handler r s1)).
  split; [| exact Hd].
  unfold guarded. cbn [session setup frames]. rewrite Hb.
  rewrite Hr. destruct (except_ handler r s1); reflexivity.
Qed.

Lemma some_pair {A B} (q : A * B) a b :
  Some q = Some (a, b) -> a = fst q /\ b = snd q.
Proof. intros E. inversion E; subst. split; reflexivity. Qed.

Lemma worker_step_matches cfg (w : world F) (y : system F) p s :
  matches_run cfg w (worker y) (object y) ->
  worker_step cfg w y = Some (p, s) ->
  matches_run cfg w p s.
Proof.
  unfold worker_step. destruct (worker y) as [| | | i | r | r]; cbn [matches_run].
  - discriminate.
  - intros [Hl Ht] E. inversion E; subst. split; assumption.
  - intros Hs. rewrite create_then_log.
    destruct (w_create_client w) as [u | x] eqn:Hc.
    + assert (Hs1 : same_data (snd (log INFO MsgClientCreated (object y))) entered).
      { destruct Hs as [Hl Ht]. split; cbn; [exact Hl | rewrite Ht; reflexivity]. }
      destruct (oblivious_same (connecting cfg (w_setup w)) _ _
                  (oblivious_connecting cfg (w_setup w)) Hs1) as [Hr Hd].
      destruct (connecting cfg (w_setup w)
                  (snd (log INFO MsgClientCreated (object y))))
        as [[[] | x] s2] eqn:E2; cbn [fst snd] in Hr, Hd.
      * intros E. inversion E; subst. cbn [matches_run].
        split; [eauto |]. exists (snd (connecting cfg (w_setup w) entered)).
        split; [| exact Hd]. cbn [seq map streaming]. unfold bind.
        destruct (connecting cfg (w_setup w) entered) as [r1 s1].
        cbn [fst snd] in *. subst r1. reflexivity.
      * intros E.
        assert (Hb : bind (connecting cfg (w_setup w))
                       (fun _ => streaming cfg (map (w_polls w) (seq 0 0)))
                       entered
                     = (Raise x, snd (connecting cfg (w_setup w) entered))).
        { unfold bind.
          destruct (connecting cfg (w_setup w) entered) as [r1 s1].
          cbn [fst snd] in *. subst r1. reflexivity. }
        pose proof (leave_try_matches cfg w 0 (Raise x) s2 _
                      (ex_intro _ u Hc) Hb Hd) as Hm.
        destruct (some_pair _ _ _ E) as [Ep Es].
        rewrite Ep, Es. exact Hm.
    + intros E. inversion E; subst. cbn [matches_run].
      exists 0%nat, (with_flag true init_state). split.
      * apply run_create_fails. exact Hc.
      * destruct Hs as [Hl Ht]. split; assumption.
  - intros (Hc & s' & Hb & Hs).
    destruct (running (object y)).
    + destruct (oblivious_same (poll cfg (w_polls w i)) _ _
                  (oblivious_poll cfg (w_polls w i)) Hs) as [Hr Hd].
      pose proof (try_body_snoc cfg w i entered s' Hb) as Hb'.
      destruct (poll cfg (w_polls w i) (object y)) as [[[] | x] s2] eqn:E2;
        cbn [fst snd] in Hr, Hd.
      * intros E. inversion E; subst. cbn [matches_run].
        split; [exact Hc |]. exists (snd (poll cfg (w_polls w i) s')).
        split; [| exact Hd]. rewrite Hb'.
        destruct (poll cfg (w_polls w i) s') as [r1 s1].
        cbn [fst snd] in *. subst r1. reflexivity.
      * intros E.
        assert (Hb2 : bind (connecting cfg (w_setup w))
                        (fun _ => streaming cfg (map (w_polls w) (seq 0 (S i))))
                        entered
                      = (Raise x, snd (poll cfg (w_polls w i) s'))).
        { rewrite Hb'. destruct (poll cfg (w_polls w i) s') as [r1 s1].
          cbn [fst snd] in *. subst r1. reflexivity. }
        pose proof (leave_try_matches cfg w (S i) (Raise x) s2 _ Hc Hb2 Hd) as Hm.
        destruct (some_pair _ _ _ E) as [Ep Es].
        rewrite Ep, Es. exact Hm.
    + intros E.
      pose proof (leave_try_matches cfg w i (Ok tt) (object y) s' Hc Hb Hs) as Hm.
      destruct (some_pair _ _ _ E) as [Ep Es].
      rewrite Ep, Es. exact Hm.
  - intros ((u & Hc) & n & s' & Hg & Hs).
    destruct (oblivious_same (finally_ (stopping (w_final w)) r) _ _
                (oblivious_finally _ _ (oblivious_stopping (w_final w))) Hs)
      as [Hr Hd].
    destruct (finally_ (stopping (w_final w)) r (object y)) as [r' s2] eqn:E2.
    cbn [fst snd] in Hr, Hd.
    intros E. inversion E; subst. cbn [matches_run].
    exists n, (snd (finally_ (stopping (w_final w)) r s')).
    split; [| exact Hd].
    rewrite (run_unfold cfg (session w n) init_state u Hc).
    fold (entered (F := F)). rewrite Hg. cbn [session final].
    apply surjective_pairing.
  - discriminate.
Qed.

Lemma step_matches cfg (w : world F) a (y y' : system F) :
  matches_run cfg w (worker y) (object y) ->
  step cfg w a y = Some y' ->
  matches_run cfg w (worker y') (object y').
Proof.
  intros H. destruct a; cbn [step].
  - intros E. destruct (controller_step_data y y' E)
      as [(Hw & Ht & Hl) | (Hw & Hw' & Ho)].
    + rewrite Hw.
      assert (Hsame : same_data (object y') (object y)) by (split; assumption).
      destruct (worker y); cbn [matches_run] in *.
      * eapply same_data_trans; eauto.
      * eapply same_data_trans; eauto.
      * eapply same_data_trans; eauto.
      * destruct H as (Hc & s' & Hb & Hs). split; [exact Hc |].
        exists s'. split; [exact Hb | eapply same_data_trans; eauto].
      * destruct H as (Hc & n & s' & Hb & Hs). split; [exact Hc |].
        exists n, s'. split; [exact Hb | eapply same_data_trans; eauto].
      * destruct H as (n & s' & Hb & Hs).
        exists n, s'. split; [exact Hb | eapply same_data_trans; eauto].
    + rewrite Hw', Ho. rewrite Hw in H. exact H.
  - destruct (worker_step cfg w y) as [[p s] |] eqn:E; [| discriminate].
    intros E'. inversion E'; subst. cbn.
    eapply worker_step_matches; eauto.
Qed.

Lemma exec_matches cfg (w : world F) schedule : forall (y y' : system F),
  matches_run cfg w (worker y) (object y) ->
  exec cfg w schedule y = Some y' ->
  matches_run cfg w (worker y') (object y').
Proof.
  induction schedule as [| a schedule IH]; intros y y' H; cbn [exec].
  - intros E. inversion E; subst. exact H.
  - destruct (step cfg w a y) as [y1 |] eqn:E; [| discriminate].
    apply IH. eapply step_matches; eauto.
Qed.

End Refinement.

(** * Further properties of the device-backed wrapper *)

Section Further.
Import ViconWrapper.
Context {F : Type} {FO : PyFloat F}.

(** X1.  A device session whose client object could be created and whose
    file can be written writes exactly one file, holding the position log
    as it is at the end, however Connecting and Streaming went: normal
    stop, a failed connect, an exception of the client or of the callback,
    an interrupt. *)
Theorem device_session_always_flushes cfg (e : env F) :
  create_client e = Ok tt ->
  write_log (final e) = Ok tt ->
  filter is_written (trace (snd (run cfg e init_state))) =
    [Written (position_log (snd (run cfg e init_state)))].
Proof.
  intros Hc Hw. rewrite (run_unfold _ _ _ _ Hc).
  destruct (sound_guarded cfg e
              (snd (log INFO MsgClientCreated (with_flag true init_state))))
    as (t & l & Ht & HPt & _).
  destruct (guarded cfg e _) as [r s1]. cbn [snd] in Ht. cbn in Ht.
  destruct (finally_trace (final e) r s1) as [Htr Hlog].
  rewrite Htr, Hlog, Ht, filter_app. cbn [filter is_written].
  rewrite (quiet_not_written _ HPt), stopping_events_written, Hw.
  reflexivity.
Qed.

(** X2.  Whatever the controlling thread does and however the two threads
    interleave, a worker that is over has done what [run] does in the
    session in which the loop ran some number [n] of times: the same
    outcome, the same position log and the same trace. *)
Theorem interleaving_refines_run cfg (w : world F) prog schedule
    (y : system F) r :
  exec cfg w schedule (boot prog) = Some y ->
  worker y = Terminated r ->
  exists n s',
    run cfg (session w n) init_state = (r, s') /\
    position_log s' = position_log (object y) /\
    trace s' = trace (object y).
Proof.
  intros E Hw.
  assert (H0 : matches_run cfg w (worker (boot (F := F) prog))
                 (object (boot (F := F) prog))).
  { split; reflexivity. }
  pose proof (exec_matches cfg w schedule _ _ H0 E) as H.
  rewrite Hw in H. destruct H as (n & s' & Hrun & Hl & Ht).
  exists n, s'. auto.
Qed.

End Further.

Lemma device_session_always_flushes_witness :
  filter is_written
    (trace (snd (ViconWrapper.run Sample.unlabeled
                   {| ViconWrapper.create_client := Ok tt;
                      ViconWrapper.setup := Sample.setup_unreachable;
                      ViconWrapper.frames := [Sample.seen 1 7];
                      ViconWrapper.final := Sample.final_ok |} init_state))) =
  [Written (position_log
              (snd (ViconWrapper.run Sample.unlabeled
                      {| ViconWrapper.create_client := Ok tt;
                         ViconWrapper.setup := Sample.setup_unreachable;
                         ViconWrapper.frames := [Sample.seen 1 7];
                         ViconWrapper.final := Sample.final_ok |} init_state)))].
Proof.
  exact (device_session_always_flushes (F := Q) Sample.unlabeled
           {| ViconWrapper.create_client := Ok tt;
              ViconWrapper.setup := Sample.setup_unreachable;
              ViconWrapper.frames := [Sample.seen 1 7];
              ViconWrapper.final := Sample.final_ok |} eq_refl eq_refl).
Defined.

Lemma interleaving_refines_run_witness :
  exists n s',
    ViconWrapper.run Sample.unlabeled
      (ViconWrapper.session (Sample.world_of Sample.final_ok) n) init_state
      = (Ok tt, s') /\
    position_log s' =
      position_log (ViconWrapper.object (sample_outcome Sample.final_ok)) /\
    trace s' = trace (ViconWrapper.object (sample_outcome Sample.final_ok)).
Proof.
  apply (interleaving_refines_run (F := Q) Sample.unlabeled
           (Sample.world_of Sample.final_ok) program
           Sample.one_frame_schedule (sample_outcome Sample.final_ok) (Ok tt)).
  - vm_compute. reflexivity.
  - vm_compute. reflexivity.
Defined.

(** * [stop()] before [run] has set the flag *)

Section Race.
Import ViconWrapper.
Context {F : Type} {FO : PyFloat F}.

Lemma exec_app cfg (w : world F) l1 l2 : forall (y : system F),
  exec cfg w (l1 ++ l2) y =
    match exec cfg w l1 y with
    | Some y' => exec cfg w l2 y'
    | None => None
    end.
Proof.
  induction l1 as [| a l1 IH]; intros y; cbn [app exec]; [reflexivity |].
  destruct (step cfg w a y); [apply IH | reflexivity].
Qed.

Lemma poll_keeps_running cfg (d : frame_env F) s :
  running (snd (poll cfg d s)) = running s.
Proof. destruct (sound_poll cfg d s) as (t & l & _ & _ & _ & _ & H). exact H. Qed.

Lemma connecting_keeps_running cfg ce (s : state F) :
  running (snd (connecting cfg ce s)) = running s.
Proof.
  destruct (sound_connecting cfg ce s) as (t & l & _ & _ & _ & _ & H). exact H.
Qed.

(** X3.  With a client that never raises: if both actions of the first
    [stop()] come before the worker executes [self.running = True], the
    worker sets the flag again and keeps polling.  After any number [n] of
    iterations it is still in Streaming with the flag set, and the
    controlling thread is still blocked in [join]: this [stop()] does
    not return and no file is written. *)
Theorem stop_before_run_keeps_streaming cfg (w : world F) n :
  w_create_client w = Ok tt ->
  (forall s : state F, fst (connecting cfg (w_setup w) s) = Ok tt) ->
  (forall i s, fst (poll cfg (w_polls w i) s) = Ok tt) ->
  exists y,
    exec cfg w ([Controller; Controller] ++ repeat Worker (2 + n))
      (boot program) = Some y /\
    worker y = Streaming n /\
    running (object y) = true /\
    controller y = Thread_join :: stop /\
    controller_step y = None /\
    filter is_written (trace (object y)) = [].
Proof.
  intros Hc Hconn Hpoll.
  assert (Hblocked : forall y : system F,
             controller y = Thread_join :: stop ->
             (exists i, worker y = Streaming i) -> controller_step y = None).
  { intros y Hy [i Hi]. unfold controller_step. rewrite Hy, Hi. reflexivity. }
  induction n as [| n IH].
  - cbn [repeat Nat.add app exec step].
    unfold program. cbn [start stop app controller_step boot controller worker].
    cbn [controller_step controller worker object controller_error].
    unfold worker_step at 1. cbn [worker object].
    unfold worker_step at 1. cbn [worker object].
    rewrite create_then_log, Hc.
    pose proof (Hconn (snd (log INFO MsgClientCreated
                              (with_running true
                                 (with_running false (init_state (F := F))))))) as H1.
    pose proof (connecting_keeps_running cfg (w_setup w)
                  (snd (log INFO MsgClientCreated
                          (with_running true
                             (with_running false (init_state (F := F))))))) as H2.
    pose proof (sound_keeps_quiet device_record (connecting cfg (w_setup w))
                  (snd (log INFO MsgClientCreated
                          (with_running true
                             (with_running false (init_state (F := F))))))
                  (sound_connecting cfg (w_setup w))) as H3.
    destruct (connecting cfg (w_setup w) _) as [[[] | x] s1];
      cbn [fst snd] in H1, H2, H3; [| discriminate H1].
    eexists. split; [reflexivity |]. cbn.
    split; [reflexivity |]. split; [exact H2 |]. split; [reflexivity |].
    split; [reflexivity |].
    apply quiet_not_written. apply H3. repeat constructor.
  - destruct IH as (y & He & Hw & Hr & Hctl & _ & Hq).
    replace (2 + S n)%nat with (S (2 + n)) by lia.
    change (repeat Worker (S (2 + n))) with (Worker :: repeat Worker (2 + n)).
    rewrite repeat_cons, app_assoc, exec_app, He.
    cbn [exec step]. unfold worker_step. rewrite Hw, Hr.
    pose proof (Hpoll n (object y)) as H1.
    pose proof (poll_keeps_running cfg (w_polls w n) (object y)) as H2.
    destruct (sound_poll cfg (w_polls w n) (object y))
      as (t & l & Ht & HPt & _).
    destruct (poll cfg (w_polls w n) (object y)) as [[[] | x] s1];
      cbn [fst snd] in H1, H2, Ht; [| discriminate H1].
    eexists. split; [reflexivity |]. cbn.
    split; [reflexivity |]. split; [congruence |]. split; [exact Hctl |].
    split.
    + apply Hblocked; cbn; eauto.
    + rewrite Ht, filter_app, Hq, (quiet_not_written _ HPt). reflexivity.
Qed.

End Race.

Lemma stop_before_run_keeps_streaming_witness :
  exists y,
    ViconWrapper.exec Sample.unlabeled (Sample.world_of Sample.final_ok)
      ([ViconWrapper.Controller; ViconWrapper.Controller]
         ++ repeat ViconWrapper.Worker (2 + 3))
      (ViconWrapper.boot program) = Some y /\
    ViconWrapper.worker y = ViconWrapper.Streaming 3 /\
    running (ViconWrapper.object y) = true /\
    ViconWrapper.controller y = ViconWrapper.Thread_join :: ViconWrapper.stop /\
    ViconWrapper.controller_step y = None /\
    filter is_written (trace (ViconWrapper.object y)) = [].
Proof.
  apply (stop_before_run_keeps_streaming (F := Q) Sample.unlabeled
           (Sample.world_of Sample.final_ok) 3).
  - reflexivity.
  - intros s. reflexivity.
  - intros i s. reflexivity.
Defined.

(** * Further properties of the analyser *)

Section AnalyserFurther.
Import LatencyAnalyse.
Context {U : Unicode} {F : Type} {D : Double F}.

(** X4.  A match of the pattern never crosses a line feed: the matches
    found in a text are those of the part before a line feed followed by
    those of the part after it.  The analyser therefore reads a log line by
    line, whatever else the lines hold. *)
Theorem findall_line_by_line (before after : text) :
  findall pattern (before ++ newline ++ after) =
    (findall pattern before ++ findall pattern after)%list.
Proof.
  unfold findall. change (newline ++ after) with (line_feed :: after).
  apply findall_from_before. lia.
Qed.

(** X5.  Whatever the text, every match that [findall] returns has exactly
    three groups, and each group is a non-empty string of decimal digits
    (those of ASCII or of any other script) and dots: the data frame always
    has the three columns it is given names for. *)
Theorem captured_groups_are_plain (log_text : text) :
  Forall (fun row => exists a b c,
              row = [a; b; c] /\
              plain a = true /\ plain b = true /\ plain c = true)
         (findall pattern log_text).
Proof. apply findall_rows. Qed.

(** X6.  The conversion to float, and with it the whole analysis, fails
    with a [ValueError] exactly when some captured value is not a decimal
    number, that is, has more than one dot or no digit (the class of the
    groups lets [1.2.3] and [..] through); otherwise a summary is
    computed.  The digits may be those of any script. *)
Theorem analyse_raises_on_malformed_value (log_text : text) :
  if forallb (forallb well_formed) (findall pattern log_text)
  then exists sm : summary F, analyse log_text = Ok sm
  else analyse (F := F) log_text = Raise value_error.
Proof.
  pose proof (astype_float_cases (F := F) _ (findall_rows_classes log_text)) as H.
  unfold analyse.
  destruct (forallb (forallb well_formed) (findall pattern log_text)).
  - destruct H as (df & Hdf & _). rewrite Hdf. eauto.
  - rewrite H. reflexivity.
Qed.

(** X7.  When at least one line matched and the values could be read,
    each of the three columns of the summary has a minimum, a mean and a
    maximum (none is [NaN]); the minimum and the maximum are values of the
    column, and every value of the column lies between them. *)
Theorem summary_min_max_bound_column (log_text : text) (sm : summary F)
    (i : nat) :
  analyse log_text = Ok sm ->
  findall pattern log_text <> [] ->
  (i < 3)%nat ->
  exists df mn av mx,
    astype_float (findall pattern log_text) = Ok df /\
    nth i (min_ms sm) None = Some mn /\
    nth i (avg_ms sm) None = Some av /\
    nth i (max_ms sm) None = Some mx /\
    In mn (column df i) /\ In mx (column df i) /\
    Forall (fun v => fle mn v = true /\ fle v mx = true) (column df i).
Proof.
  intros Han Hne Hi. unfold analyse in Han.
  destruct (astype_float (findall pattern log_text)) as [df | x] eqn:Hdf;
    [| discriminate].
  inversion Han; subst sm; clear Han. cbn [min_ms max_ms avg_ms].
  assert (Hcol : column df i <> []).
  { apply astype_float_length in Hdf. unfold column.
    destruct df as [| r df]; [| discriminate].
    destruct (findall pattern log_text); [congruence | discriminate]. }
  destruct (col_min (column df i)) as [mn |] eqn:Hmn;
    [| destruct (column df i); [congruence | discriminate]].
  destruct (col_max (column df i)) as [mx |] eqn:Hmx;
    [| destruct (column df i); [congruence | discriminate]].
  destruct (col_mean (column df i)) as [av |] eqn:Hav;
    [| destruct (column df i); [congruence | discriminate]].
  destruct (col_min_least _ _ Hmn) as [Hin1 Hle1].
  destruct (col_max_greatest _ _ Hmx) as [Hin2 Hle2].
  exists df, mn, av, mx. split; [reflexivity |].
  assert (Hb : Forall (fun v => fle mn v = true /\ fle v mx = true)
                 (column df i)).
  { rewrite Forall_forall in *. auto. }
  change (seq 0 (List.length columns)) with [0; 1; 2]%nat.
  destruct i as [| [| [| i]]]; [| | | lia]; cbn [map nth];
    rewrite ?Hmn, ?Hmx, ?Hav; auto 10.
Qed.

End AnalyserFurther.

Lemma analyse_raises_on_malformed_value_witness :
  LatencyAnalyse.analyse (F := Qc)
    (latency_line arabic_one_two_three (LatencyAnalyse.chars "4")
       (LatencyAnalyse.chars "..")) = Raise LatencyAnalyse.value_error /\
  exists sm : LatencyAnalyse.summary Qc,
    LatencyAnalyse.analyse
      (latency_line arabic_three (LatencyAnalyse.chars "4")
         (LatencyAnalyse.chars "0.5")) = Ok sm.
Proof.
  split.
  - exact (analyse_raises_on_malformed_value (F := Qc)
             (latency_line arabic_one_two_three (LatencyAnalyse.chars "4")
                (LatencyAnalyse.chars ".."))).
  - exact (analyse_raises_on_malformed_value (F := Qc)
             (latency_line arabic_three (LatencyAnalyse.chars "4")
                (LatencyAnalyse.chars "0.5"))).
Defined.

Lemma summary_min_max_bound_column_witness :
  exists df mn av mx,
    LatencyAnalyse.astype_float
      (LatencyAnalyse.findall LatencyAnalyse.pattern sample_log) = Ok df /\
    nth 1 (LatencyAnalyse.min_ms sample_summary) None = Some mn /\
    nth 1 (LatencyAnalyse.avg_ms sample_summary) None = Some av /\
    nth 1 (LatencyAnalyse.max_ms sample_summary) None = Some mx /\
    In mn (LatencyAnalyse.column df 1) /\ In mx (LatencyAnalyse.column df 1) /\
    Forall (fun v => LatencyAnalyse.fle mn v = true /\
                     LatencyAnalyse.fle v mx = true)
           (LatencyAnalyse.column df 1).
Proof.
  apply (summary_min_max_bound_column sample_log sample_summary 1).
  - vm_compute. reflexivity.
  - vm_compute. discriminate.
  - lia.
Defined.

(** * Sessions of the device-backed wrapper: what the body of [try] does *)

Section SessionFacts.
Import ViconWrapper.
Context {F : Type} {FO : PyFloat F}.

Lemma sound_bind_assoc (P : event F -> Prop) (Q : record F -> Prop) {A B C}
    (m : M F A) (k1 : A -> M F B) (k2 : B -> M F C) :
  sound P Q (bind m (fun x => bind (k1 x) k2)) ->
  sound P Q (bind (bind m k1) k2).
Proof.
  intros H s. specialize (H s). unfold bind in *.
  destruct (m s) as [[a | x] s1]; exact H.
Qed.

Lemma sound_bind_ret (P : event F -> Prop) (Q : record F -> Prop) {A B}
    (a : A) (k : A -> M F B) :
  sound P Q (k a) -> sound P Q (bind (ret a) k).
Proof. intros H s. exact (H s). Qed.

(** As [sound_step], keeping what is known of a value that is returned and
    used at once. *)
Ltac session_step :=
  match goal with
  | |- context [fgt (of_int 0) (of_int 0)] => rewrite fgt_irrefl
  | |- sound _ _ (bind (bind _ _) _) => apply sound_bind_assoc
  | |- sound _ _ (bind (ret _) _) => apply sound_bind_ret; cbv beta iota
  | |- sound _ _ (bind (if ?b then _ else _) _) => destruct b
  | |- sound _ _ (bind (match ?x with _ => _ end) _) => destruct x
  | |- sound _ _ (append _) =>
      apply sound_append; unfold device_record; eauto 6
  | _ => sound_step
  end.

Lemma allowed_connecting cfg ce :
  sound (fun ev => allowed cfg ev = true) device_record (connecting cfg ce).
Proof.
  destruct cfg as [cb [|]]; unfold connecting; cbn [labeled_object];
    repeat session_step.
Qed.

Lemma allowed_poll cfg (d : frame_env F) :
  sound (fun ev => allowed cfg ev = true) device_record (poll cfg d).
Proof.
  destruct cfg as [[|] [|]];
    unfold poll, extract_pose, invoke_callback, account_latency;
    cbn [labeled_object callback];
    repeat session_step.
Qed.

Lemma allowed_streaming cfg (fs : list (frame_env F)) :
  sound (fun ev => allowed cfg ev = true) device_record (streaming cfg fs).
Proof.
  induction fs as [| d fs IH]; cbn.
  - apply sound_ret.
  - apply sound_bind; [apply allowed_poll | intros _; exact IH].
Qed.

Lemma allowed_try_body cfg (e : env F) :
  sound (fun ev => allowed cfg ev = true) device_record (try_body cfg e).
Proof.
  apply sound_bind; [apply allowed_connecting | intros _; apply allowed_streaming].
Qed.

End SessionFacts.

(** * Sessions of the device-backed wrapper: [run] taken apart *)

Section SessionRun.
Import ViconWrapper.
Context {F : Type} {FO : PyFloat F}.

Lemma stopping_returns fe (s : state F) :
  stops_cleanly fe -> fst (stopping fe s) = Ok tt.
Proof.
  intros (u & c & Hw & Hc & Hd).
  unfold stopping, bind, write_json, call, log, bind, emit, lift.
  rewrite Hw, Hc. cbn. destruct c; cbn; [| reflexivity].
  destruct (Hd eq_refl) as [u' Hu]. rewrite Hu. reflexivity.
Qed.

(** The trace of a session: the body of [try], what the except clauses
    log, and the finally block. *)
Lemma run_anatomy cfg (e : env F) u :
  create_client e = Ok u ->
  trace (snd (run cfg e init_state)) =
    trace (snd (try_body cfg e entered))
      ++ handled (fst (try_body cfg e entered))
      ++ stopping_events (final e) (position_log (snd (try_body cfg e entered))) /\
  position_log (snd (run cfg e init_state)) =
    position_log (snd (try_body cfg e entered)) /\
  (stops_cleanly (final e) ->
   fst (run cfg e init_state) = pending (fst (try_body cfg e entered))).
Proof.
  intros Hc. rewrite (run_unfold _ _ _ _ Hc). unfold guarded.
  change (snd (log INFO MsgClientCreated (with_flag true init_state)))
    with (entered (F := F)).
  change (bind (connecting cfg (setup e)) (fun _ => streaming cfg (frames e)))
    with (try_body cfg e).
  destruct (try_body cfg e entered) as [rb sb]. cbn [fst snd].
  assert (Hex : trace (snd (except_ handler rb sb)) = trace sb ++ handled rb /\
                position_log (snd (except_ handler rb sb)) = position_log sb /\
                fst (except_ handler rb sb) = pending rb).
  { destruct rb as [[] | [| | what | what]]; cbn; rewrite ?app_nil_r; auto. }
  destruct (except_ handler rb sb) as [r1 s1]. cbn [fst snd] in Hex.
  destruct Hex as (Ht & Hl & Hr).
  destruct (finally_trace (final e) r1 s1) as [Hft Hfl].
  rewrite Hft, Hfl, Ht, Hl, app_assoc.
  split; [reflexivity | split; [reflexivity |]].
  intros Hclean. unfold finally_.
  pose proof (stopping_returns (final e) s1 Hclean) as Hs.
  destruct (stopping (final e) s1) as [[[] | x] s2]; cbn in *; congruence.
Qed.

(** What the body of [try] adds to the state in which it is entered. *)
Lemma try_body_grows cfg (e : env F) :
  exists t,
    trace (snd (try_body cfg e entered)) = Log INFO MsgClientCreated :: t /\
    Forall (fun ev => allowed cfg ev = true) t /\
    Forall device_record (position_log (snd (try_body cfg e entered))).
Proof.
  destruct (allowed_try_body cfg e entered) as (t & l & Ht & HPt & Hl & HQl & _).
  exists t. rewrite Ht, Hl. auto.
Qed.

Lemma stopping_events_shape fe (log : list (record F)) :
  Forall (fun ev => ev = Written log \/ ev = Log INFO MsgSaved \/
                    ev = Call Cis_connected \/ ev = Call Cdisconnect \/
                    ev = Log INFO MsgDisconnected)
         (stopping_events fe log).
Proof.
  unfold stopping_events. destruct (write_log fe); [| constructor].
  destruct (is_connected fe) as [[|] | x]; [destruct (disconnect fe) | |];
    cbn; repeat (constructor; [tauto |]); constructor.
Qed.

(** A property of the events of the body of [try], of the error lines and
    of the events of the finally block holds all along the trace. *)
Lemma run_events cfg (e : env F) (P : event F -> Prop) :
  (forall ev, allowed cfg ev = true -> P ev) ->
  P (Log ERROR MsgInterrupted) ->
  (forall x, P (Log ERROR (MsgUnexpected x))) ->
  (forall log, P (Written log)) ->
  P (Call Cis_connected) ->
  P (Call Cdisconnect) ->
  Forall P (trace (snd (run cfg e init_state))).
Proof.
  intros Hbody Hint Herr Hwr Hic Hdc.
  destruct (create_client e) as [u | x] eqn:Hc.
  - destruct (run_anatomy cfg e u Hc) as (Ht & _).
    destruct (try_body_grows cfg e) as (t & Htb & Hall & _).
    rewrite Ht, Htb. constructor; [apply Hbody; reflexivity |].
    apply Forall_app. split; [eapply Forall_impl; [| exact Hall]; auto |].
    apply Forall_app. split.
    + destruct (fst (try_body cfg e entered)) as [[] | [| | what | what]]; cbn;
        repeat constructor; auto.
    + eapply Forall_impl; [| apply stopping_events_shape].
      intros ev [-> | [-> | [-> | [-> | ->]]]]; auto; apply Hbody; reflexivity.
  - rewrite (run_create_fails _ _ _ _ Hc). constructor.
Qed.

(** X8.  What [run] does with an exception that the client or the
    callback raises while connecting or streaming, when the client object
    exists and nothing raises in the finally block.  After a
    [KeyboardInterrupt], and after any exception that derives from
    [Exception], [run] returns normally and the exception is logged at
    error level exactly once.  Every other exception ([SystemExit],
    [GeneratorExit], any class that derives from [BaseException] only) is
    caught by neither except clause: it is logged nowhere and leaves [run]
    after the finally block.  A session without an exception logs nothing
    at error level. *)
Theorem run_contains_exceptions cfg (e : env F) :
  create_client e = Ok tt ->
  stops_cleanly (final e) ->
  let out := run cfg e init_state in
  match fst (try_body cfg e entered) with
  | Ok _ =>
      fst out = Ok tt /\ filter is_error (trace (snd out)) = []
  | Raise KeyboardInterrupt =>
      fst out = Ok tt /\
      filter is_error (trace (snd out)) = [Log ERROR MsgInterrupted]
  | Raise (Exception what) =>
      fst out = Ok tt /\
      filter is_error (trace (snd out)) =
        [Log ERROR (MsgUnexpected (Exception what))]
  | Raise SystemExit =>
      fst out = Raise SystemExit /\ filter is_error (trace (snd out)) = []
  | Raise (BaseException what) =>
      fst out = Raise (BaseException what) /\
      filter is_error (trace (snd out)) = []
  end.
Proof.
  intros Hc Hclean. cbv zeta.
  destruct (run_anatomy cfg e tt Hc) as (Ht & _ & Hr).
  destruct (try_body_grows cfg e) as (t & Htb & Hall & _).
  rewrite (Hr Hclean), Ht, Htb.
  change (Log INFO MsgClientCreated :: t) with ([Log INFO MsgClientCreated] ++ t).
  rewrite !filter_app. cbn [filter is_error app].
  assert (H1 : filter is_error t = []).
  { apply filter_none. eapply Forall_impl; [| exact Hall].
    intros [c | [] m | | args ts | l]; cbn; congruence. }
  assert (H2 : filter is_error
                 (stopping_events (final e)
                    (position_log (snd (try_body cfg e entered)))) = []).
  { apply filter_none. eapply Forall_impl; [| apply stopping_events_shape].
    intros ev [-> | [-> | [-> | [-> | ->]]]]; reflexivity. }
  rewrite H1, H2.
  destruct (fst (try_body cfg e entered)) as [[] | [| | what | what]]; cbn; auto.
Qed.

(** X9.  The two tracking modes never mix: in labeled-object mode [run]
    calls none of the client's unlabeled-marker methods, in
    unlabeled-marker mode none of its subject and segment methods.  The
    callback gets three positional arguments, or six in labeled-object
    mode: a session in unlabeled-marker mode never hands over a
    rotation. *)
Theorem tracking_modes_do_not_mix cfg (e : env F) :
  Forall (fun ev =>
            match ev with
            | Call c =>
                (if labeled_object cfg then unlabeled_call c
                 else labeled_call c) = false
            | Callback args _ =>
                List.length args = 3%nat \/
                labeled_object cfg = true /\ List.length args = 6%nat
            | _ => True
            end)
         (trace (snd (run cfg e init_state))).
Proof.
  apply run_events; try exact I; try (destruct (labeled_object cfg); reflexivity).
  intros [c | l m | | args ts | log]; cbn [allowed]; try (intros; exact I).
  - destruct (labeled_object cfg); destruct c; cbn; congruence.
  - rewrite !andb_true_iff, orb_true_iff, andb_true_iff, !Nat.eqb_eq. tauto.
Qed.

(** Without a callback: no call of it, no latency accounting. *)
Lemma no_callback_events lab (e : env F) :
  Forall (fun ev => is_callback ev = false /\
                    is_latency_line ev = false /\
                    ev <> Call Cget_latency_total)
         (trace (snd (run {| callback := false; labeled_object := lab |}
                        e init_state))).
Proof.
  apply run_events; try (repeat split; discriminate).
  intros [c | l m | | args ts | log]; cbn; try discriminate.
  - destruct c; intros Hc; repeat split; discriminate.
  - destruct l; destruct m; intros Hc; repeat split; discriminate.
  - intros _. repeat split; discriminate.
Qed.

(** X10.  Without a callable callback (as in the script's main block)
    [run] never invokes a callback, never asks the client for its latency
    and never logs a latency line: the analyser finds nothing in the log
    of such a session. *)
Theorem without_callback_no_latency_accounting lab (e : env F) :
  let t := trace (snd (run {| callback := false; labeled_object := lab |}
                         e init_state)) in
  filter is_callback t = [] /\
  filter is_latency_line t = [] /\
  ~ In (Call Cget_latency_total) t.
Proof.
  cbv zeta. pose proof (no_callback_events lab e) as Hall.
  split; [| split].
  - apply filter_none. eapply Forall_impl; [| exact Hall].
    intros ev (H1 & _). exact H1.
  - apply filter_none. eapply Forall_impl; [| exact Hall].
    intros ev (_ & H2 & _). exact H2.
  - intros Hin. rewrite Forall_forall in Hall.
    destruct (Hall _ Hin) as (_ & _ & Hne). congruence.
Qed.

End SessionRun.

(** * Sessions of the device-backed wrapper: the iterations one by one *)

Section SessionPolls.
Import ViconWrapper.
Context {F : Type} {FO : PyFloat F}.

Ltac open_poll H :=
  unfold poll, extract_pose, invoke_callback, account_latency,
    bind, call, log, emit, lift, append, ret in H;
  cbn in H.

(** One iteration: one call of [get_frame]; a sleep exactly when there is
    no frame; at most one record, holding what the client reported; and
    with a callback, one call of it for the record. *)
Lemma poll_anatomy cfg (d : frame_env F) s :
  exists t l,
    trace (snd (poll cfg d s)) = trace s ++ t /\
    position_log (snd (poll cfg d s)) = position_log s ++ l /\
    filter is_poll t = [Call Cget_frame] /\
    filter is_sleep t = (if no_frame d then [Sleep] else []) /\
    (l = [] \/ exists r, l = [r] /\ recorded cfg d r) /\
    (if callback cfg then Forall2 (hands_over cfg) l (filter is_callback t)
     else filter is_callback t = []).
Proof.
  unfold no_frame, recorded, reported_position.
  destruct (poll cfg d s) as [r s'] eqn:H. destruct cfg as [[|] [|]].
  all: open_poll H; crunch H.
  all: inversion H; subst; clear H; cbn [snd trace position_log callback labeled_object].
  all: eexists _, _; split; [rewrite <- ?app_assoc; reflexivity |].
  all: split; [first [reflexivity | symmetry; apply app_nil_r] |].
  all: cbn [app filter is_poll is_sleep is_callback].
  all: split; [reflexivity | split; [reflexivity |]].
  all: split;
    [first [left; reflexivity
           | right; eexists; split; [reflexivity |];
             do 4 eexists; repeat split; reflexivity] |].
  all: try reflexivity.
  all: try (constructor; [| constructor]).
  all: try constructor.
  all: do 6 eexists; split; [reflexivity |]; split; [reflexivity |].
  all: first [left; reflexivity | right; split; reflexivity].
Qed.

(** Connecting polls no frame, sleeps not, calls no callback. *)
Lemma connecting_inert cfg ce :
  sound (fun ev : event F =>
           is_poll ev || is_sleep ev || is_callback ev || is_written ev = false)
        (fun _ => False) (connecting cfg ce).
Proof. unfold connecting. repeat sound_step. Qed.

Lemma Forall_False_nil {A} (l : list A) : Forall (fun _ => False) l -> l = [].
Proof. destruct 1; [reflexivity | contradiction]. Qed.

Lemma streaming_anatomy cfg (fs : list (frame_env F)) : forall s,
  exists t l ds,
    trace (snd (streaming cfg fs s)) = trace s ++ t /\
    position_log (snd (streaming cfg fs s)) = position_log s ++ l /\
    subseq ds fs /\ Forall2 (recorded cfg) ds l /\
    (if callback cfg then Forall2 (hands_over cfg) l (filter is_callback t)
     else filter is_callback t = []) /\
    (fst (streaming cfg fs s) = Ok tt ->
     filter is_poll t = repeat (Call Cget_frame) (List.length fs) /\
     List.length (filter is_sleep t) = List.length (filter no_frame fs)).
Proof.
  induction fs as [| d fs IH]; intros s.
  - exists [], [], []. cbn. rewrite !app_nil_r.
    repeat split; try constructor. destruct (callback cfg); constructor.
  - cbn [streaming]. unfold bind.
    destruct (poll_anatomy cfg d s) as (t1 & l1 & Ht1 & Hl1 & Hp1 & Hs1 & Hr1 & Hc1).
    destruct (poll cfg d s) as [[[] | x] s1]; cbn [snd] in Ht1, Hl1.
    + destruct (IH s1) as (t2 & l2 & ds2 & Ht2 & Hl2 & Hsub & Hrec & Hc2 & Hok).
      exists (t1 ++ t2), (l1 ++ l2),
        (match l1 with [] => ds2 | _ => d :: ds2 end).
      rewrite Ht2, Hl2, Ht1, Hl1, <- !app_assoc.
      split; [reflexivity | split; [reflexivity |]].
      split; [| split; [| split]].
      * destruct l1; [apply subseq_skip | apply subseq_keep]; exact Hsub.
      * destruct Hr1 as [-> | (r & -> & Hr)]; [exact Hrec |].
        constructor; assumption.
      * rewrite filter_app. destruct (callback cfg).
        -- apply Forall2_app; assumption.
        -- rewrite Hc1, Hc2. reflexivity.
      * intros Hfst. destruct (Hok Hfst) as [Hp2 Hs2].
        rewrite !filter_app, Hp1, Hp2, Hs1, length_app, Hs2. cbn [filter].
        split; [reflexivity |]. destruct (no_frame d); reflexivity.
    + exists t1, l1, (match l1 with [] => [] | _ => [d] end).
      split; [exact Ht1 | split; [exact Hl1 |]].
      split; [| split; [| split]].
      * destruct l1; [apply subseq_nil_l | apply subseq_keep, subseq_nil_l].
      * destruct Hr1 as [-> | (r & -> & Hr)]; repeat constructor. exact Hr.
      * exact Hc1.
      * discriminate.
Qed.

(** The body of [try], from the state in which it is entered. *)
Lemma try_body_anatomy cfg (e : env F) :
  exists t ds,
    trace (snd (try_body cfg e entered)) = Log INFO MsgClientCreated :: t /\
    subseq ds (frames e) /\
    Forall2 (recorded cfg) ds (position_log (snd (try_body cfg e entered))) /\
    (if callback cfg
     then Forall2 (hands_over cfg) (position_log (snd (try_body cfg e entered)))
            (filter is_callback t)
     else filter is_callback t = []) /\
    filter is_written t = [] /\
    (fst (try_body cfg e entered) = Ok tt ->
     filter is_poll t = repeat (Call Cget_frame) (List.length (frames e)) /\
     List.length (filter is_sleep t) =
       List.length (filter no_frame (frames e))) /\
    (forall x, fst (connecting (F := F) cfg (setup e) entered) = Raise x ->
               position_log (snd (try_body cfg e entered)) = [] /\
               filter is_poll t = []).
Proof.
  unfold try_body, bind.
  destruct (connecting_inert cfg (setup e) entered)
    as (t0 & l0 & Ht0 & HP0 & Hl0 & HQ0 & _).
  apply Forall_False_nil in HQ0. subst l0. rewrite app_nil_r in Hl0.
  assert (Hp0 : filter is_poll t0 = [] /\ filter is_sleep t0 = [] /\
                filter is_callback t0 = [] /\ filter is_written t0 = []).
  { repeat split; apply filter_none; (eapply Forall_impl; [| exact HP0]);
      intros ev Hev; repeat (apply orb_false_iff in Hev; destruct Hev as [Hev ?]);
      assumption. }
  destruct Hp0 as (Hp0 & Hs0 & Hc0 & Hw0).
  destruct (connecting cfg (setup e) entered) as [[[] | x] s1];
    cbn [fst snd] in Ht0, Hl0 |- *.
  - destruct (streaming_anatomy cfg (frames e) s1)
      as (t & l & ds & Ht & Hl & Hsub & Hrec & Hc & Hok).
    exists (t0 ++ t), ds. rewrite Ht, Hl, Ht0, Hl0. cbn [app].
    split; [rewrite <- app_assoc; reflexivity |].
    split; [exact Hsub |]. split; [exact Hrec |].
    rewrite !filter_app, Hc0, Hp0, Hs0, Hw0. cbn [app List.length].
    split; [exact Hc |]. split.
    + destruct (allowed_streaming cfg (frames e) s1) as (t' & l' & Ht' & HP' & _).
      rewrite Ht in Ht'. apply app_inv_head in Ht'. subst t'.
      apply filter_none. eapply Forall_impl; [| exact HP'].
      intros [c | lv m | | args ts | log]; cbn; congruence.
    + split; [exact Hok | discriminate].
  - exists t0, []. rewrite Ht0, Hl0. cbn [app].
    split; [reflexivity |]. split; [apply subseq_nil_l |].
    split; [constructor |]. rewrite Hc0.
    split; [destruct (callback cfg); constructor |].
    split; [exact Hw0 |]. split; [discriminate | auto].
Qed.

Lemma handled_filter (f : event F -> bool) r :
  (forall l m, f (Log l m) = false) -> filter f (handled r) = [].
Proof.
  intros Hf. destruct r as [[] | [| | what | what]]; cbn; rewrite ?Hf; reflexivity.
Qed.

Lemma stopping_events_filter (f : event F -> bool) fe log :
  (forall l m, f (Log l m) = false) ->
  (forall c, f (Call c) = false \/ (c <> Cis_connected /\ c <> Cdisconnect)) ->
  f (Written log) = false ->
  filter f (stopping_events fe log) = [].
Proof.
  intros Hl Hc Hw. apply filter_none.
  eapply Forall_impl; [| apply stopping_events_shape].
  intros ev [-> | [-> | [-> | [-> | ->]]]]; auto.
  - destruct (Hc Cis_connected) as [H | [H _]]; [exact H | congruence].
  - destruct (Hc Cdisconnect) as [H | [_ H]]; [exact H | congruence].
Qed.

End SessionPolls.

(** * Further properties of a device session *)

Section SessionFurther.
Import ViconWrapper.
Context {F : Type} {FO : PyFloat F}.

(** The callbacks of a session are those of the body of [try]. *)
Lemma run_callbacks cfg (e : env F) u t :
  create_client e = Ok u ->
  trace (snd (try_body cfg e entered)) = Log INFO MsgClientCreated :: t ->
  forall f : event F -> bool,
    (forall l m, f (Log l m) = false) ->
    (forall c, f (Call c) = false \/ (c <> Cis_connected /\ c <> Cdisconnect)) ->
    (forall log, f (Written log) = false) ->
    filter f (trace (snd (run cfg e init_state))) = filter f t.
Proof.
  intros Hc Ht f Hl Hcall Hw.
  destruct (run_anatomy cfg e u Hc) as (Hrun & _).
  rewrite Hrun, Ht.
  change (Log INFO MsgClientCreated :: t) with ([Log INFO MsgClientCreated] ++ t).
  rewrite !filter_app, handled_filter, stopping_events_filter by auto.
  cbn [filter]. rewrite Hl, !app_nil_r. reflexivity.
Qed.

(** X11.  With a callable callback, every record of the position log was
    handed to the callback exactly once, and nothing else was: the calls
    of the callback are, in order, one per record, with the position of
    the record as first arguments (followed by three angles in
    labeled-object mode at most) and as timestamp the clock reading whose
    thousandfold is the record's time.  This holds however the session
    ends.  Without a callable callback nothing is called. *)
Theorem callback_once_per_record cfg (e : env F) :
  let s := snd (run cfg e init_state) in
  if callback cfg
  then Forall2 (hands_over cfg) (position_log s) (filter is_callback (trace s))
  else filter is_callback (trace s) = [].
Proof.
  cbv zeta. destruct (create_client e) as [u | x] eqn:Hc.
  - destruct (try_body_anatomy cfg e) as (t & ds & Ht & _ & _ & Hcb & _).
    destruct (run_anatomy cfg e u Hc) as (_ & Hlog & _).
    rewrite (run_callbacks cfg e u t Hc Ht is_callback), Hlog;
      [exact Hcb | reflexivity | left; reflexivity | reflexivity].
  - rewrite (run_create_fails _ _ _ _ Hc). cbn.
    destruct (callback cfg); constructor.
Qed.

(** X12.  The position log holds what the client reported and nothing
    else: its records come, in order and each from an iteration of its
    own, from iterations of the session in which the client delivered a
    frame; the record has the frame number of that iteration as
    [frame_id], the translation that the client returned in it (of the
    root segment, or of marker 0) as [tvec], and the thousandfold of its
    clock reading as [time]. *)
Theorem log_holds_what_the_client_reported cfg (e : env F) :
  exists ds,
    subseq ds (frames e) /\
    Forall2 (recorded cfg) ds (position_log (snd (run cfg e init_state))).
Proof.
  destruct (create_client e) as [u | x] eqn:Hc.
  - destruct (try_body_anatomy cfg e) as (t & ds & _ & Hsub & Hrec & _).
    destruct (run_anatomy cfg e u Hc) as (_ & Hlog & _).
    exists ds. rewrite Hlog. auto.
  - rewrite (run_create_fails _ _ _ _ Hc). exists []. cbn.
    split; [apply subseq_nil_l | constructor].
Qed.

(** X13.  In a session in which nothing raises while connecting and
    streaming, the loop asks the client for a frame exactly once in each
    iteration, and it sleeps (for 1/50 s) exactly in the iterations in
    which there was no frame. *)
Theorem one_poll_per_iteration cfg (e : env F) :
  create_client e = Ok tt ->
  fst (try_body cfg e entered) = Ok tt ->
  let t := trace (snd (run cfg e init_state)) in
  filter is_poll t = repeat (Call Cget_frame) (List.length (frames e)) /\
  List.length (filter is_sleep t) = List.length (filter no_frame (frames e)).
Proof.
  intros Hc Hok. cbv zeta.
  destruct (try_body_anatomy cfg e) as (t & ds & Ht & _ & _ & _ & _ & Hpolls & _).
  destruct (Hpolls Hok) as [Hp Hs].
  rewrite (run_callbacks cfg e tt t Hc Ht is_poll), Hp;
    [| reflexivity | intros c; destruct c; auto; right; split; discriminate
     | reflexivity].
  rewrite (run_callbacks cfg e tt t Hc Ht is_sleep), Hs;
    [| reflexivity | left; reflexivity | reflexivity].
  split; reflexivity.
Qed.

(** X14.  When connecting or configuring the client raises, no frame is
    ever polled and nothing is recorded; the finally block still runs, so
    that a file without frames is written if the file can be written. *)
Theorem failed_setup_records_nothing cfg (e : env F) x :
  create_client e = Ok tt ->
  fst (connecting (F := F) cfg (setup e) entered) = Raise x ->
  let s := snd (run cfg e init_state) in
  position_log s = [] /\
  filter is_poll (trace s) = [] /\
  filter is_written (trace s) =
    match write_log (final e) with
    | Ok _ => [Written []]
    | Raise _ => []
    end.
Proof.
  intros Hc Hx. cbv zeta.
  destruct (try_body_anatomy cfg e) as (t & ds & Ht & _ & _ & _ & Hw & _ & Hfail).
  destruct (Hfail x Hx) as [Hlog Hp].
  destruct (run_anatomy cfg e tt Hc) as (Hrun & Hl & _).
  split; [rewrite Hl; exact Hlog |]. split.
  - rewrite (run_callbacks cfg e tt t Hc Ht is_poll), Hp;
      [reflexivity | reflexivity
      | intros c; destruct c; auto; right; split; discriminate | reflexivity].
  - rewrite Hrun, Ht, Hlog.
    change (Log INFO MsgClientCreated :: t)
      with ([Log INFO MsgClientCreated] ++ t).
    rewrite !filter_app, Hw, handled_filter, stopping_events_written
      by reflexivity.
    reflexivity.
Qed.

End SessionFurther.

Lemma run_contains_exceptions_witness :
  let out := ViconWrapper.run Sample.unlabeled Sessions.unreachable init_state in
  fst out = Ok tt /\
  filter is_error (trace (snd out)) =
    [Log ERROR (MsgUnexpected (Exception "ConnectionError"))].
Proof.
  apply (run_contains_exceptions (F := Q) Sample.unlabeled Sessions.unreachable).
  - reflexivity.
  - exists tt, true. repeat split. intros _. exists tt. reflexivity.
Defined.

Lemma one_poll_per_iteration_witness :
  let t := trace (snd (ViconWrapper.run Sample.unlabeled Sessions.with_pause
                         init_state)) in
  filter is_poll t = repeat (Call Cget_frame) 3 /\
  List.length (filter is_sleep t) = 1%nat.
Proof.
  apply (one_poll_per_iteration (F := Q) Sample.unlabeled Sessions.with_pause).
  - reflexivity.
  - vm_compute. reflexivity.
Defined.

Lemma failed_setup_records_nothing_witness :
  let s := snd (ViconWrapper.run Sample.unlabeled Sessions.unreachable
                  init_state) in
  position_log s = [] /\
  filter is_poll (trace s) = [] /\
  filter is_written (trace s) = [Written []].
Proof.
  apply (failed_setup_records_nothing (F := Q) Sample.unlabeled
           Sessions.unreachable (Exception "ConnectionError")).
  - reflexivity.
  - vm_compute. reflexivity.
Defined.

(** * Sessions of the synthetic wrapper *)

Section SyntheticSessions.
Import VirtualViconWrapper.
Context {F : Type} {FO : PyFloat F}.

Local Open Scope Z_scope.

(** X15.  The position log of a synthetic session is determined by the
    clock: it holds, for the first [n] iterations of the session, the
    record with [frame_id] 1, 2, ..., [tvec] [0, 0, 10], [vel] [1, 1, 1]
    and as [time] the thousandfold of the clock reading of the iteration;
    [n] is the number of all iterations unless a callback raised. *)
Theorem synthetic_log_is_clock_readings cfg (e : env F) :
  exists n,
    (n <= List.length (frames e))%nat /\
    position_log (snd (run cfg e init_state)) =
      synthetic_records (firstn n (frames e)) 0 /\
    ((callback cfg = true -> Forall callback_returns (frames e)) ->
     n = List.length (frames e)).
Proof.
  rewrite run_is_streaming.
  destruct (first_raise cfg (frames e))
    as [Hall | (Hc & pre & d & post & x & Hfs & Hpre & Hx)].
  - exists (List.length (frames e)).
    rewrite (streaming_returns cfg e _ _ _ Hall), firstn_all. cbn. auto.
  - exists (S (List.length pre)). rewrite Hfs.
    rewrite (streaming_raises cfg e pre d post x _ _ Hc Hpre Hx), firstn_first.
    cbn [snd position_log app]. rewrite length_app. cbn [List.length].
    split; [lia |]. split; [reflexivity |].
    intros Hall. specialize (Hall Hc).
    apply Forall_app in Hall. destruct Hall as [_ Hall].
    inversion Hall as [| ? ? [v Hv] _]. congruence.
Qed.

(** X16.  With a callable callback the synthetic wrapper calls it once
    for every record of the position log, right after appending it, each
    time with the one list [0, 0, 10, 1, 1, 1] and no timestamp; without
    one, nothing is called.  This holds however the session ends. *)
Theorem synthetic_callback_once_per_record cfg (e : env F) :
  let s := snd (run cfg e init_state) in
  filter is_callback (trace s) =
    if callback cfg
    then repeat synthetic_call (List.length (position_log s))
    else [].
Proof.
  cbv zeta. rewrite run_is_streaming.
  destruct (first_raise cfg (frames e))
    as [Hall | (Hc & pre & d & post & x & Hfs & Hpre & Hx)].
  - rewrite (streaming_returns cfg e _ _ _ Hall).
    cbn [snd trace position_log app]. rewrite synthetic_records_length.
    cbn [filter is_callback].
    rewrite filter_app, (synthetic_events_filter cfg is_callback _ eq_refl).
    unfold while_else_events. cbn [filter is_callback].
    rewrite andb_true_r.
    destruct (write_log e); cbn [filter is_callback]; rewrite app_nil_r;
      reflexivity.
  - rewrite Hfs, (streaming_raises cfg e pre d post x _ _ Hc Hpre Hx).
    cbn [snd trace position_log app]. rewrite synthetic_records_length.
    cbn [filter is_callback].
    rewrite filter_app, (synthetic_events_filter cfg is_callback _ eq_refl).
    rewrite Hc, length_app. cbn [andb filter is_callback synthetic_call List.length].
    rewrite Nat.add_1_r. symmetry. apply repeat_cons.
Qed.

(** X17.  When the callback of a synthetic session raises, the exception
    of the first callback that raises leaves [run] at once: the record of
    that iteration is in the position log, no later iteration runs, no
    warning is logged and no file is written, so every record is lost. *)
Theorem synthetic_callback_failure_loses_log cfg (e : env F) pre d post x :
  callback cfg = true ->
  frames e = (pre ++ d :: post)%list ->
  Forall callback_returns pre ->
  callback_result d = Raise x ->
  let out := run cfg e init_state in
  fst out = Raise x /\
  position_log (snd out) = synthetic_records (pre ++ [d]) 0 /\
  filter is_written (trace (snd out)) = [] /\
  filter is_warning (trace (snd out)) = [].
Proof.
  intros Hc Hfs Hpre Hx. cbv zeta.
  rewrite run_is_streaming, Hfs,
    (streaming_raises cfg e pre d post x _ _ Hc Hpre Hx).
  cbn [fst snd trace position_log app filter is_written is_warning].
  rewrite !filter_app,
    (synthetic_events_filter cfg is_written _ eq_refl),
    (synthetic_events_filter cfg is_warning _ eq_refl).
  cbn. rewrite !andb_false_r. auto.
Qed.

(** X18.  A synthetic session whose callbacks return always logs the
    warning "Occluded or no data", once, when the loop ends, although no
    data was missing; the file is written after it.  If the file cannot
    be written, the exception of the write leaves [run] and nothing is
    saved. *)
Theorem synthetic_stop_logs_warning cfg (e : env F) :
  (callback cfg = true -> Forall callback_returns (frames e)) ->
  let out := run cfg e init_state in
  fst out = while_else_outcome e /\
  filter is_warning (trace (snd out)) = [Log WARNING MsgOccluded] /\
  filter is_written (trace (snd out)) =
    match write_log e with
    | Ok _ => [Written (position_log (snd out))]
    | Raise _ => []
    end /\
  exists before,
    trace (snd out) =
      (before ++ while_else_events e (position_log (snd out)))%list /\
    filter is_warning before = [].
Proof.
  intros Hall. cbv zeta.
  rewrite run_is_streaming, (streaming_returns cfg e _ _ _ Hall).
  cbn [fst snd trace position_log app].
  split; [reflexivity |].
  change (Log INFO MsgGenerating
            :: synthetic_events cfg (List.length (frames e))
                 ++ while_else_events e (synthetic_records (frames e) 0))%list
    with (([Log INFO MsgGenerating]
             ++ synthetic_events cfg (List.length (frames e)))
            ++ while_else_events e (synthetic_records (frames e) 0))%list.
  rewrite !filter_app,
    (synthetic_events_filter cfg is_written _ eq_refl),
    (synthetic_events_filter cfg is_warning _ eq_refl).
  rewrite !andb_false_r. unfold while_else_events at 1 2.
  cbn [filter is_warning is_written app].
  split; [destruct (write_log e); reflexivity |].
  split; [destruct (write_log e); reflexivity |].
  exists (Log INFO MsgGenerating
            :: synthetic_events cfg (List.length (frames e))).
  split; [reflexivity |]. cbn [filter is_warning].
  rewrite (synthetic_events_filter cfg is_warning _ eq_refl).
  rewrite andb_false_r. reflexivity.
Qed.

End SyntheticSessions.

Lemma synthetic_callback_failure_loses_log_witness :
  let out := VirtualViconWrapper.run VirtualSample.with_callback
               VirtualSample.failing_callback init_state in
  fst out = Raise (Exception "ValueError") /\
  position_log (snd out) =
    synthetic_records
      [VirtualSample.tick (Ok 7%Q);
       VirtualSample.tick (Raise (Exception "ValueError"))] 0 /\
  filter is_written (trace (snd out)) = [] /\
  filter is_warning (trace (snd out)) = [].
Proof.
  apply (synthetic_callback_failure_loses_log (F := Q)
           VirtualSample.with_callback VirtualSample.failing_callback
           [VirtualSample.tick (Ok 7%Q)]
           (VirtualSample.tick (Raise (Exception "ValueError")))
           [VirtualSample.tick (Ok 7%Q)] (Exception "ValueError")).
  - reflexivity.
  - reflexivity.
  - repeat constructor. exists 7%Q. reflexivity.
  - reflexivity.
Defined.

Lemma synthetic_stop_logs_warning_witness :
  let out := VirtualViconWrapper.run VirtualSample.with_callback
               VirtualSessions.no_directory init_state in
  fst out = Raise (Exception "FileNotFoundError") /\
  filter is_warning (trace (snd out)) = [Log WARNING MsgOccluded] /\
  filter is_written (trace (snd out)) = [] /\
  exists before,
    trace (snd out) = before ++ [Log WARNING MsgOccluded] /\
    filter is_warning before = [].
Proof.
  apply (synthetic_stop_logs_warning (F := Q) VirtualSample.with_callback
           VirtualSessions.no_directory).
  intros _. repeat constructor; exists 7%Q; reflexivity.
Defined.

(** * More on the two threads *)

Section ThreadsFurther.
Import ViconWrapper.
Context {F : Type} {FO : PyFloat F}.

Lemma exec_phase_ok cfg (w : world F) schedule : forall (y y' : system F),
  phase_ok w (worker y) (object y) ->
  exec cfg w schedule y = Some y' ->
  phase_ok w (worker y') (object y').
Proof.
  induction schedule as [| a schedule IH]; intros y y' Hp; cbn [exec].
  - intros E. inversion E; subst. exact Hp.
  - destruct (step cfg w a y) as [y1 |] eqn:E; [| discriminate].
    apply IH. eapply step_phase_ok; eauto.
Qed.

(** X19.  Whatever sequence of [start()] and [stop()] calls the
    controlling thread makes on one wrapper object, and however the
    threads interleave, the object writes at most one file and disconnects
    at most once. *)
Theorem at_most_one_file_whatever_is_called cfg (w : world F) prog schedule
    (y : system F) :
  exec cfg w schedule (boot prog) = Some y ->
  (List.length (filter is_written (trace (object y))) <= 1)%nat /\
  (List.length (filter is_disconnect (trace (object y))) <= 1)%nat.
Proof.
  intros E.
  assert (Hp0 : phase_ok w (worker (boot (F := F) prog))
                  (object (boot (F := F) prog))) by constructor.
  pose proof (exec_phase_ok cfg w schedule _ _ Hp0 E) as Hp.
  assert (Hq : Forall quiet (trace (object y)) ->
               (List.length (filter is_written (trace (object y))) <= 1)%nat /\
               (List.length (filter is_disconnect (trace (object y))) <= 1)%nat).
  { intros Hq. rewrite (quiet_not_written _ Hq), (quiet_not_disconnect _ Hq).
    cbn. lia. }
  destruct (worker y) as [| | | i | r | r]; cbn [phase_ok] in Hp;
    try (apply Hq; tauto).
  destruct Hp as (pre & Hpre & Ht). rewrite Ht, !filter_app.
  rewrite (quiet_not_written _ Hpre), (quiet_not_disconnect _ Hpre).
  cbn [app]. split.
  - destruct (w_create_client w); [| cbn; lia].
    rewrite stopping_events_written. destruct (write_log (w_final w)); cbn; lia.
  - destruct (w_create_client w); [| cbn; lia].
    rewrite stopping_events_disconnect.
    destruct (write_log (w_final w)); [| cbn; lia].
    destruct (is_connected (w_final w)) as [[|] | x]; cbn; lia.
Qed.

End ThreadsFurther.

Lemma at_most_one_file_whatever_is_called_witness :
  (List.length (filter is_written
                  (trace (ViconWrapper.object restart_outcome))) <= 1)%nat /\
  (List.length (filter is_disconnect
                  (trace (ViconWrapper.object restart_outcome))) <= 1)%nat.
Proof.
  apply (at_most_one_file_whatever_is_called (F := Q) Sample.unlabeled
           (Sample.world_of Sample.final_ok) restart restart_schedule
           restart_outcome).
  vm_compute. reflexivity.
Defined.

(** * [stop()] once the flag is set *)

Section StopReturns.
Import ViconWrapper.
Context {F : Type} {FO : PyFloat F}.

Lemma wound_down_trans (y1 y2 y3 : system F) :
  controller y2 = controller y1 ->
  controller_error y2 = controller_error y1 ->
  wound_down y2 y3 -> wound_down y1 y3.
Proof.
  intros Hc He (Hc' & He' & Hr). unfold wound_down.
  rewrite Hc', He', Hc, He. auto.
Qed.

(** In the finally block: one step to the end. *)
Lemma wind_down_stopping cfg (w : world F) (y : system F) r :
  worker y = Stopping r ->
  exists y', exec cfg w [Worker] y = Some y' /\ wound_down y y'.
Proof.
  intros Hw. cbn [exec step]. unfold worker_step. rewrite Hw.
  destruct (finally_ (stopping (w_final w)) r (object y)) as [r' s'].
  eexists. split; [reflexivity |].
  unfold wound_down. cbn. eauto.
Qed.

(** About to test the flag, which is cleared: two steps. *)
Lemma wind_down_streaming cfg (w : world F) (y : system F) i :
  worker y = Streaming i -> running (object y) = false ->
  exists y', exec cfg w [Worker; Worker] y = Some y' /\ wound_down y y'.
Proof.
  intros Hw Hr.
  set (y1 := {| controller := controller y;
                controller_error := controller_error y;
                worker := Stopping (Ok tt); object := object y |}).
  assert (H1 : exec cfg w [Worker] y = Some y1).
  { cbn [exec step]. unfold worker_step. rewrite Hw, Hr. reflexivity. }
  destruct (wind_down_stopping cfg w y1 (Ok tt) eq_refl) as (y' & He & Hd).
  exists y'. split.
  - change [Worker; Worker] with ([Worker] ++ [Worker]).
    rewrite exec_app, H1. exact He.
  - eapply wound_down_trans; [| | exact Hd]; reflexivity.
Qed.

(** About to connect, with the flag cleared: at most three steps. *)
Lemma wind_down_connecting cfg (w : world F) (y : system F) :
  worker y = Connecting -> running (object y) = false ->
  exists k y',
    (k <= 3)%nat /\ exec cfg w (repeat Worker k) y = Some y' /\ wound_down y y'.
Proof.
  intros Hw Hr.
  assert (Hstep : exists p s,
             worker_step cfg w y = Some (p, s) /\
             ((exists r, p = Terminated r) \/
              (exists r, p = Stopping r) \/
              (p = Streaming 0 /\ running s = false))).
  { unfold worker_step. rewrite Hw, create_then_log.
    destruct (w_create_client w) as [u | x]; [| eauto 8].
    set (s1 := snd (log INFO MsgClientCreated (object y))).
    pose proof (connecting_keeps_running cfg (w_setup w) s1) as Hrun.
    destruct (connecting cfg (w_setup w) s1) as [[[] | x] s2];
      cbn [snd] in Hrun.
    - exists (Streaming 0), s2. split; [reflexivity |].
      right. right. split; [reflexivity |]. rewrite Hrun. exact Hr.
    - destruct (leave_try_phase (Raise x) s2) as [r' Hr'].
      destruct (leave_try (Raise x) s2) as [p' s']. cbn [fst] in Hr'.
      subst p'. exists (Stopping r'), s'. split; [reflexivity | eauto]. }
  destruct Hstep as (p & s & Hs & Hcases).
  set (y1 := {| controller := controller y;
                controller_error := controller_error y;
                worker := p; object := s |}).
  assert (H1 : exec cfg w [Worker] y = Some y1).
  { cbn [exec step]. rewrite Hs. reflexivity. }
  destruct Hcases as [[r ->] | [[r ->] | [-> Hrs]]].
  - exists 1%nat, y1. split; [lia |]. split; [exact H1 |].
    unfold wound_down, y1. cbn. eauto.
  - destruct (wind_down_stopping cfg w y1 r eq_refl) as (y' & He & Hd).
    exists 2%nat, y'. split; [lia |]. split.
    + change (repeat Worker 2) with ([Worker] ++ [Worker]).
      rewrite exec_app, H1. exact He.
    + eapply wound_down_trans; [| | exact Hd]; reflexivity.
  - destruct (wind_down_streaming cfg w y1 0 eq_refl Hrs) as (y' & He & Hd).
    exists 3%nat, y'. split; [lia |]. split.
    + change (repeat Worker 3) with ([Worker] ++ [Worker; Worker]).
      rewrite exec_app, H1. exact He.
    + eapply wound_down_trans; [| | exact Hd]; reflexivity.
Qed.

(** X20.  Once the worker has executed [self.running = True], a call of
    [stop()] returns, provided the client answers its calls: after the
    flag is cleared the worker needs at most three more steps to be over
    (the rest of connecting, the test of the flag, the finally block),
    whereupon [join()] returns without an exception. *)
Theorem stop_after_flag_set_returns cfg (w : world F) (y : system F) rest :
  worker y <> Idle ->
  worker y <> Started ->
  controller y = stop ++ rest ->
  exists k y',
    (k <= 3)%nat /\
    exec cfg w (Controller :: repeat Worker k ++ [Controller]) y = Some y' /\
    controller y' = rest /\
    controller_error y' = None /\
    exists r, worker y' = Terminated r.
Proof.
  intros Hidle Hstarted Hctl.
  set (y1 := {| controller := Thread_join :: rest;
                controller_error := None;
                worker := worker y;
                object := with_running false (object y) |}).
  assert (H1 : step cfg w Controller y = Some y1).
  { cbn [step]. unfold controller_step. rewrite Hctl. reflexivity. }
  assert (Hdown : exists k y2,
             (k <= 3)%nat /\ exec cfg w (repeat Worker k) y1 = Some y2 /\
             wound_down y1 y2).
  { destruct (worker y) as [| | | i | r | r] eqn:Hw; try congruence.
    - apply wind_down_connecting; reflexivity.
    - destruct (wind_down_streaming cfg w y1 i eq_refl eq_refl) as (y2 & He & Hd).
      exists 2%nat, y2. split; [lia | auto].
    - destruct (wind_down_stopping cfg w y1 r eq_refl) as (y2 & He & Hd).
      exists 1%nat, y2. split; [lia | auto].
    - exists 0%nat, y1. split; [lia |]. split; [reflexivity |].
      unfold wound_down. cbn. eauto. }
  destruct Hdown as (k & y2 & Hk & He & Hc2 & He2 & [r Hr]).
  exists k, {| controller := rest; controller_error := None;
               worker := worker y2; object := object y2 |}.
  split; [exact Hk |]. split.
  - cbn [exec]. rewrite H1, exec_app, He. cbn [exec step].
    unfold controller_step. rewrite Hc2, Hr. reflexivity.
  - cbn. repeat split; eauto.
Qed.

End StopReturns.

Lemma stop_after_flag_set_returns_witness :
  exists k y',
    (k <= 3)%nat /\
    ViconWrapper.exec Sample.unlabeled (Sample.world_of Sample.final_ok)
      (ViconWrapper.Controller
         :: repeat ViconWrapper.Worker k ++ [ViconWrapper.Controller])
      streaming_system = Some y' /\
    ViconWrapper.controller y' = [] /\
    ViconWrapper.controller_error y' = None /\
    exists r, ViconWrapper.worker y' = ViconWrapper.Terminated r.
Proof.
  apply (stop_after_flag_set_returns (F := Q) Sample.unlabeled
           (Sample.world_of Sample.final_ok) streaming_system []).
  - vm_compute. discriminate.
  - vm_compute. discriminate.
  - vm_compute. reflexivity.
Defined.

(** * The synthetic wrapper as a thread *)

Section SyntheticThreads.
Import VirtualViconWrapper VirtualThread.
Context {F : Type} {FO : PyFloat F}.

Local Open Scope Z_scope.

Lemma oblivious_generate cfg (d : frame_env F) k : oblivious (generate cfg d k).
Proof. unfold generate. cbv zeta iota beta. repeat oblivious_step. Qed.

Lemma oblivious_while_else (e : env F) : oblivious (while_else e).
Proof.
  unfold while_else. repeat oblivious_step.
  intros b s. unfold write_json. destruct (write_log e); reflexivity.
Qed.

Lemma streaming_iterations cfg (e : env F) fs : forall k s,
  streaming cfg e fs k s =
    bind (iterations cfg fs k) (fun _ => while_else e) s.
Proof.
  induction fs as [| d fs IH]; intros k s; cbn [streaming iterations].
  - reflexivity.
  - unfold bind at 1 2 3.
    destruct (generate cfg d k s) as [[k' | x] s1]; [apply IH | reflexivity].
Qed.

(** One more iteration after a prefix that went through. *)
Lemma iterations_snoc cfg (l : list (frame_env F)) d : forall k0 s0 k s',
  iterations cfg l k0 s0 = (Ok k, s') ->
  iterations cfg (l ++ [d]) k0 s0 = generate cfg d k s'.
Proof.
  induction l as [| d0 l IH]; intros k0 s0 k s'; cbn [app iterations].
  - intros H. inversion H; subst. unfold bind, ret.
    destruct (generate cfg d k s') as [[k' | x] s1]; reflexivity.
  - unfold bind at 1 2.
    destruct (generate cfg d0 k0 s0) as [[k1 | x] s1]; [apply IH | discriminate].
Qed.

Lemma iterations_next cfg (w : world F) i k s' :
  iterations cfg (map (w_ticks w) (seq 0 i)) 0 generating = (Ok k, s') ->
  iterations cfg (map (w_ticks w) (seq 0 (S i))) 0 generating =
    generate cfg (w_ticks w i) k s'.
Proof.
  intros H. rewrite seq_S, map_app. cbn [map Nat.add].
  apply iterations_snoc. exact H.
Qed.

Lemma run_generating cfg (e : env F) :
  run cfg e init_state = streaming cfg e (frames e) 0 generating.
Proof. reflexivity. Qed.

Lemma synthetic_worker_step_matches cfg (w : world F) (y : system F) p s :
  matches_synthetic_run cfg w (worker y) (object y) ->
  worker_step cfg w y = Some (p, s) ->
  matches_synthetic_run cfg w p s.
Proof.
  unfold worker_step.
  destruct (worker y) as [| | i k | r]; cbn [matches_synthetic_run].
  - discriminate.
  - intros [Hl Ht] E. inversion E; subst. cbn [matches_synthetic_run].
    exists generating. split; [reflexivity |].
    split; cbn; [exact Hl | rewrite Ht; reflexivity].
  - intros (s' & Hit & Hs).
    destruct (running (object y)).
    + destruct (oblivious_same (generate cfg (w_ticks w i) k) _ _
                  (oblivious_generate cfg (w_ticks w i) k) Hs) as [Hr Hd].
      pose proof (iterations_next cfg w i k s' Hit) as Hnext.
      destruct (generate cfg (w_ticks w i) k (object y)) as [[k' | x] s2];
        cbn [fst snd] in Hr, Hd; intros E; inversion E; subst;
        cbn [matches_synthetic_run].
      * exists (snd (generate cfg (w_ticks w i) k s')).
        split; [| exact Hd]. rewrite Hnext.
        destruct (generate cfg (w_ticks w i) k s') as [r1 s1].
        cbn [fst snd] in *. subst r1. reflexivity.
      * exists (S i), (snd (generate cfg (w_ticks w i) k s')).
        split; [| exact Hd].
        rewrite run_generating, streaming_iterations. cbn [session frames].
        unfold bind. rewrite Hnext.
        destruct (generate cfg (w_ticks w i) k s') as [r1 s1].
        cbn [fst snd] in *. subst r1. reflexivity.
    + destruct (oblivious_same (while_else (session w i)) _ _
                  (oblivious_while_else (session w i)) Hs) as [Hr Hd].
      destruct (while_else (session w i) (object y)) as [r s2].
      cbn [fst snd] in Hr, Hd. intros E. inversion E; subst.
      cbn [matches_synthetic_run].
      exists i, (snd (while_else (session w i) s')). split; [| exact Hd].
      rewrite run_generating, streaming_iterations. cbn [session frames].
      unfold bind. rewrite Hit. apply surjective_pairing.
  - discriminate.
Qed.

Lemma synthetic_controller_step_data (y y' : system F) :
  controller_step y = Some y' ->
  worker y' = worker y /\ same_data (object y') (object y) \/
  worker y = Idle /\ worker y' = Started /\ object y' = object y.
Proof.
  unfold controller_step.
  destruct (controller y) as [| [| |] rest]; [discriminate | | |].
  - destruct (worker y); intros E; inversion E; subst; cbn;
      auto; left; repeat split.
  - intros E. inversion E; subst. cbn. left. repeat split.
  - destruct (worker y); intros E; inversion E; subst; cbn;
      left; repeat split.
Qed.

Lemma synthetic_step_matches cfg (w : world F) a (y y' : system F) :
  matches_synthetic_run cfg w (worker y) (object y) ->
  step cfg w a y = Some y' ->
  matches_synthetic_run cfg w (worker y') (object y').
Proof.
  intros H. destruct a; cbn [step].
  - intros E. destruct (synthetic_controller_step_data y y' E)
      as [(Hw & Hsame) | (Hw & Hw' & Ho)].
    + rewrite Hw. destruct (worker y); cbn [matches_synthetic_run] in *.
      * eapply same_data_trans; eauto.
      * eapply same_data_trans; eauto.
      * destruct H as (s' & Hb & Hs).
        exists s'. split; [exact Hb | eapply same_data_trans; eauto].
      * destruct H as (n & s' & Hb & Hs).
        exists n, s'. split; [exact Hb | eapply same_data_trans; eauto].
    + rewrite Hw', Ho. rewrite Hw in H. exact H.
  - destruct (worker_step cfg w y) as [[p s] |] eqn:E; [| discriminate].
    intros E'. inversion E'; subst. cbn.
    eapply synthetic_worker_step_matches; eauto.
Qed.

Lemma synthetic_step_controller_ok cfg (w : world F) a (y y' : system F) :
  synthetic_controller_ok y ->
  step cfg w a y = Some y' ->
  synthetic_controller_ok y'.
Proof.
  intros [He Hc]. destruct a; cbn [step].
  - unfold controller_step.
    destruct Hc as [[Hp Hw] | [[[Hp | Hp] Hw] | [Hp [r Hw]]]]; rewrite Hp; cbn.
    + rewrite Hw. intros E. inversion E; subst. split; [reflexivity |].
      right. left. cbn. split; [left; reflexivity | discriminate].
    + intros E. inversion E; subst. split; [reflexivity |].
      right. left. cbn. split; [right; reflexivity | exact Hw].
    + destruct (worker y) eqn:Hwy; try discriminate; try contradiction.
      intros E. inversion E; subst. split; [reflexivity |].
      right. right. cbn. eauto.
    + discriminate.
  - destruct (worker_step cfg w y) as [[p s] |] eqn:E; [| discriminate].
    intros E'. inversion E'; subst. split; [exact He |]. cbn.
    unfold worker_step in E.
    destruct Hc as [[Hp Hw] | [[Hp Hw] | [Hp [r Hw]]]].
    + rewrite Hw in E. discriminate.
    + right. left. split; [exact Hp |].
      destruct (worker y); try contradiction.
      * inversion E. discriminate.
      * destruct (running (object y)).
        -- destruct (generate _ _ _ _) as [[k' | x] s2]; inversion E; discriminate.
        -- destruct (while_else _ _). inversion E. discriminate.
      * discriminate.
    + rewrite Hw in E. discriminate.
Qed.

Lemma synthetic_exec_invariant cfg (w : world F) schedule :
  forall (y y' : system F),
    matches_synthetic_run cfg w (worker y) (object y) ->
    (synthetic_controller_ok y -> True) ->
    exec cfg w schedule y = Some y' ->
    matches_synthetic_run cfg w (worker y') (object y') /\
    (synthetic_controller_ok y -> synthetic_controller_ok y').
Proof.
  induction schedule as [| a schedule IH]; intros y y' Hm _; cbn [exec].
  - intros E. inversion E; subst. auto.
  - destruct (step cfg w a y) as [y1 |] eqn:E; [| discriminate].
    intros E'.
    destruct (IH y1 y' (synthetic_step_matches cfg w a y y1 Hm E)
                (fun _ => I) E') as [H1 H2].
    split; [exact H1 |]. intros Hc. apply H2.
    eapply synthetic_step_controller_ok; eauto.
Qed.

(** A file is written exactly when [run] returns normally. *)
Lemma synthetic_run_written cfg (e : env F) :
  filter is_written (trace (snd (run cfg e init_state))) =
    match fst (run cfg e init_state) with
    | Ok _ => [Written (position_log (snd (run cfg e init_state)))]
    | Raise _ => []
    end.
Proof.
  rewrite run_is_streaming.
  destruct (first_raise cfg (frames e))
    as [Hall | (Hc & pre & d & post & x & Hfs & Hpre & Hx)].
  - rewrite (streaming_returns cfg e _ _ _ Hall).
    cbn [fst snd trace position_log app filter is_written].
    rewrite filter_app, (synthetic_events_filter cfg is_written _ eq_refl).
    rewrite andb_false_r. unfold while_else_events, while_else_outcome.
    destruct (write_log e); reflexivity.
  - rewrite Hfs, (streaming_raises cfg e pre d post x _ _ Hc Hpre Hx).
    cbn [fst snd trace position_log app filter is_written].
    rewrite filter_app, (synthetic_events_filter cfg is_written _ eq_refl).
    rewrite andb_false_r. reflexivity.
Qed.

(** X21.  Whatever the controlling thread does and however the two
    threads interleave, a synthetic worker that is over has done what
    [VirtualViconWrapper.run] does in the session in which the loop ran
    some number [n] of times: the same outcome, the same position log and
    the same trace. *)
Theorem synthetic_interleaving_refines_run cfg (w : world F) prog schedule
    (y : system F) r :
  exec cfg w schedule (boot prog) = Some y ->
  worker y = Terminated r ->
  exists n s',
    run cfg (session w n) init_state = (r, s') /\
    position_log s' = position_log (object y) /\
    trace s' = trace (object y).
Proof.
  intros E Hw.
  assert (H0 : matches_synthetic_run cfg w (worker (boot (F := F) prog))
                 (object (boot (F := F) prog))).
  { split; reflexivity. }
  destruct (synthetic_exec_invariant cfg w schedule _ _ H0 (fun _ => I) E)
    as [H _].
  rewrite Hw in H. destruct H as (n & s' & Hrun & Hl & Ht).
  exists n, s'. auto.
Qed.

(** X22.  [vw.start(); vw.stop()] on a synthetic wrapper, in any
    interleaving: [stop()] never raises and returns only when the worker
    is over, and it does not report how [run] ended.  A file has been
    written by then exactly when [run] returned normally, and it holds the
    position log; when the callback or the write raised in the worker,
    [stop()] returns normally all the same and there is no file. *)
Theorem synthetic_stop_hides_failure cfg (w : world F) schedule (y : system F) :
  exec cfg w schedule (boot (start ++ stop)) = Some y ->
  controller y = [] ->
  controller_error y = None /\
  exists r,
    worker y = Terminated r /\
    filter is_written (trace (object y)) =
      match r with
      | Ok _ => [Written (position_log (object y))]
      | Raise _ => []
      end.
Proof.
  intros E Hdone.
  assert (H0 : matches_synthetic_run cfg w
                 (worker (boot (F := F) (start ++ stop)))
                 (object (boot (F := F) (start ++ stop)))).
  { split; reflexivity. }
  assert (Hc0 : synthetic_controller_ok (boot (F := F) (start ++ stop))).
  { split; [reflexivity | left; split; reflexivity]. }
  destruct (synthetic_exec_invariant cfg w schedule _ _ H0 (fun _ => I) E)
    as [Hm Hc].
  destruct (Hc Hc0) as [He [[Hp _] | [[[Hp | Hp] _] | [_ [r Hw]]]]];
    try (rewrite Hp in Hdone; discriminate Hdone).
  split; [exact He |]. exists r. split; [exact Hw |].
  rewrite Hw in Hm. destruct Hm as (n & s' & Hrun & Hl & Ht).
  pose proof (synthetic_run_written cfg (session w n)) as Hwr.
  rewrite Hrun in Hwr. cbn [fst snd] in Hwr.
  rewrite Hl, Ht. exact Hwr.
Qed.

End SyntheticThreads.

Lemma synthetic_interleaving_refines_run_witness :
  exists n s',
    VirtualViconWrapper.run VirtualSample.with_callback
      (VirtualThread.session VirtualSessions.crashing_world n) init_state
      = (Raise (Exception "ValueError"), s') /\
    position_log s' =
      position_log (VirtualThread.object VirtualSessions.crashing_outcome) /\
    trace s' = trace (VirtualThread.object VirtualSessions.crashing_outcome).
Proof.
  apply (synthetic_interleaving_refines_run (F := Q) VirtualSample.with_callback
           VirtualSessions.crashing_world
           (VirtualThread.start ++ VirtualThread.stop)
           [ViconWrapper.Controller; ViconWrapper.Worker; ViconWrapper.Worker;
            ViconWrapper.Worker; ViconWrapper.Worker;
            ViconWrapper.Controller; ViconWrapper.Controller]
           VirtualSessions.crashing_outcome (Raise (Exception "ValueError"))).
  - vm_compute. reflexivity.
  - vm_compute. reflexivity.
Defined.

Lemma synthetic_stop_hides_failure_witness :
  VirtualThread.controller_error VirtualSessions.crashing_outcome = None /\
  exists r,
    VirtualThread.worker VirtualSessions.crashing_outcome
      = VirtualThread.Terminated r /\
    filter is_written
      (trace (VirtualThread.object VirtualSessions.crashing_outcome)) =
      match r with
      | Ok _ => [Written (position_log
                            (VirtualThread.object VirtualSessions.crashing_outcome))]
      | Raise _ => []
      end.
Proof.
  apply (synthetic_stop_hides_failure (F := Q) VirtualSample.with_callback
           VirtualSessions.crashing_world
           [ViconWrapper.Controller; ViconWrapper.Worker; ViconWrapper.Worker;
            ViconWrapper.Worker; ViconWrapper.Worker;
            ViconWrapper.Controller; ViconWrapper.Controller]
           VirtualSessions.crashing_outcome).
  - vm_compute. reflexivity.
  - vm_compute. reflexivity.
Defined.

(** * The script's main block *)

Section MainBlock.
Import ViconWrapper.
Context {F : Type} {FO : PyFloat F}.

Lemma worker_step_leaves_idle cfg (w : world F) (y : system F) p s :
  worker_step cfg w y = Some (p, s) -> p <> Idle.
Proof.
  unfold worker_step. destruct (worker y) as [| | | i | r | r].
  - discriminate.
  - intros E. inversion E. discriminate.
  - rewrite create_then_log. destruct (w_create_client w) as [u | x].
    + destruct (connecting _ _ _) as [[[] | x] s2].
      * intros E. inversion E. discriminate.
      * destruct (leave_try_phase (Raise x) s2) as [r' Hr'].
        destruct (leave_try (Raise x) s2). cbn in Hr'. subst.
        intros E. inversion E. discriminate.
    + intros E. inversion E. discriminate.
  - destruct (running (object y)).
    + destruct (poll _ _ _) as [[[] | x] s2].
      * intros E. inversion E. discriminate.
      * destruct (leave_try_phase (Raise x) s2) as [r' Hr'].
        destruct (leave_try (Raise x) s2). cbn in Hr'. subst.
        intros E. inversion E. discriminate.
    + destruct (leave_try_phase (Ok tt) (object y)) as [r' Hr'].
      destruct (leave_try (Ok tt) (object y)). cbn in Hr'. subst.
      intros E. inversion E. discriminate.
  - destruct (finally_ _ _ _). intros E. inversion E. discriminate.
  - discriminate.
Qed.

Lemma step_main_controller_ok cfg (w : world F) a (y y' : system F) :
  main_controller_ok y ->
  step cfg w a y = Some y' ->
  main_controller_ok y'.
Proof.
  intros [He Hc]. destruct a; cbn [step].
  - unfold controller_step.
    destruct Hc as [[Hp Hw] | [[[Hp | Hp] Hw] | [Hp [r Hw]]]]; rewrite Hp; cbn.
    + rewrite Hw. intros E. inversion E; subst. split; [reflexivity |].
      right. left. cbn. split; [left; reflexivity | discriminate].
    + intros E. inversion E; subst. split; [reflexivity |].
      right. left. cbn. split; [right; reflexivity | exact Hw].
    + destruct (worker y) eqn:Hwy; try discriminate; try contradiction.
      intros E. inversion E; subst. split; [reflexivity |].
      right. right. cbn. eauto.
    + discriminate.
  - destruct (worker_step cfg w y) as [[p s] |] eqn:E; [| discriminate].
    intros E'. inversion E'; subst. split; [exact He |]. cbn.
    destruct Hc as [[Hp Hw] | [[Hp Hw] | [Hp [r Hw]]]].
    + unfold worker_step in E. rewrite Hw in E. discriminate.
    + right. left. split; [exact Hp |].
      eapply worker_step_leaves_idle; exact E.
    + unfold worker_step in E. rewrite Hw in E. discriminate.
Qed.

Lemma exec_main_controller_ok cfg (w : world F) schedule :
  forall (y y' : system F),
    main_controller_ok y ->
    exec cfg w schedule y = Some y' ->
    main_controller_ok y'.
Proof.
  induction schedule as [| a schedule IH]; intros y y' Hc; cbn [exec].
  - intros E. inversion E; subst. exact Hc.
  - destruct (step cfg w a y) as [y1 |] eqn:E; [| discriminate].
    apply IH. eapply step_main_controller_ok; eauto.
Qed.

(** X23.  The script's main block (a wrapper without callback, in
    unlabeled-marker mode, started and then stopped), in any interleaving
    of the two threads: when the block is through, [start()] and [stop()]
    have not raised and the worker is over; no callback was called and no
    latency line was logged, so that the analyser finds nothing in the log
    of this script; and if the client object could be created and the file
    could be written, exactly one file was written, holding the position
    log. *)
Theorem main_block_outcome (w : world F) schedule (y : system F) :
  exec main_config w schedule (boot main_program) = Some y ->
  controller y = [] ->
  controller_error y = None /\
  (exists r, worker y = Terminated r) /\
  filter is_callback (trace (object y)) = [] /\
  filter is_latency_line (trace (object y)) = [] /\
  (w_create_client w = Ok tt -> write_log (w_final w) = Ok tt ->
   filter is_written (trace (object y)) = [Written (position_log (object y))]).
Proof.
  intros E Hdone.
  assert (Hc0 : main_controller_ok (boot (F := F) main_program)).
  { split; [reflexivity | left; split; reflexivity]. }
  destruct (exec_main_controller_ok main_config w schedule _ _ Hc0 E)
    as [He [[Hp _] | [[[Hp | Hp] _] | [_ [r Hw]]]]];
    try (rewrite Hp in Hdone; discriminate Hdone).
  split; [exact He |]. split; [eauto |].
  assert (Hm0 : matches_run main_config w (worker (boot (F := F) main_program))
                  (object (boot (F := F) main_program))).
  { split; reflexivity. }
  pose proof (exec_matches main_config w schedule _ _ Hm0 E) as Hm.
  rewrite Hw in Hm. destruct Hm as (n & s' & Hrun & Hl & Ht).
  pose proof (no_callback_events false (session w n)) as Hall.
  change {| callback := false; labeled_object := false |} with main_config in Hall.
  rewrite Hrun in Hall. cbn [snd] in Hall. rewrite <- Ht in Hall.
  split; [| split].
  - apply filter_none. eapply Forall_impl; [| exact Hall].
    intros ev (H1 & _). exact H1.
  - apply filter_none. eapply Forall_impl; [| exact Hall].
    intros ev (_ & H2 & _). exact H2.
  - intros Hcreate Hwrite.
    assert (Hp0 : phase_ok w (worker (boot (F := F) main_program))
                    (object (boot (F := F) main_program))) by constructor.
    pose proof (exec_phase_ok main_config w schedule _ _ Hp0 E) as Hp.
    rewrite Hw in Hp. cbn [phase_ok] in Hp.
    destruct Hp as (pre & Hpre & Htr). rewrite Hcreate in Htr.
    rewrite Htr, filter_app, (quiet_not_written _ Hpre),
      stopping_events_written, Hwrite.
    reflexivity.
Qed.

End MainBlock.

Lemma main_block_outcome_witness :
  ViconWrapper.controller_error main_outcome = None /\
  (exists r, ViconWrapper.worker main_outcome = ViconWrapper.Terminated r) /\
  filter is_callback (trace (ViconWrapper.object main_outcome)) = [] /\
  filter is_latency_line (trace (ViconWrapper.object main_outcome)) = [] /\
  (Ok tt = Ok tt -> Ok tt = Ok tt ->
   filter is_written (trace (ViconWrapper.object main_outcome)) =
     [Written (position_log (ViconWrapper.object main_outcome))]).
Proof.
  apply (main_block_outcome (F := Q) (Sample.world_of Sample.final_ok)
           [ViconWrapper.Controller; ViconWrapper.Worker; ViconWrapper.Worker;
            ViconWrapper.Worker; ViconWrapper.Controller; ViconWrapper.Worker;
            ViconWrapper.Worker; ViconWrapper.Controller]
           main_outcome).
  - vm_compute. reflexivity.
  - vm_compute. reflexivity.
Defined.
